(** * ShazamIO pipeline: a shallow embedding of [testyboy.py], [clean.py]
    and [test_ui.py], and the properties of the chunked recognition
    pipeline checked against it.

    Python values are embedded as an inductive type of JSON-like data,
    exceptions as an explicit error result, and the external collaborators
    (yt-dlp, the audio decoder, the Shazam service, the slskd transport) as
    the fields of a [world] record that the functions consult. *)

From Stdlib Require Import Ascii String.
From stdpp Require Import base numbers list strings pretty.

Set Warnings "-register-all".

Local Open Scope string_scope.
Local Open Scope Z_scope.
Local Open Scope list_scope.

(** ** Python values, exceptions and the primitive operations used *)

Module Py.

(** JSON-shaped Python data: [None], booleans, integers, strings, lists and
    dictionaries with string keys (kept in insertion order).  Floating-point
    numbers do not occur among them; the floats of [pydub] are in [Pydub]. *)
Inductive value : Type :=
  | VNone
  | VBool (b : bool)
  | VInt (n : Z)
  | VStr (s : string)
  | VList (xs : list value)
  | VDict (kvs : list (string * value)).

(** The exception classes that the program raises, catches or lets pass. *)
Inductive exn_class : Type :=
  | KeyboardInterrupt      (* BaseException, not an Exception *)
  | CancelledError         (* asyncio; BaseException, not an Exception *)
  | PlainException         (* raise Exception(...) *)
  | AttributeError
  | KeyError
  | TypeError
  | IndexError
  | ZeroDivisionError
  | OverflowError
  | OSError
  | TimeoutError
  | ValueError
  | CalledProcessError     (* subprocess *)
  | RequestException       (* requests *)
  | RequestsConnectionError
  | RequestsHTTPError
  | RequestsTimeout.

(** An exception object: its class and [str(e)]. *)
Record exn : Type := Exn { exn_cls : exn_class; exn_str : string }.

(** [isinstance(e, Exception)] *)
Definition is_Exception (e : exn) : bool :=
  match exn_cls e with
  | KeyboardInterrupt | CancelledError => false
  | _ => true
  end.

(** [isinstance(e, requests.RequestException)] *)
Definition is_RequestException (e : exn) : bool :=
  match exn_cls e with
  | RequestException | RequestsConnectionError
  | RequestsHTTPError | RequestsTimeout => true
  | _ => false
  end.

(** The outcome of evaluating an expression: a value or a raised exception. *)
Inductive result (A : Type) : Type :=
  | Ok (a : A)
  | Raise (e : exn).
Arguments Ok {A} a.
Arguments Raise {A} e.

Definition bind {A B : Type} (m : result A) (k : A -> result B) : result B :=
  match m with
  | Ok a => k a
  | Raise e => Raise e
  end.

(** [try: m except C as e: h e], where [catches] decides [isinstance(e, C)]. *)
Definition try_except {A : Type} (m : result A) (catches : exn -> bool)
    (h : exn -> result A) : result A :=
  match m with
  | Ok a => Ok a
  | Raise e => if catches e then h e else Raise e
  end.

(** Truth value of an object, as tested by [if x] and [and]. *)
Definition truthy (v : value) : bool :=
  match v with
  | VNone => false
  | VBool b => b
  | VInt n => negb (n =? 0)
  | VStr s => negb (String.eqb s "")
  | VList xs => match xs with [] => false | _ => true end
  | VDict kvs => match kvs with [] => false | _ => true end
  end.

(** Lookup of a key in the items of a dictionary. *)
Fixpoint assoc (k : string) (kvs : list (string * value)) : option value :=
  match kvs with
  | [] => None
  | (k', v) :: rest => if String.eqb k k' then Some v else assoc k rest
  end.

Definition type_name (v : value) : string :=
  match v with
  | VNone => "NoneType"
  | VBool _ => "bool"
  | VInt _ => "int"
  | VStr _ => "str"
  | VList _ => "list"
  | VDict _ => "dict"
  end.

(** [v.get(k, default)]: only dictionaries have a [get] method. *)
Definition py_get (v : value) (k : string) (default : value) : result value :=
  match v with
  | VDict kvs => Ok (match assoc k kvs with Some x => x | None => default end)
  | _ => Raise (Exn AttributeError
                  ("'" +:+ type_name v +:+ "' object has no attribute 'get'"))
  end.

(** [v[k]] for a string key [k]. *)
Definition py_getitem (v : value) (k : string) : result value :=
  match v with
  | VDict kvs =>
      match assoc k kvs with
      | Some x => Ok x
      | None => Raise (Exn KeyError ("'" +:+ k +:+ "'"))
      end
  | VStr _ => Raise (Exn TypeError "string indices must be integers")
  | VList _ => Raise (Exn TypeError "list indices must be integers or slices, not str")
  | _ => Raise (Exn TypeError
                  ("'" +:+ type_name v +:+ "' object is not subscriptable"))
  end.

(** [v[0]] *)
Definition py_first (v : value) : result value :=
  match v with
  | VList (x :: _) => Ok x
  | VList [] => Raise (Exn IndexError "list index out of range")
  | VStr (String c _) => Ok (VStr (String c ""))
  | VStr "" => Raise (Exn IndexError "string index out of range")
  | VDict kvs => Raise (Exn KeyError "0")
  | _ => Raise (Exn TypeError
                  ("'" +:+ type_name v +:+ "' object is not subscriptable"))
  end.

Fixpoint chars (s : string) : list value :=
  match s with
  | EmptyString => []
  | String c rest => VStr (String c "") :: chars rest
  end.

(** The items produced by [for x in v]. *)
Definition py_iter (v : value) : result (list value) :=
  match v with
  | VList xs => Ok xs
  | VStr s => Ok (chars s)
  | VDict kvs => Ok (map (fun kv => VStr (fst kv)) kvs)
  | _ => Raise (Exn TypeError
                  ("'" +:+ type_name v +:+ "' object is not iterable"))
  end.

(** [v == s] for a string literal [s]. *)
Definition eq_str (v : value) (s : string) : bool :=
  match v with
  | VStr s' => String.eqb s' s
  | _ => false
  end.

(** Hashable objects can be members of a [set]. *)
Definition hashable (v : value) : bool :=
  match v with
  | VList _ | VDict _ => false
  | _ => true
  end.

(** Hashable objects are compared through a canonical form: [True == 1] and
    [False == 0] in Python, so booleans and integers share set slots. *)
Definition canon (v : value) : value :=
  match v with
  | VBool b => VInt (if b then 1 else 0)
  | _ => v
  end.

Definition atom_eqb (a b : value) : bool :=
  match canon a, canon b with
  | VNone, VNone => true
  | VInt m, VInt n => m =? n
  | VStr s, VStr t => String.eqb s t
  | _, _ => false
  end.

(** [k in seen] for a set [seen], kept as the list of its members. *)
Definition set_contains (seen : list value) (k : value) : result bool :=
  if hashable k then Ok (existsb (atom_eqb k) seen)
  else Raise (Exn TypeError ("unhashable type: '" +:+ type_name k +:+ "'")).

(** Monadic iteration helpers for [for] loops and comprehensions. *)
Fixpoint foldM {S A : Type} (f : S -> A -> result S) (s : S) (xs : list A)
    : result S :=
  match xs with
  | [] => Ok s
  | x :: rest => bind (f s x) (fun s' => foldM f s' rest)
  end.

Fixpoint mapM {A B : Type} (f : A -> result B) (xs : list A)
    : result (list B) :=
  match xs with
  | [] => Ok []
  | x :: rest => bind (f x) (fun y => bind (mapM f rest) (fun ys => Ok (y :: ys)))
  end.

End Py.

Import Py.

Notation "'let*' x ':=' m 'in' k" := (bind m (fun x => k))
  (at level 10, x name, m at level 100, k at level 200).

(** ** The external collaborators *)

(** Path and string helpers of the Python standard library. *)
Module OsPath.

Definition startswith (s p : string) : bool := String.prefix p s.

Definition endswith (s p : string) : bool :=
  String.prefix (String.rev p) (String.rev s).

(** [os.path.join(a, b)] on POSIX. *)
Definition join (a b : string) : string :=
  if startswith b "/" then b
  else if String.eqb a "" || endswith a "/" then a +:+ b
  else a +:+ "/" +:+ b.

(** [s.rfind(c)]: the last index of [c] in [s], or -1. *)
Fixpoint rfind_from (c : ascii) (s : string) (i best : Z) : Z :=
  match s with
  | EmptyString => best
  | String a rest => rfind_from c rest (i + 1) (if Ascii.eqb a c then i else best)
  end.

Definition rfind (c : ascii) (s : string) : Z := rfind_from c s 0 (-1).

Fixpoint all_dots (s : string) : bool :=
  match s with
  | EmptyString => true
  | String a rest => Ascii.eqb a "." && all_dots rest
  end.

(** [os.path.splitext(p)[0]]: the extension starts at the last dot after
    the last separator, leading dots of the file name not counted. *)
Definition splitext_root (p : string) : string :=
  let sepIndex := rfind "/" p in
  let dotIndex := rfind "." p in
  if (sepIndex <? dotIndex)
     && negb (all_dots (String.substring (Z.to_nat (sepIndex + 1))
                          (Z.to_nat (dotIndex - sepIndex - 1)) p))
  then String.substring 0 (Z.to_nat dotIndex) p
  else p.

(** [s.replace(":", "_")] *)
Fixpoint replace_colons (s : string) : string :=
  match s with
  | EmptyString => EmptyString
  | String a rest =>
      String (if Ascii.eqb a ":" then "_"%char else a) (replace_colons rest)
  end.

(** [f"{n:02}"] for an integer [n >= 0]. *)
Definition pad2 (n : Z) : string :=
  if n <? 10 then "0" +:+ pretty n else pretty n.

End OsPath.

(** [pydub]: a decoded [AudioSegment] is represented by its length in
    milliseconds, and a slice of it by its bounds. *)
Module Pydub.

Record segment : Type := Segment { seg_start : Z; seg_stop : Z }.

(** *** The float arithmetic of [make_chunks]

    [make_chunks] divides by [float(chunk_length)].  The floats that occur
    are IEEE doubles; a double is written here by the integers that
    determine it (its value, or a mantissa and a binary exponent), and the
    two roundings, of the conversion and of the quotient, are to nearest
    with ties to even. *)

(** The integers that [float] refuses with an [OverflowError] are those of
    magnitude at least [float_limit]: they would round to [2 ^ 1024]. *)
Definition float_limit : Z := 2 ^ 1024 - 2 ^ 970.

Definition float_overflows (n : Z) : bool := float_limit <=? Z.abs n.

(** The integer nearest to [n / d], the even one of two that are equally
    near, for [0 <= n] and [0 < d]. *)
Definition round_half_even (n d : Z) : Z :=
  let q := n `div` d in
  let r := n `mod` d in
  if 2 * r <? d then q
  else if d <? 2 * r then q + 1
  else if Z.even q then q else q + 1.

(** The value of [float(n)] for an [n] that does not overflow: [n] itself
    up to 53 bits, and [n] rounded to 53 significant bits beyond. *)
Definition float_of_int (n : Z) : Z :=
  let e := Z.log2 (Z.abs n) - 52 in
  if e <=? 0 then n
  else Z.sgn n * (round_half_even (Z.abs n) (2 ^ e) * 2 ^ e).

(** [a / (b * 2 ^ k)] as a fraction of integers. *)
Definition scaled (a b k : Z) : Z * Z :=
  (a * 2 ^ Z.max 0 (- k), b * 2 ^ Z.max 0 k).

(** [x / y] for two doubles of integer values [x] and [y <> 0]: the double
    [m * 2 ^ k] nearest to the quotient, given as [(m, k)].  The exponent
    [k] is the one that leaves a mantissa of 53 bits, and not less than
    -1074, the exponent of the subnormal doubles. *)
Definition float_quotient (x y : Z) : Z * Z :=
  let a := Z.abs x in
  let b := Z.abs y in
  if a =? 0 then (0, 0)
  else
    let k0 := Z.log2 a - Z.log2 b - 53 in
    let k1 := if fst (scaled a b k0) <? 2 ^ 53 * snd (scaled a b k0)
              then k0 else k0 + 1 in
    let k := Z.max k1 (-1074) in
    (Z.sgn x * Z.sgn y
     * round_half_even (fst (scaled a b k)) (snd (scaled a b k)), k).

(** [math.ceil] of the double [m * 2 ^ k]. *)
Definition ceil_float (f : Z * Z) : Z :=
  let (m, k) := f in
  if 0 <=? k then m * 2 ^ k else - ((- m) `div` 2 ^ (- k)).

(** [number_of_chunks = ceil(len(audio) / float(chunk_length))]: the
    divisor is converted first, then the length for the division, which
    refuses a zero divisor. *)
Definition number_of_chunks (audio_len chunk_length : Z) : result Z :=
  if float_overflows chunk_length
  then Raise (Exn OverflowError "int too large to convert to float")
  else if float_overflows audio_len
  then Raise (Exn OverflowError "int too large to convert to float")
  else if chunk_length =? 0
  then Raise (Exn ZeroDivisionError "float division by zero")
  else Ok (ceil_float (float_quotient (float_of_int audio_len)
                         (float_of_int chunk_length))).

(** [audio[i * chunk_length : (i + 1) * chunk_length]], the slice bounds
    clamped to the length of the audio. *)
Definition slice (audio_len start stop : Z) : segment :=
  Segment (Z.min start audio_len) (Z.min stop audio_len).

(** [pydub.utils.make_chunks(audio, chunk_length)]:
    [[audio[i * chunk_length:(i + 1) * chunk_length]
      for i in range(int(number_of_chunks))]]. *)
Definition make_chunks (audio_len chunk_length : Z) : result (list segment) :=
  let* n := number_of_chunks audio_len chunk_length in
  Ok (map (fun i : nat =>
             slice audio_len (Z.of_nat i * chunk_length)
               ((Z.of_nat i + 1) * chunk_length))
        (seq 0 (Z.to_nat n))).

End Pydub.

(** How [subprocess.run(..., check=True)] ended: the child ran and exited
    with a return code (its captured standard error decoded as text), or
    could not be started at all, [run] raising an exception that is not a
    [CalledProcessError]. *)
Inductive run_outcome : Type :=
  | Exited (returncode : Z) (stderr : string)
  | NotStarted (e : exn).

(** An HTTP response of the [requests] library. *)
Record response : Type := Response {
  http_error : option string;   (* the error of a 4xx/5xx status, if any *)
  body_json : result value      (* what [response.json()] evaluates to *)
}.

(** Everything outside the program that a run depends on. *)
Record world : Type := World {
  yt_dlp : string -> string -> run_outcome;   (* url, temp_dir *)
  listdir : string -> list string;            (* os.listdir after the download *)
  from_file : value -> result Z;              (* AudioSegment.from_file, len in ms *)
  recognize : string -> result value;         (* Shazam().recognize(file_path) *)
  post : string -> value -> result response;  (* requests.post(url, json=payload) *)
  qt_type_error : list value -> string        (* str(e) of the TypeError of PyQt
                                                 for columns that are not all str *)
}.

(** ** [testyboy.py] *)

Module Testyboy.

(** [download_youtube_audio(youtube_url, temp_dir)].  A function body that
    ends without [return] evaluates to [None]. *)
Definition download_youtube_audio (w : world) (youtube_url temp_dir : string)
    : result value :=
  match yt_dlp w youtube_url temp_dir with
  | NotStarted e => Raise e
  | Exited returncode stderr =>
      if returncode =? 0 then
        match List.filter (fun file => OsPath.startswith file "audio_file"
                                       && OsPath.endswith file ".mp3")
                (listdir w temp_dir) with
        | file :: _ => Ok (VStr (OsPath.join temp_dir file))
        | [] => Ok VNone
        end
      else
        (* check=True raises CalledProcessError, which the handler turns
           into Exception(f"Error downloading audio: {e.stderr.decode()}") *)
        Raise (Exn PlainException ("Error downloading audio: " +:+ stderr))
  end.

(** [timedelta(seconds=seconds)], kept as its number of seconds: the
    constructor refuses a duration of more than 999999999 days, either
    way, with an [OverflowError]. *)
Definition timedelta (seconds : Z) : result Z :=
  let days := seconds `div` 86400 in
  if (days <? - 2 ^ 31) || (2 ^ 31 <=? days)
  then Raise (Exn OverflowError "Python int too large to convert to C int")
  else if 999999999 <? Z.abs days
  then Raise (Exn OverflowError
                ("days=" +:+ pretty days
                 +:+ "; must have magnitude <= 999999999"))
  else Ok seconds.

(** [str(delta)] for a [timedelta] of [seconds] seconds. *)
Definition timedelta_str (seconds : Z) : string :=
  let days := seconds `div` 86400 in
  let secs := seconds `mod` 86400 in
  let mm := secs `div` 60 in
  let ss := secs `mod` 60 in
  let hh := mm `div` 60 in
  let mm := mm `mod` 60 in
  let s := pretty hh +:+ ":" +:+ OsPath.pad2 mm +:+ ":" +:+ OsPath.pad2 ss in
  if days =? 0 then s
  else pretty days +:+ " day" +:+ (if Z.abs days =? 1 then "" else "s")
       +:+ ", " +:+ s.

Definition format_time (milliseconds : Z) : result string :=
  let seconds := milliseconds `div` 1000 in
  let* delta := timedelta seconds in
  let time_format := timedelta_str delta in
  Ok (OsPath.replace_colons time_format).

(** [os.path.splitext(audio_file)[0]] *)
Definition splitext_root_of (audio_file : value) : result string :=
  match audio_file with
  | VStr p => Ok (OsPath.splitext_root p)
  | _ => Raise (Exn TypeError
                  ("expected str, bytes or os.PathLike object, not "
                   +:+ type_name audio_file))
  end.

(** [split_audio_into_chunks(audio_file, chunk_duration=40)]: the paths of
    the exported chunks, in order. *)
Definition split_audio_into_chunks (w : world) (audio_file : value)
    (chunk_duration : Z) : result (list string) :=
  let* audio := from_file w audio_file in
  let* chunks := Pydub.make_chunks audio (chunk_duration * 1000) in
  mapM (fun i : nat =>
          let* start_time := format_time (Z.of_nat i * chunk_duration * 1000) in
          let* root := splitext_root_of audio_file in
          Ok (root +:+ "_chunk_" +:+ start_time +:+ ".mp3"))
       (seq 0 (length chunks)).

(** [analyze_chunk_with_shazam(file_path)]: the [try] block holds the one
    call of the service; building the [Shazam] client does not fail. *)
Definition analyze_chunk_with_shazam (w : world) (file_path : string)
    : result value :=
  try_except (recognize w file_path) is_Exception (fun e => Ok VNone).

(** The two inner loops of [extract_track_info], threading the current
    [(album, year_released)] pair. *)
Definition scan_meta (st : value * value) (meta : value)
    : result (value * value) :=
  let* t := py_get meta "title" VNone in
  let* st1 :=
    (if eq_str t "Album"
     then let* album := py_get meta "text" (VStr "Unknown Album") in
          Ok (album, snd st)
     else Ok st) in
  let* t' := py_get meta "title" VNone in
  if eq_str t' "Released"
  then let* year_released := py_get meta "text" (VStr "Unknown Year") in
       Ok (fst st1, year_released)
  else Ok st1.

Definition scan_section (st : value * value) (section : value)
    : result (value * value) :=
  let* metadata := py_get section "metadata" (VList []) in
  let* metas := py_iter metadata in
  foldM scan_meta st metas.

(** [extract_track_info(entry, timestamp)] *)
Definition extract_track_info (entry timestamp : value) : result value :=
  let* track_info := py_get entry "track" (VDict []) in
  let* title := py_get track_info "title" (VStr "Unknown Track Name") in
  let* artist := py_get track_info "subtitle" (VStr "Unknown Artist") in
  let* genres := py_get track_info "genres" (VDict []) in
  let* genre := py_get genres "primary" (VStr "Unknown Genre") in
  let* sections := py_get track_info "sections" (VList []) in
  let* secs := py_iter sections in
  let* found := foldM scan_section
                  (VStr "Unknown Album", VStr "Unknown Year") secs in
  Ok (VDict [ ("Track Name", title);
              ("Artist", artist);
              ("Album", fst found);
              ("Genre", genre);
              ("Year Released", snd found);
              ("Timestamp", timestamp) ]).

(** One iteration of the loop of [deduplicate_results] on the state
    [(seen, deduplicated)]. *)
Definition dedup_step (st : list value * list value) (result : value)
    : Py.result (list value * list value) :=
  let '(seen, deduplicated) := st in
  if negb (truthy result) then Ok st else
  let* track := py_get result "track" VNone in
  if negb (truthy track) then Ok st else
  let* track' := py_getitem result "track" in
  let* key := py_getitem track' "key" in
  let* present := set_contains seen key in
  if present then Ok st
  else Ok (key :: seen, deduplicated ++ [result]).

(** [deduplicate_results(results)] *)
Definition deduplicate_results (results : list value) : result (list value) :=
  let* st := foldM dedup_step ([], []) results in
  Ok (snd st).

(** The recognition loop of [main]. *)
Definition analyze_step (w : world) (results : list value) (chunk : string)
    : result (list value) :=
  let* result := analyze_chunk_with_shazam w chunk in
  if truthy result then Ok (results ++ [result]) else Ok results.

Definition analyze_all (w : world) (chunks : list string)
    : result (list value) :=
  foldM (analyze_step w) [] chunks.

(** The comprehension at the end of [main]:
    [[extract_track_info(result, chunk["timestamp"])
      for result, chunk in zip(deduplicated_results, results)]]. *)
Definition extract_all (deduplicated_results results : list value)
    : result (list value) :=
  mapM (fun rc : value * value =>
          let* timestamp := py_getitem (snd rc) "timestamp" in
          extract_track_info (fst rc) timestamp)
       (zip deduplicated_results results).

(** The part of [main] after the audio file is obtained. *)
Definition main_after_download (w : world) (audio_file : value)
    : result (list value) :=
  let* chunks := split_audio_into_chunks w audio_file 40 in
  let* results := analyze_all w chunks in
  let* deduplicated_results := deduplicate_results results in
  extract_all deduplicated_results results.

(** What [main] reports on standard output at the end of a run. *)
Inductive report : Type :=
  | FinalList (extracted_info : list value)
  | AnErrorOccurred (e : exn).

(** [main()], for the URL read from the user and the temporary directory. *)
Definition main (w : world) (youtube_url temp_dir : string) : result report :=
  try_except
    (let* audio_file := download_youtube_audio w youtube_url temp_dir in
     let* extracted_info := main_after_download w audio_file in
     Ok (FinalList extracted_info))
    is_Exception
    (fun e => Ok (AnErrorOccurred e)).

End Testyboy.

(** ** [clean.py] *)

Module Clean.

(** [next((meta.get("text") for meta in metas if meta.get("title") == key),
          default)] *)
Fixpoint first_text (key : string) (metas : list value) (default : value)
    : result value :=
  match metas with
  | [] => Ok default
  | meta :: rest =>
      let* t := py_get meta "title" VNone in
      if eq_str t key then py_get meta "text" VNone
      else first_text key rest default
  end.

(** The iterable of both generator expressions:
    [track.get("sections", [{}])[0].get("metadata", [])]. *)
Definition first_section_metadata (track : value) : result (list value) :=
  let* sections := py_get track "sections" (VList [VDict []]) in
  let* section := py_first sections in
  let* metadata := py_get section "metadata" (VList []) in
  py_iter metadata.

(** The body of the loop of [extract_track_info(data)]. *)
Definition extract_item (extracted_tracks : list value) (item : value)
    : result (list value) :=
  let* track := py_get item "track" (VDict []) in
  if truthy track then
    let* title := py_get track "title" (VStr "Unknown Title") in
    let* subtitle := py_get track "subtitle" (VStr "Unknown Artist") in
    let* metas := first_section_metadata track in
    let* album := first_text "Album" metas (VStr "Unknown Album") in
    let* genres := py_get track "genres" (VDict []) in
    let* genre := py_get genres "primary" (VStr "Unknown Genre") in
    let* metas' := first_section_metadata track in
    let* release_year := first_text "Released" metas' (VStr "Unknown Year") in
    Ok (extracted_tracks ++
          [VDict [ ("Artist", subtitle);
                   ("Album", album);
                   ("Track Name", title);
                   ("Genre", genre);
                   ("Year Released", release_year) ]])
  else Ok extracted_tracks.

(** [extract_track_info(data)] *)
Definition extract_track_info (data : list value) : result (list value) :=
  foldM extract_item [] data.

End Clean.

(** ** [test_ui.py] *)

Module TestUi.

Definition SLSKD_URL : string := "http://localhost:5150/jsonrpc".

(** The state of the [App] widget that the pipeline reads and writes. *)
Record app : Type := App { tracks : list value; status_label : string }.

(** An element of [chunk_paths]: [{"file": ..., "timestamp": ...}]. *)
Record chunk : Type := Chunk { file : string; timestamp : string }.

(** An element of [results]: [{"data": ..., "chunk_timestamp": ...}]. *)
Record tagged : Type := Tagged { data : value; chunk_timestamp : string }.

(** [App.download_youtube_audio]: the same body as in [testyboy.py]. *)
Definition download_youtube_audio (w : world) (youtube_url temp_dir : string)
    : result value :=
  match yt_dlp w youtube_url temp_dir with
  | NotStarted e => Raise e
  | Exited returncode stderr =>
      if returncode =? 0 then
        match List.filter (fun file => OsPath.startswith file "audio_file"
                                       && OsPath.endswith file ".mp3")
                (listdir w temp_dir) with
        | file :: _ => Ok (VStr (OsPath.join temp_dir file))
        | [] => Ok VNone
        end
      else
        Raise (Exn PlainException ("Error downloading audio: " +:+ stderr))
  end.

(** [f"{(i * chunk_duration) // 60}:{(i * chunk_duration) % 60:02}"] *)
Definition start_time (i chunk_duration : Z) : string :=
  pretty ((i * chunk_duration) `div` 60) +:+ ":"
  +:+ OsPath.pad2 ((i * chunk_duration) `mod` 60).

(** [App.split_audio_into_chunks(audio_file, chunk_duration=40)] *)
Definition split_audio_into_chunks (w : world) (audio_file : value)
    (chunk_duration : Z) : result (list chunk) :=
  let* audio := from_file w audio_file in
  let* chunks := Pydub.make_chunks audio (chunk_duration * 1000) in
  mapM (fun i : nat =>
          let start_time := start_time (Z.of_nat i) chunk_duration in
          let* root := Testyboy.splitext_root_of audio_file in
          Ok (Chunk (root +:+ "_chunk_" +:+ start_time +:+ ".mp3") start_time))
       (seq 0 (length chunks)).

(** [App.analyze_chunk_with_shazam(file_path)] *)
Definition analyze_chunk_with_shazam (w : world) (file_path : string)
    : result value :=
  try_except (recognize w file_path) is_Exception (fun e => Ok VNone).

(** [App.extract_track_info(entry, chunk_timestamp)] *)
Definition extract_track_info (entry chunk_timestamp : value) : result value :=
  let* track_info := py_get entry "track" (VDict []) in
  let* title := py_get track_info "title" (VStr "Unknown") in
  let* artist := py_get track_info "subtitle" (VStr "Unknown") in
  Ok (VDict [ ("Track Name", title);
              ("Artist", artist);
              ("Timestamp", chunk_timestamp) ]).

(** The recognition loop of [process_pipeline]. *)
Definition analyze_step (w : world) (results : list tagged) (c : chunk)
    : result (list tagged) :=
  let* result := analyze_chunk_with_shazam w (file c) in
  if truthy result then Ok (results ++ [Tagged result (timestamp c)])
  else Ok results.

Definition analyze_all (w : world) (chunks : list chunk)
    : result (list tagged) :=
  foldM (analyze_step w) [] chunks.

(** The comprehension assigned to [self.tracks]. *)
Definition extract_all (results : list tagged) : result (list value) :=
  mapM (fun r => extract_track_info (data r) (VStr (chunk_timestamp r)))
       results.

(** [QTreeWidgetItem(columns)]: the constructor takes a list of strings and
    raises a [TypeError] for a list with any other element.  The rows of
    the tree are not kept. *)
Definition is_str (v : value) : bool :=
  match v with VStr _ => true | _ => false end.

Definition tree_item (w : world) (columns : list value) : result unit :=
  if forallb is_str columns then Ok tt
  else Raise (Exn TypeError (qt_type_error w columns)).

(** [App.update_track_list], reading [self.tracks]. *)
Definition update_track_list (w : world) (self : app) : result unit :=
  foldM (fun _ track =>
           let* name := py_getitem track "Track Name" in
           let* artist := py_getitem track "Artist" in
           let* timestamp := py_getitem track "Timestamp" in
           tree_item w [name; artist; timestamp])
        tt (tracks self).

(** [self.status_label.setText(text)] *)
Definition set_status (self : app) (text : string) : app :=
  App (tracks self) text.

(** The statements of the [try] block of [process_pipeline] after the
    download: the state of the widget when the block ends, and how it
    ends. *)
Definition process_after_download (w : world) (self : app) (audio_file : value)
    : app * result unit :=
  let self := set_status self "Splitting audio into chunks..." in
  match split_audio_into_chunks w audio_file 40 with
  | Raise e => (self, Raise e)
  | Ok chunks =>
      let self := set_status self "Analyzing audio chunks..." in
      match (let* results := analyze_all w chunks in extract_all results) with
      | Raise e => (self, Raise e)
      | Ok new_tracks =>
          let self := App new_tracks (status_label self) in
          match update_track_list w self with
          | Raise e => (self, Raise e)
          | Ok _ =>
              (set_status self
                 "Processing complete. Double-click a track to search Soulseek.",
               Ok tt)
          end
      end
  end.

(** The end of the [try] statement: [except Exception as e] writes the
    error to the status label of the widget as the block left it. *)
Definition finish (block : app * result unit) : result app :=
  let '(self, outcome) := block in
  match outcome with
  | Ok _ => Ok self
  | Raise e =>
      if is_Exception e then Ok (set_status self ("Error: " +:+ exn_str e))
      else Raise e
  end.

(** [App.process_pipeline]: [url] is the text of the input field.  Of the
    Qt widgets the text of the status label is kept. *)
Definition process_pipeline (w : world) (self : app) (url temp_dir : string)
    : result app :=
  if negb (truthy (VStr url))
  then Ok (set_status self "Error: Please enter a YouTube URL.")
  else
    let self := set_status self "Downloading audio..." in
    finish
      match download_youtube_audio w url temp_dir with
      | Raise e => (self, Raise e)
      | Ok audio_file => process_after_download w self audio_file
      end.

(** [response.raise_for_status()] *)
Definition raise_for_status (r : response) : result unit :=
  match http_error r with
  | Some msg => Raise (Exn RequestsHTTPError msg)
  | None => Ok tt
  end.

(** The JSON-RPC request of [slskd_search]. *)
Definition payload (track_name : string) : value :=
  VDict [ ("jsonrpc", VStr "2.0");
          ("method", VStr "search");
          ("params", VDict [("query", VStr track_name)]);
          ("id", VInt 1) ].

(** [App.slskd_search(track_name)] *)
Definition slskd_search (w : world) (track_name : string) : result value :=
  try_except
    (let* response := post w SLSKD_URL (payload track_name) in
     let* _ := raise_for_status response in
     let* body := body_json response in
     py_get body "result" (VList []))
    is_RequestException
    (fun e => Ok (VList [VDict [ ("username", VStr "Error");
                                 ("path", VStr (exn_str e));
                                 ("filesize", VStr "N/A") ]])).

End TestUi.

(** ** Notions used to state the properties *)

Module Spec.

(** *** Track identities and first occurrences *)

(** The track identity of a recognition result, [result['track']['key']],
    when the result carries one that can be put in a set. *)
Definition identity (r : value) : option value :=
  match r with
  | VDict kvs =>
      match assoc "track" kvs with
      | Some (VDict tkvs) =>
          match assoc "key" tkvs with
          | Some k => if hashable k then Some k else None
          | None => None
          end
      | _ => None
      end
  | _ => None
  end.

(** The result [r'] carries the identity [k]. *)
Definition holds_key (k r' : value) : bool :=
  match identity r' with
  | Some k' => atom_eqb k k'
  | None => false
  end.

Definition same_identity (r r' : value) : bool :=
  match identity r with
  | Some k => holds_key k r'
  | None => false
  end.

(** The results that are the first of the input to show their identity:
    [r] is kept when it has an identity that none of the results [earlier]
    in the input has. *)
Fixpoint first_occurrences_after (earlier results : list value) : list value :=
  match results with
  | [] => []
  | r :: rest =>
      let tail := first_occurrences_after (earlier ++ [r]) rest in
      match identity r with
      | Some _ => if existsb (same_identity r) earlier then tail else r :: tail
      | None => tail
      end
  end.

Definition first_occurrences (results : list value) : list value :=
  first_occurrences_after [] results.

(** What the loop of [deduplicate_results] reads from one result: nothing
    when the guard skips it, its key otherwise, or the exception raised on
    the way. *)
Definition key_of (r : value) : result (option value) :=
  if negb (truthy r) then Ok None else
  let* track := py_get r "track" VNone in
  if negb (truthy track) then Ok None else
  let* key := py_getitem track "key" in
  let* _ := set_contains [] key in
  Ok (Some key).

(** The results [kept] carry keys that are pairwise distinct and not in
    [seen]. *)
Fixpoint fresh_keys (seen kept : list value) : Prop :=
  match kept with
  | [] => True
  | r :: rest =>
      exists k, key_of r = Ok (Some k)
                /\ existsb (atom_eqb k) seen = false
                /\ fresh_keys (k :: seen) rest
  end.

(** A result that the guard of [deduplicate_results] skips: it is falsy, or
    a dictionary whose ["track"] entry is missing or falsy. *)
Definition lacks_track (r : value) : bool :=
  negb (truthy r)
  || match r with
     | VDict kvs =>
         match assoc "track" kvs with
         | Some t => negb (truthy t)
         | None => true
         end
     | _ => false
     end.

(** *** Shapes of payloads *)

Definition is_dict (v : value) : bool :=
  match v with VDict _ => true | _ => false end.

(** [v.get(k, default)] on a dictionary [v]. *)
Definition getd (v : value) (k : string) (default : value) : value :=
  match v with
  | VDict kvs => match assoc k kvs with Some x => x | None => default end
  | _ => default
  end.

Definition items (v : value) : list value :=
  match py_iter v with Ok xs => xs | Raise _ => [] end.

Definition iterable (v : value) : bool :=
  match py_iter v with Ok _ => true | Raise _ => false end.

(** A section is well shaped when it is a dictionary whose ["metadata"],
    if present, can be iterated and yields dictionaries. *)
Definition shaped_section (section : value) : bool :=
  is_dict section
  && iterable (getd section "metadata" (VList []))
  && forallb is_dict (items (getd section "metadata" (VList []))).

(** A track record is well shaped when it is a dictionary whose ["genres"],
    if present, is a dictionary and whose ["sections"], if present, can be
    iterated and yields well-shaped sections. *)
Definition shaped_track (track_info : value) : bool :=
  is_dict track_info
  && is_dict (getd track_info "genres" (VDict []))
  && iterable (getd track_info "sections" (VList []))
  && forallb shaped_section (items (getd track_info "sections" (VList []))).

(** A payload is well shaped when it is a dictionary whose ["track"], if
    present, is a well-shaped track record. *)
Definition shaped (entry : value) : bool :=
  is_dict entry && shaped_track (getd entry "track" (VDict [])).

(** The metadata entries of all sections of a track record, in order. *)
Definition metadata_entries (track_info : value) : list value :=
  flat_map (fun section => items (getd section "metadata" (VList [])))
           (items (getd track_info "sections" (VList []))).

Definition titled (key : string) (meta : value) : bool :=
  eq_str (getd meta "title" VNone) key.

(** The text of the last entry titled [key] ([default] when that entry has
    no text), and [current] when no entry has this title. *)
Definition last_text_from (key default : string) (current : value)
    (entries : list value) : value :=
  match reverse (filter (fun m => titled key m = true) entries) with
  | m :: _ => getd m "text" (VStr default)
  | [] => current
  end.

(** The text of the last entry titled [key], [default] when that entry has
    no text or no entry has this title. *)
Definition last_text (key default : string) (entries : list value) : value :=
  last_text_from key default (VStr default) entries.

(** The text of the first entry titled [key], [default] when that entry has
    no text or no entry has this title. *)
Definition first_text (key default : string) (entries : list value) : value :=
  match filter (fun m => titled key m = true) entries with
  | m :: _ => getd m "text" (VStr default)
  | [] => VStr default
  end.

(** The closed form of the record returned for a payload. *)
Definition extracted (entry timestamp : value) : value :=
  let track_info := getd entry "track" (VDict []) in
  VDict [ ("Track Name", getd track_info "title" (VStr "Unknown Track Name"));
          ("Artist", getd track_info "subtitle" (VStr "Unknown Artist"));
          ("Album", last_text "Album" "Unknown Album"
                      (metadata_entries track_info));
          ("Genre", getd (getd track_info "genres" (VDict [])) "primary"
                      (VStr "Unknown Genre"));
          ("Year Released", last_text "Released" "Unknown Year"
                              (metadata_entries track_info));
          ("Timestamp", timestamp) ].

(** *** Recognition outcomes *)

(** The output of a loop that appends, window by window, what each window
    contributes. *)
Definition collect {A B : Type} (kept : A -> result (list B)) (xs : list A)
    : result (list B) :=
  let* yss := mapM kept xs in
  Ok (concat yss).

(** What one window adds to [results] in [testyboy.py]. *)
Definition kept_payload (w : world) (chunk : string) : result (list value) :=
  let* result := Testyboy.analyze_chunk_with_shazam w chunk in
  Ok (if truthy result then [result] else []).

(** What one window adds to [results] in [test_ui.py]. *)
Definition kept_tagged (w : world) (c : TestUi.chunk)
    : result (list TestUi.tagged) :=
  let* result := TestUi.analyze_chunk_with_shazam w (TestUi.file c) in
  Ok (if truthy result
      then [TestUi.Tagged result (TestUi.timestamp c)] else []).

(** A service-level failure of one recognition: the call raised an
    [Exception], or it returned a falsy payload (no match). *)
Definition failed (o : result value) : bool :=
  match o with
  | Raise e => is_Exception e
  | Ok v => negb (truthy v)
  end.

(** The outcome of a recognition stays within what the client handles: a
    payload or an [Exception]. *)
Definition service_level (o : result value) : bool :=
  match o with
  | Raise e => is_Exception e
  | Ok _ => true
  end.



(** A file name that the download loop accepts. *)
Definition is_audio_file (name : string) : bool :=
  OsPath.startswith name "audio_file" && OsPath.endswith name ".mp3".

End Spec.

Import Spec.

(** ** Concrete runs *)

Module Scenario.

(** A recognition payload for the track [key], with the given value under
    ["timestamp"]. *)
Definition payload (key : string) (timestamp : value) : value :=
  VDict [ ("matches", VList [VDict [("id", VStr key)]]);
          ("timestamp", timestamp);
          ("track", VDict [ ("key", VStr key);
                            ("title", VStr ("Song " +:+ key));
                            ("subtitle", VStr "Artist") ]) ].

(** The same payload without a ["timestamp"] entry. *)
Definition bare_payload (key : string) : value :=
  VDict [ ("track", VDict [ ("key", VStr key);
                            ("title", VStr ("Song " +:+ key));
                            ("subtitle", VStr "Artist") ]) ].

(** The index of the 40-second window that a chunk file holds, read from
    the start time in its name (either naming scheme). *)
Definition window_of (path : string) : nat :=
  if OsPath.endswith path "_chunk_0_00_00.mp3"
     || OsPath.endswith path "_chunk_0:00.mp3" then 0%nat
  else if OsPath.endswith path "_chunk_0_00_40.mp3"
          || OsPath.endswith path "_chunk_0:40.mp3" then 1%nat
  else 2%nat.

(** A world in which the download ends as [run] and leaves the files
    [names], every audio file given by a path decodes to [audio]
    milliseconds, window [i] is recognized as [answers i], and the search
    transport is down. *)
Definition world_of (run : run_outcome) (names : list string) (audio : Z)
    (answers : nat -> result value) : world :=
  World (fun _ _ => run)
        (fun _ => names)
        (fun f => match f with
                  | VStr _ => Ok audio
                  | _ => Raise (Exn AttributeError
                                  "'NoneType' object has no attribute 'read'")
                  end)
        (fun path => answers (window_of path))
        (fun _ _ => Raise (Exn RequestsConnectionError "Connection refused"))
        (fun _ => "arguments did not match any overloaded call").

(** Two minutes of audio, downloaded as [audio_file.mp3]. *)
Definition two_minutes (answers : nat -> result value) : world :=
  world_of (Exited 0 "") ["audio_file.mp3"] 120000 answers.

(** Windows 0 and 2 are recognized as "ABC" and window 1 as "XYZ"; each
    payload carries under ["timestamp"] the time at which the service
    answered. *)
Definition abc_xyz_abc (i : nat) : result value :=
  match i with
  | 0%nat => Ok (payload "ABC" (VInt 1700000000000))
  | 1%nat => Ok (payload "XYZ" (VInt 1700000001000))
  | _ => Ok (payload "ABC" (VInt 1700000002000))
  end.

(** The same recognitions, the payloads without ["timestamp"]. *)
Definition abc_xyz_abc_bare (i : nat) : result value :=
  match i with
  | 1%nat => Ok (bare_payload "XYZ")
  | _ => Ok (bare_payload "ABC")
  end.

(** Windows 0 and 1 are recognized as "ABC" and window 2 as "XYZ"; each
    payload carries under ["timestamp"] the start offset of its window. *)
Definition abc_abc_xyz (i : nat) : result value :=
  match i with
  | 0%nat => Ok (payload "ABC" (VStr "0_00_00"))
  | 1%nat => Ok (payload "ABC" (VStr "0_00_40"))
  | _ => Ok (payload "XYZ" (VStr "0_01_20"))
  end.

(** The first run, except that the recognition of window 1 times out. *)
Definition abc_timeout_abc (i : nat) : result value :=
  match i with
  | 1%nat => Raise (Exn TimeoutError "timed out")
  | _ => abc_xyz_abc i
  end.

(** The chunk files of the two-minute audio in [testyboy.py]. *)
Definition chunk_files : list string :=
  [ "/tmp/run/audio_file_chunk_0_00_00.mp3";
    "/tmp/run/audio_file_chunk_0_00_40.mp3";
    "/tmp/run/audio_file_chunk_0_01_20.mp3" ].

(** The record that [testyboy.py] extracts from [payload key _]. *)
Definition track (key : string) (timestamp : value) : value :=
  VDict [ ("Track Name", VStr ("Song " +:+ key));
          ("Artist", VStr "Artist");
          ("Album", VStr "Unknown Album");
          ("Genre", VStr "Unknown Genre");
          ("Year Released", VStr "Unknown Year");
          ("Timestamp", timestamp) ].

(** The record that [test_ui.py] extracts from [payload key _]. *)
Definition ui_track (key timestamp : string) : value :=
  VDict [ ("Track Name", VStr ("Song " +:+ key));
          ("Artist", VStr "Artist");
          ("Timestamp", VStr timestamp) ].

End Scenario.

(** ** Further notions *)

Module More.

(** *** Recognition answers *)

(** What the recognition client hands to the loop for one chunk file when
    the service does not raise a signal outside [Exception]: the payload,
    when there is one and it is truthy. *)
Definition answer (w : world) (file_path : string) : option value :=
  match recognize w file_path with
  | Ok payload => if truthy payload then Some payload else None
  | Raise _ => None
  end.

(** The same for a chunk of [test_ui.py], the payload tagged with the
    timestamp of the chunk. *)
Definition ui_answer (w : world) (c : TestUi.chunk) : option TestUi.tagged :=
  match answer w (TestUi.file c) with
  | Some payload => Some (TestUi.Tagged payload (TestUi.timestamp c))
  | None => None
  end.

(** Every exception that the collaborators of a run can raise is an
    [Exception]. *)
Definition raises_only_Exception (w : world) : Prop :=
  (forall url temp_dir e,
     yt_dlp w url temp_dir = NotStarted e -> is_Exception e = true)
  /\ (forall f e, from_file w f = Raise e -> is_Exception e = true)
  /\ (forall p e, recognize w p = Raise e -> is_Exception e = true).

(** An evaluation that raises nothing outside [Exception]. *)
Definition benign {A : Type} (m : result A) : Prop :=
  forall e, m = Raise e -> is_Exception e = true.

(** The record that [App.extract_track_info] builds for a tagged payload. *)
Definition ui_record (t : TestUi.tagged) : value :=
  let track_info := getd (TestUi.data t) "track" (VDict []) in
  VDict [ ("Track Name", getd track_info "title" (VStr "Unknown"));
          ("Artist", getd track_info "subtitle" (VStr "Unknown"));
          ("Timestamp", VStr (TestUi.chunk_timestamp t)) ].

(** The candidate that [slskd_search] makes of a transport error. *)
Definition error_candidate (msg : string) : value :=
  VList [VDict [ ("username", VStr "Error");
                 ("path", VStr msg);
                 ("filesize", VStr "N/A") ]].

(** *** The extractor of [clean.py] *)

(** The text of the first entry titled [key], [None] when that entry has no
    text, and [default] when no entry has this title. *)
Definition first_text_or_None (key default : string) (entries : list value)
    : value :=
  match filter (fun m => titled key m = true) entries with
  | m :: _ => getd m "text" VNone
  | [] => VStr default
  end.

(** The metadata entries that [clean.py] looks at: those of the first
    section, of an empty section when the track has no ["sections"]. *)
Definition first_section_entries (track : value) : list value :=
  match getd track "sections" (VList [VDict []]) with
  | VList (section :: _) => items (getd section "metadata" (VList []))
  | _ => []
  end.

(** The record that [clean.py] builds for a track. *)
Definition clean_record (track : value) : value :=
  VDict [ ("Artist", getd track "subtitle" (VStr "Unknown Artist"));
          ("Album", first_text_or_None "Album" "Unknown Album"
                      (first_section_entries track));
          ("Track Name", getd track "title" (VStr "Unknown Title"));
          ("Genre", getd (getd track "genres" (VDict [])) "primary"
                      (VStr "Unknown Genre"));
          ("Year Released", first_text_or_None "Released" "Unknown Year"
                              (first_section_entries track)) ].

(** A track record that [clean.py] reads without raising: a dictionary
    whose ["genres"], if present, is a dictionary and whose ["sections"],
    if present, is a list that starts with a well-shaped section. *)
Definition clean_shaped (track : value) : bool :=
  is_dict track
  && is_dict (getd track "genres" (VDict []))
  && match getd track "sections" (VList [VDict []]) with
     | VList (section :: _) => shaped_section section
     | _ => false
     end.

(** The item has a track record that [clean.py] does not skip. *)
Definition has_track (item : value) : bool :=
  truthy (getd item "track" (VDict [])).

(** *** Characters of rendered times *)

Definition is_digit (c : ascii) : bool :=
  (48 <=? nat_of_ascii c)%nat && (nat_of_ascii c <=? 57)%nat.

Fixpoint all_digits (s : string) : bool :=
  match s with
  | EmptyString => true
  | String c rest => is_digit c && all_digits rest
  end.

(** The string is not empty and does not start with a digit. *)
Definition starts_without_digit (s : string) : bool :=
  match s with
  | EmptyString => false
  | String c _ => negb (is_digit c)
  end.

(** The character [c] occurs in [s]. *)
Fixpoint occurs (c : ascii) (s : string) : bool :=
  match s with
  | EmptyString => false
  | String a rest => Ascii.eqb a c || occurs c rest
  end.

(** The number that two decimal digits write. *)
Definition two_digits (s : string) : Z :=
  match s with
  | String a (String b EmptyString) =>
      10 * (Z.of_nat (nat_of_ascii a) - 48) + (Z.of_nat (nat_of_ascii b) - 48)
  | _ => -1
  end.

(** An evaluation that raises only exceptions of the given classes. *)
Definition raises_only {A : Type} (classes : list exn_class) (m : result A)
    : Prop :=
  forall e, m = Raise e -> In (exn_cls e) classes.

(** *** The track list of the widget *)

(** A record that [update_track_list] can show: its name and its artist
    are strings. *)
Definition shown_as_text (track : value) : bool :=
  TestUi.is_str (getd track "Track Name" VNone)
  && TestUi.is_str (getd track "Artist" VNone).

(** A service that recognizes every window as a track whose title is the
    number 5. *)
Definition numbered_title (i : nat) : result value :=
  Ok (VDict [ ("track", VDict [ ("key", VStr "K");
                                ("title", VInt 5);
                                ("subtitle", VStr "Artist") ]) ]).

(** *** Chunk names *)

(** The time that [format_time] writes for an offset, when it returns. *)
Definition chunk_time (milliseconds : Z) : string :=
  OsPath.replace_colons (Testyboy.timedelta_str (milliseconds `div` 1000)).

End More.

Import More.

(** ** General facts about the error monad and the loops *)

Section Monad.
Context {S A B : Type}.

Lemma bind_Ok_inv (m : result A) (k : A -> result B) (b : B) :
  bind m k = Ok b -> exists a, m = Ok a /\ k a = Ok b.
Proof. destruct m as [a|e]; simpl; [eauto | discriminate]. Qed.

Lemma foldM_app (f : S -> A -> result S) (xs ys : list A) (s : S) :
  foldM f s (xs ++ ys) = bind (foldM f s xs) (fun s' => foldM f s' ys).
Proof.
  revert s; induction xs as [|x xs IH]; intros s; simpl; [reflexivity|].
  destruct (f s x) as [s'|e]; simpl; [apply IH | reflexivity].
Qed.

Lemma mapM_app (f : A -> result B) (xs ys : list A) :
  mapM f (xs ++ ys)
  = bind (mapM f xs) (fun l => bind (mapM f ys) (fun r => Ok (l ++ r))).
Proof.
  induction xs as [|x xs IH]; simpl.
  - destruct (mapM f ys); reflexivity.
  - destruct (f x) as [y|e]; simpl; [|reflexivity].
    rewrite IH. destruct (mapM f xs) as [l|e]; simpl; [|reflexivity].
    destruct (mapM f ys); reflexivity.
Qed.

Lemma mapM_length (f : A -> result B) (xs : list A) (ys : list B) :
  mapM f xs = Ok ys -> length ys = length xs.
Proof.
  revert ys; induction xs as [|x xs IH]; intros ys; simpl.
  - intros [= <-]; reflexivity.
  - destruct (f x) as [y|e]; simpl; [|discriminate].
    destruct (mapM f xs) as [l|e]; simpl; [|discriminate].
    intros [= <-]; simpl; f_equal; apply IH; reflexivity.
Qed.

Lemma mapM_total (f : A -> result B) (g : A -> B) (xs : list A) :
  (forall x, x ∈ xs -> f x = Ok (g x)) -> mapM f xs = Ok (map g xs).
Proof.
  induction xs as [|x xs IH]; intros H; simpl; [reflexivity|].
  rewrite (H x) by constructor. simpl.
  rewrite IH by (intros y Hy; apply H; constructor; exact Hy).
  reflexivity.
Qed.
End Monad.

(** ** Deduplication *)

Lemma atom_eqb_canon (a b : value) : atom_eqb a b = true -> canon a = canon b.
Proof.
  unfold atom_eqb.
  destruct (canon a) eqn:Ea, (canon b) eqn:Eb; try discriminate; intros H.
  - reflexivity.
  - apply Z.eqb_eq in H; congruence.
  - apply String.eqb_eq in H; congruence.
Qed.

Lemma atom_eqb_canon_l (a a' b : value) :
  canon a = canon a' -> atom_eqb a b = atom_eqb a' b.
Proof. unfold atom_eqb; intros ->; reflexivity. Qed.

Lemma atom_eqb_refl (a : value) : hashable a = true -> atom_eqb a a = true.
Proof.
  destruct a as [|b|n|s|xs|kvs]; simpl; try discriminate; intros _;
    unfold atom_eqb; simpl.
  - reflexivity.
  - apply Z.eqb_refl.
  - apply Z.eqb_refl.
  - apply String.eqb_refl.
Qed.

Lemma existsb_atom_eqb_trans (k key : value) (seen : list value) :
  atom_eqb k key = true ->
  existsb (atom_eqb key) seen = true ->
  existsb (atom_eqb k) seen = true.
Proof.
  intros Hk Hs. apply atom_eqb_canon in Hk.
  rewrite existsb_exists in *. destruct Hs as (s & Hin & Hs).
  exists s; split; [exact Hin|]. rewrite (atom_eqb_canon_l k key); assumption.
Qed.

(** The key that the loop reads is the identity of the result. *)
Lemma key_of_identity (r : value) (o : option value) :
  key_of r = Ok o -> identity r = o.
Proof.
  unfold key_of, identity.
  destruct (truthy r) eqn:Hr; simpl.
  2:{ intros [= <-]. destruct r as [| | | | |kvs]; try reflexivity.
      destruct kvs; [reflexivity | discriminate]. }
  destruct r as [| | | | |kvs]; simpl; try discriminate.
  destruct (assoc "track" kvs) as [t|] eqn:Ht; simpl.
  2:{ intros [= <-]; reflexivity. }
  destruct (truthy t) eqn:Htt; simpl.
  2:{ intros [= <-]. destruct t as [| | | | |tk]; try reflexivity.
      destruct tk; [reflexivity | discriminate]. }
  destruct t as [| | | | |tk]; simpl; try discriminate.
  destruct (assoc "key" tk) as [k|]; simpl; [|discriminate].
  unfold set_contains. destruct (hashable k); simpl; [|discriminate].
  intros [= <-]; reflexivity.
Qed.

(** One iteration of the loop, in terms of the key read from the result. *)
Lemma dedup_step_key_of (seen deduplicated : list value) (r : value) :
  Testyboy.dedup_step (seen, deduplicated) r
  = match key_of r with
    | Raise e => Raise e
    | Ok None => Ok (seen, deduplicated)
    | Ok (Some key) =>
        if existsb (atom_eqb key) seen then Ok (seen, deduplicated)
        else Ok (key :: seen, deduplicated ++ [r])
    end.
Proof.
  unfold Testyboy.dedup_step, key_of.
  destruct (truthy r) eqn:Hr; simpl; [|reflexivity].
  destruct r as [| | | | |kvs]; simpl; try reflexivity.
  destruct (assoc "track" kvs) as [t|] eqn:Ht; simpl; [|reflexivity].
  destruct (truthy t) eqn:Htt; simpl; [|reflexivity].
  destruct (py_getitem t "key") as [k|e]; simpl; [|reflexivity].
  unfold set_contains. destruct (hashable k); simpl; reflexivity.
Qed.

Lemma dedup_loop_kept (results seen deduplicated : list value)
    (st : list value * list value) :
  foldM Testyboy.dedup_step (seen, deduplicated) results = Ok st ->
  exists kept, snd st = deduplicated ++ kept
               /\ fresh_keys seen kept
               /\ sublist kept results.
Proof.
  revert seen deduplicated.
  induction results as [|r results IH]; intros seen d; cbn [foldM].
  - intros [= <-]. exists []. rewrite app_nil_r. repeat split. constructor.
  - rewrite dedup_step_key_of.
    destruct (key_of r) as [[key|]|e] eqn:Hk; simpl; [| |discriminate].
    + destruct (existsb (atom_eqb key) seen) eqn:Hseen; simpl; intros H.
      * destruct (IH _ _ H) as (kept & -> & Hf & Hs).
        exists kept; repeat split; [exact Hf | apply sublist_cons; exact Hs].
      * destruct (IH _ _ H) as (kept & -> & Hf & Hs).
        exists (r :: kept). rewrite <- app_assoc. simpl.
        repeat split; [|apply sublist_skip; exact Hs].
        exists key; auto.
    + intros H. destruct (IH _ _ H) as (kept & -> & Hf & Hs).
      exists kept; repeat split; [exact Hf | apply sublist_cons; exact Hs].
Qed.

Lemma dedup_loop_fresh (kept seen deduplicated : list value) :
  fresh_keys seen kept ->
  exists seen', foldM Testyboy.dedup_step (seen, deduplicated) kept
                = Ok (seen', deduplicated ++ kept).
Proof.
  revert seen deduplicated.
  induction kept as [|r kept IH]; intros seen d; cbn [foldM].
  - intros _. exists seen. rewrite app_nil_r. reflexivity.
  - intros (k & Hk & Hseen & Hrest).
    rewrite dedup_step_key_of, Hk, Hseen. simpl.
    destruct (IH (k :: seen) (d ++ [r]) Hrest) as (seen' & ->).
    exists seen'. rewrite <- app_assoc. reflexivity.
Qed.

Lemma existsb_same_identity (r key : value) (earlier : list value) :
  identity r = Some key ->
  existsb (same_identity r) earlier = existsb (holds_key key) earlier.
Proof.
  intros Hid. induction earlier as [|r' earlier IH]; simpl; [reflexivity|].
  rewrite IH. unfold same_identity. rewrite Hid. reflexivity.
Qed.

Lemma holds_key_trans (k key r' : value) :
  atom_eqb k key = true -> holds_key key r' = holds_key k r'.
Proof.
  intros H. unfold holds_key. destruct (identity r'); [|reflexivity].
  symmetry. apply atom_eqb_canon_l, atom_eqb_canon, H.
Qed.

(** The loop keeps exactly the first occurrences, provided the set [seen]
    holds the identities of the results [earlier] in the input. *)
Lemma dedup_loop_first_occurrences (results earlier seen deduplicated : list value)
    (st : list value * list value) :
  (forall k, existsb (atom_eqb k) seen = existsb (holds_key k) earlier) ->
  foldM Testyboy.dedup_step (seen, deduplicated) results = Ok st ->
  snd st = deduplicated ++ first_occurrences_after earlier results.
Proof.
  revert earlier seen deduplicated.
  induction results as [|r results IH]; intros earlier seen d Hinv; cbn [foldM first_occurrences_after].
  - intros [= <-]. simpl. rewrite app_nil_r. reflexivity.
  - rewrite dedup_step_key_of.
    destruct (key_of r) as [[key|]|e] eqn:Hk; simpl; [| |discriminate].
    + pose proof (key_of_identity _ _ Hk) as Hid. rewrite Hid.
      rewrite (existsb_same_identity r key earlier Hid), <- Hinv.
      assert (Hrefl : atom_eqb key key = true).
      { apply atom_eqb_refl. unfold identity in Hid.
        destruct r as [| | | | |kvs]; try discriminate.
        destruct (assoc "track" kvs) as [[| | | | |tk]|]; try discriminate.
        destruct (assoc "key" tk) as [k'|]; try discriminate.
        destruct (hashable k') eqn:Hh; [congruence | discriminate]. }
      destruct (existsb (atom_eqb key) seen) eqn:Hseen; simpl; intros H.
      * apply (IH (earlier ++ [r])) in H; [exact H|].
        intros k. rewrite existsb_app. simpl. rewrite orb_false_r.
        unfold holds_key at 2. rewrite Hid. rewrite Hinv.
        destruct (atom_eqb k key) eqn:Hkk; [|rewrite orb_false_r; reflexivity].
        rewrite orb_true_r, <- Hinv.
        apply (existsb_atom_eqb_trans k key); assumption.
      * apply (IH (earlier ++ [r])) in H.
        { rewrite H, <- app_assoc. reflexivity. }
        intros k. rewrite existsb_app. simpl. rewrite orb_false_r.
        unfold holds_key at 2. rewrite Hid, Hinv. apply orb_comm.
    + pose proof (key_of_identity _ _ Hk) as Hid. rewrite Hid. intros H.
      apply (IH (earlier ++ [r])) in H; [exact H|].
      intros k. rewrite existsb_app. simpl. rewrite orb_false_r.
      unfold holds_key at 2. rewrite Hid, orb_false_r. apply Hinv.
Qed.

Lemma dedup_loop_total (results seen deduplicated : list value) :
  Forall (fun r => exists o, key_of r = Ok o) results ->
  exists st, foldM Testyboy.dedup_step (seen, deduplicated) results = Ok st.
Proof.
  intros H; revert seen deduplicated.
  induction H as [|r results [o Ho] _ IH]; intros seen d; cbn [foldM]; [eauto|].
  rewrite dedup_step_key_of, Ho.
  destruct o as [key|]; [destruct (existsb (atom_eqb key) seen)|]; apply IH.
Qed.

Lemma dedup_fixed_point (x y : list value) :
  Testyboy.deduplicate_results x = Ok y ->
  Testyboy.deduplicate_results y = Ok y.
Proof.
  unfold Testyboy.deduplicate_results. intros H.
  apply bind_Ok_inv in H. destruct H as (st & Hst & [= <-]).
  apply dedup_loop_kept in Hst. destruct Hst as (kept & -> & Hf & _).
  simpl. destruct (dedup_loop_fresh kept [] [] Hf) as (seen' & ->).
  reflexivity.
Qed.

Lemma fresh_keys_not_seen (kept seen : list value) (r' s : value) :
  fresh_keys seen kept -> r' ∈ kept -> s ∈ seen ->
  exists k', key_of r' = Ok (Some k') /\ atom_eqb k' s = false.
Proof.
  revert seen; induction kept as [|r kept IH]; intros seen Hf Hr Hs.
  - inversion Hr.
  - destruct Hf as (k & Hk & Hseen & Hrest).
    apply elem_of_cons in Hr. destruct Hr as [-> | Hr].
    + exists k. split; [exact Hk|].
      destruct (atom_eqb k s) eqn:E; [|reflexivity].
      rewrite <- Hseen. symmetry. apply existsb_exists.
      exists s. split; [apply list_elem_of_In; exact Hs | exact E].
    + apply (IH (k :: seen) Hrest Hr). apply elem_of_cons. auto.
Qed.

(** Results kept by the loop have pairwise different identities. *)
Lemma fresh_keys_distinct (kept seen : list value) (i j : nat) (r r' : value) :
  fresh_keys seen kept -> (i < j)%nat ->
  kept !! i = Some r -> kept !! j = Some r' ->
  same_identity r' r = false.
Proof.
  revert seen i j; induction kept as [|r0 kept IH]; intros seen i j Hf Hij Hi Hj.
  - discriminate.
  - destruct Hf as (k & Hk & Hseen & Hrest).
    destruct j as [|j]; [lia|]. cbn in Hj.
    destruct i as [|i].
    + injection Hi as <-.
      destruct (fresh_keys_not_seen kept (k :: seen) r' k Hrest)
        as (k' & Hk' & Hne).
      { apply list_elem_of_lookup. eauto. }
      { constructor. }
      unfold same_identity, holds_key.
      rewrite (key_of_identity _ _ Hk'), (key_of_identity _ _ Hk). exact Hne.
    + cbn in Hi. apply (IH (k :: seen) i j Hrest); [lia | exact Hi | exact Hj].
Qed.

Lemma assoc_Some_truthy (k : string) (kvs : list (string * value)) (v : value) :
  assoc k kvs = Some v -> truthy (VDict kvs) = true.
Proof. destruct kvs; [discriminate | reflexivity]. Qed.

(** The results that have an identity or are skipped by the guard are the
    ones on which the loop does not raise. *)
Lemma key_of_total (r : value) :
  lacks_track r = true \/ is_Some (identity r) -> exists o, key_of r = Ok o.
Proof.
  unfold lacks_track, identity, key_of. intros [H | [k H]].
  - destruct (truthy r) eqn:Hr; simpl in *; [|eauto].
    destruct r as [| | | | |kvs]; try discriminate. simpl.
    destruct (assoc "track" kvs) as [t|]; simpl; [|eauto].
    destruct (truthy t); [discriminate | simpl; eauto].
  - destruct r as [| | | | |kvs]; try discriminate.
    destruct (assoc "track" kvs) as [[| | | | |tk]|] eqn:Ht; try discriminate.
    rewrite (assoc_Some_truthy _ _ _ Ht). cbn [negb py_get bind]. rewrite Ht.
    destruct (assoc "key" tk) as [k'|] eqn:Hkey; [|discriminate].
    rewrite (assoc_Some_truthy _ _ _ Hkey). cbn [negb py_getitem].
    rewrite Hkey. cbn [bind]. unfold set_contains.
    destruct (hashable k'); [|discriminate].
    simpl. eauto.
Qed.

(** C4. [deduplicate_results] is an order-preserving filter that keeps, for
    each track identity, only its first occurrence in input order, and it is
    idempotent: evaluating [deduplicate_results(deduplicate_results(x))]
    gives what [deduplicate_results(x)] gives, for every input list [x].
    When it returns [y], [y] is the sublist of [x] of the results that are
    the first to show their identity, and no two results of [y] have the
    same identity.  It returns whenever every result either has a track
    identity or has no track record. *)
Theorem dedup_first_occurrences_idempotent (x : list value) :
  (let* y := Testyboy.deduplicate_results x in Testyboy.deduplicate_results y)
  = Testyboy.deduplicate_results x
  /\ (forall y, Testyboy.deduplicate_results x = Ok y ->
        y = first_occurrences x
        /\ sublist y x
        /\ (forall i j r r', (i < j)%nat -> y !! i = Some r -> y !! j = Some r' ->
                             same_identity r' r = false))
  /\ (Forall (fun r => lacks_track r = true \/ is_Some (identity r)) x ->
        Testyboy.deduplicate_results x = Ok (first_occurrences x)).
Proof.
  assert (Hspec : forall y, Testyboy.deduplicate_results x = Ok y ->
                            y = first_occurrences x).
  { intros y H. unfold Testyboy.deduplicate_results in H.
    apply bind_Ok_inv in H. destruct H as (st & Hst & [= <-]).
    apply (dedup_loop_first_occurrences x [] [] []) in Hst; [exact Hst|].
    intros k; reflexivity. }
  split; [|split].
  - destruct (Testyboy.deduplicate_results x) as [y|e] eqn:H; [|reflexivity].
    simpl. apply (dedup_fixed_point x y H).
  - intros y H. split; [apply Hspec, H|].
    unfold Testyboy.deduplicate_results in H.
    apply bind_Ok_inv in H. destruct H as (st & Hst & [= <-]).
    apply dedup_loop_kept in Hst. destruct Hst as (kept & -> & Hf & Hs).
    split; [exact Hs|].
    intros i j r r'. apply (fresh_keys_distinct kept [] i j r r' Hf).
  - intros Hx.
    destruct (dedup_loop_total x [] []) as [st Hst].
    { eapply Forall_impl; [exact Hx|]. intros r. apply key_of_total. }
    assert (H : Testyboy.deduplicate_results x = Ok (snd st)).
    { unfold Testyboy.deduplicate_results. rewrite Hst. reflexivity. }
    rewrite H. f_equal. apply (Hspec _ H).
Qed.

Lemma dedup_first_occurrences_idempotent_witness :
  let abc := VDict [("track", VDict [("key", VStr "ABC")])] in
  let xyz := VDict [("track", VDict [("key", VStr "XYZ")])] in
  Testyboy.deduplicate_results [abc; xyz; VDict []; abc] = Ok [abc; xyz]
  /\ [abc; xyz] = first_occurrences [abc; xyz; VDict []; abc]
  /\ sublist [abc; xyz] [abc; xyz; VDict []; abc].
Proof.
  intros abc xyz. split; [reflexivity|].
  destruct (proj1 (proj2 (dedup_first_occurrences_idempotent
                            [abc; xyz; VDict []; abc]))
              [abc; xyz] eq_refl) as (H1 & H2 & _).
  split; [exact H1 | exact H2].
Defined.

(** C6, as the code has it.  [deduplicate_results] skips, without raising,
    every result that is falsy or whose ["track"] entry is missing or falsy:
    the call gives what it gives on the list without that result, so all
    other results are processed as usual. *)
Theorem dedup_skips_results_without_track (pre post : list value) (r : value) :
  lacks_track r = true ->
  Testyboy.deduplicate_results (pre ++ r :: post)
  = Testyboy.deduplicate_results (pre ++ post).
Proof.
  intros Hr. unfold Testyboy.deduplicate_results.
  rewrite !foldM_app.
  destruct (foldM Testyboy.dedup_step ([], []) pre) as [[seen d]|e];
    [|reflexivity].
  cbn [bind foldM]. rewrite dedup_step_key_of.
  assert (Hk : key_of r = Ok None).
  { destruct (key_of_total r (or_introl Hr)) as [o Ho].
    rewrite Ho. f_equal. apply key_of_identity in Ho. rewrite <- Ho.
    unfold lacks_track in Hr. unfold identity.
    destruct r as [| | | | |kvs]; try reflexivity.
    destruct (assoc "track" kvs) as [[| | | | |tk]|] eqn:Ht; try reflexivity.
    rewrite (assoc_Some_truthy _ _ _ Ht) in Hr.
    destruct tk as [|tkv tk]; [reflexivity | discriminate]. }
  rewrite Hk. reflexivity.
Qed.

Lemma dedup_skips_results_without_track_witness :
  let abc := VDict [("track", VDict [("key", VStr "ABC")])] in
  let no_match := VDict [("matches", VList []); ("track", VDict [])] in
  lacks_track no_match = true
  /\ Testyboy.deduplicate_results ([abc] ++ no_match :: [abc])
     = Testyboy.deduplicate_results ([abc] ++ [abc]).
Proof.
  intros abc no_match. split; [reflexivity|].
  apply (dedup_skips_results_without_track [abc] [abc] no_match).
  reflexivity.
Defined.

(** A non-empty track record without a ["key"] entry has no identity, and
    [deduplicate_results] raises [KeyError] on it instead of dropping it. *)
Lemma dedup_raises_on_track_without_key :
  let r := VDict [("track", VDict [("title", VStr "Song")])] in
  identity r = None
  /\ Testyboy.deduplicate_results [r] = Raise (Exn KeyError "'key'").
Proof. split; reflexivity. Qed.

(** ** Metadata extraction *)

Lemma py_get_dict (v : value) (k : string) (d : value) :
  is_dict v = true -> py_get v k d = Ok (getd v k d).
Proof. destruct v; try discriminate; reflexivity. Qed.

Lemma py_get_Ok (v : value) (k : string) (d x : value) :
  py_get v k d = Ok x -> is_dict v = true /\ x = getd v k d.
Proof. destruct v; try discriminate; simpl; intros [= <-]; auto. Qed.

Lemma py_iter_items (v : value) :
  iterable v = true -> py_iter v = Ok (items v).
Proof. unfold iterable, items. destruct (py_iter v); [reflexivity | discriminate]. Qed.

Lemma py_iter_Ok (v : value) (xs : list value) :
  py_iter v = Ok xs -> iterable v = true /\ xs = items v.
Proof. unfold iterable, items. intros ->; auto. Qed.

Lemma last_text_from_cons (key default : string) (current m : value)
    (rest : list value) :
  last_text_from key default current (m :: rest)
  = last_text_from key default
      (if titled key m then getd m "text" (VStr default) else current) rest.
Proof.
  unfold last_text_from. rewrite filter_cons.
  destruct (titled key m) eqn:Hm.
  - rewrite decide_True by reflexivity. rewrite reverse_cons.
    destruct (reverse (filter _ rest)); reflexivity.
  - rewrite decide_False by discriminate. reflexivity.
Qed.

Lemma last_text_from_app (key default : string) (current : value)
    (xs ys : list value) :
  last_text_from key default current (xs ++ ys)
  = last_text_from key default (last_text_from key default current xs) ys.
Proof.
  revert current; induction xs as [|m xs IH]; intros current; simpl.
  - reflexivity.
  - rewrite !last_text_from_cons. apply IH.
Qed.

(** One metadata entry overwrites the album when it is titled "Album" and
    the year when it is titled "Released". *)
Lemma scan_meta_dict (st : value * value) (meta : value) :
  is_dict meta = true ->
  Testyboy.scan_meta st meta
  = Ok (if titled "Album" meta
        then getd meta "text" (VStr "Unknown Album") else fst st,
        if titled "Released" meta
        then getd meta "text" (VStr "Unknown Year") else snd st).
Proof.
  intros Hd. unfold Testyboy.scan_meta, titled.
  rewrite !(py_get_dict meta) by exact Hd. cbn [bind].
  destruct st as [album year].
  destruct (eq_str (getd meta "title" VNone) "Album"); cbn [bind fst snd];
    destruct (eq_str (getd meta "title" VNone) "Released"); reflexivity.
Qed.

Lemma scan_meta_Ok (st st' : value * value) (meta : value) :
  Testyboy.scan_meta st meta = Ok st' -> is_dict meta = true.
Proof.
  unfold Testyboy.scan_meta. intros H.
  apply bind_Ok_inv in H. destruct H as (t & Ht & _).
  apply py_get_Ok in Ht. apply Ht.
Qed.

Lemma scan_metas_dicts (metas : list value) (st : value * value) :
  forallb is_dict metas = true ->
  foldM Testyboy.scan_meta st metas
  = Ok (last_text_from "Album" "Unknown Album" (fst st) metas,
        last_text_from "Released" "Unknown Year" (snd st) metas).
Proof.
  revert st; induction metas as [|m metas IH]; intros st H.
  - destruct st; reflexivity.
  - cbn [forallb] in H. apply andb_prop in H. destruct H as [Hm H].
    cbn [foldM]. rewrite (scan_meta_dict st m Hm). cbn [bind].
    rewrite (IH _ H), !last_text_from_cons. reflexivity.
Qed.

Lemma scan_metas_Ok (metas : list value) (st st' : value * value) :
  foldM Testyboy.scan_meta st metas = Ok st' -> forallb is_dict metas = true.
Proof.
  revert st; induction metas as [|m metas IH]; intros st; cbn [foldM forallb].
  - reflexivity.
  - intros H. apply bind_Ok_inv in H. destruct H as (st1 & H1 & H2).
    rewrite (scan_meta_Ok _ _ _ H1), (IH _ H2). reflexivity.
Qed.

Lemma scan_section_shaped (st : value * value) (section : value) :
  shaped_section section = true ->
  Testyboy.scan_section st section
  = Ok (last_text_from "Album" "Unknown Album" (fst st)
          (items (getd section "metadata" (VList []))),
        last_text_from "Released" "Unknown Year" (snd st)
          (items (getd section "metadata" (VList [])))).
Proof.
  unfold shaped_section. intros H.
  apply andb_prop in H. destruct H as [H Hm].
  apply andb_prop in H. destruct H as [Hd Hi].
  unfold Testyboy.scan_section.
  rewrite (py_get_dict _ _ _ Hd). cbn [bind].
  rewrite (py_iter_items _ Hi). cbn [bind].
  apply scan_metas_dicts, Hm.
Qed.

Lemma scan_section_Ok (st st' : value * value) (section : value) :
  Testyboy.scan_section st section = Ok st' -> shaped_section section = true.
Proof.
  unfold Testyboy.scan_section, shaped_section. intros H.
  apply bind_Ok_inv in H. destruct H as (metadata & Hg & H).
  apply py_get_Ok in Hg. destruct Hg as [Hd ->].
  apply bind_Ok_inv in H. destruct H as (metas & Hi & H).
  apply py_iter_Ok in Hi. destruct Hi as [Hi ->].
  apply scan_metas_Ok in H. rewrite Hd, Hi, H. reflexivity.
Qed.

Lemma scan_sections_shaped (secs : list value) (st : value * value) :
  forallb shaped_section secs = true ->
  foldM Testyboy.scan_section st secs
  = Ok (last_text_from "Album" "Unknown Album" (fst st)
          (flat_map (fun s => items (getd s "metadata" (VList []))) secs),
        last_text_from "Released" "Unknown Year" (snd st)
          (flat_map (fun s => items (getd s "metadata" (VList []))) secs)).
Proof.
  revert st; induction secs as [|s secs IH]; intros st H.
  - destruct st; reflexivity.
  - cbn [forallb] in H. apply andb_prop in H. destruct H as [Hs H].
    cbn [foldM flat_map]. rewrite (scan_section_shaped st s Hs). cbn [bind].
    rewrite (IH _ H), !last_text_from_app. reflexivity.
Qed.

Lemma scan_sections_Ok (secs : list value) (st st' : value * value) :
  foldM Testyboy.scan_section st secs = Ok st' ->
  forallb shaped_section secs = true.
Proof.
  revert st; induction secs as [|s secs IH]; intros st; cbn [foldM forallb].
  - reflexivity.
  - intros H. apply bind_Ok_inv in H. destruct H as (st1 & H1 & H2).
    rewrite (scan_section_Ok _ _ _ H1), (IH _ H2). reflexivity.
Qed.

Lemma extract_track_info_shaped (entry timestamp : value) :
  shaped entry = true ->
  Testyboy.extract_track_info entry timestamp = Ok (extracted entry timestamp).
Proof.
  unfold shaped, shaped_track. intros H.
  apply andb_prop in H. destruct H as [He H].
  apply andb_prop in H. destruct H as [H Hsecs].
  apply andb_prop in H. destruct H as [H Hiter].
  apply andb_prop in H. destruct H as [Ht Hg].
  unfold Testyboy.extract_track_info.
  rewrite (py_get_dict _ _ _ He). cbn [bind].
  rewrite !(py_get_dict _ _ _ Ht). cbn [bind].
  rewrite (py_get_dict _ _ _ Hg). cbn [bind].
  rewrite (py_iter_items _ Hiter). cbn [bind].
  rewrite (scan_sections_shaped _ _ Hsecs). reflexivity.
Qed.

Lemma extract_track_info_Ok (entry timestamp r : value) :
  Testyboy.extract_track_info entry timestamp = Ok r -> shaped entry = true.
Proof.
  unfold Testyboy.extract_track_info, shaped, shaped_track. intros H.
  apply bind_Ok_inv in H. destruct H as (track_info & Hg & H).
  apply py_get_Ok in Hg. destruct Hg as [He ->].
  apply bind_Ok_inv in H. destruct H as (title & Hg & H).
  apply py_get_Ok in Hg. destruct Hg as [Ht _].
  apply bind_Ok_inv in H. destruct H as (artist & _ & H).
  apply bind_Ok_inv in H. destruct H as (genres & Hg & H).
  apply py_get_Ok in Hg. destruct Hg as [_ ->].
  apply bind_Ok_inv in H. destruct H as (genre & Hg & H).
  apply py_get_Ok in Hg. destruct Hg as [Hgen _].
  apply bind_Ok_inv in H. destruct H as (sections & Hg & H).
  apply py_get_Ok in Hg. destruct Hg as [_ ->].
  apply bind_Ok_inv in H. destruct H as (secs & Hi & H).
  apply py_iter_Ok in Hi. destruct Hi as [Hi ->].
  apply bind_Ok_inv in H. destruct H as (found & Hs & _).
  apply scan_sections_Ok in Hs.
  rewrite He, Ht, Hgen, Hi, Hs. reflexivity.
Qed.





(** C2.  The lookup of [clean.py] reads the first section only, where the
    album and the release year are to be looked up in all sections: for a
    track whose "Album" and "Released" entries are in the second of two
    sections, whose first entries titled so have the texts "Two" and "1999",
    [extract_track_info] of [clean.py] returns the defaults "Unknown Album"
    and "Unknown Year".  [extract_track_info] of [testyboy.py] scans all
    sections and returns "Two" and "1999" for the same track; it keeps the
    last match, so that with "Album" entries "One" and "Two" it returns
    "Two", the first being "One". *)
Theorem clean_lookup_misses_later_sections :
  let meta title text := VDict [("title", VStr title); ("text", VStr text)] in
  let track :=
    VDict [("title", VStr "Song");
           ("sections",
            VList [VDict [("metadata", VList [])];
                   VDict [("metadata",
                           VList [meta "Album" "Two";
                                  meta "Released" "1999"])]])] in
  let track' :=
    VDict [("sections",
            VList [VDict [("metadata", VList [meta "Album" "One"])];
                   VDict [("metadata", VList [meta "Album" "Two"])]])] in
  first_text "Album" "Unknown Album" (metadata_entries track) = VStr "Two"
  /\ first_text "Released" "Unknown Year" (metadata_entries track) = VStr "1999"
  /\ Clean.extract_track_info [VDict [("track", track)]]
     = Ok [VDict [ ("Artist", VStr "Unknown Artist");
                   ("Album", VStr "Unknown Album");
                   ("Track Name", VStr "Song");
                   ("Genre", VStr "Unknown Genre");
                   ("Year Released", VStr "Unknown Year") ]]
  /\ Testyboy.extract_track_info (VDict [("track", track)]) VNone
     = Ok (VDict [ ("Track Name", VStr "Song");
                   ("Artist", VStr "Unknown Artist");
                   ("Album", VStr "Two");
                   ("Genre", VStr "Unknown Genre");
                   ("Year Released", VStr "1999");
                   ("Timestamp", VNone) ])
  /\ first_text "Album" "Unknown Album" (metadata_entries track') = VStr "One"
  /\ (exists r,
        Testyboy.extract_track_info (VDict [("track", track')]) VNone = Ok r
        /\ getd r "Album" VNone = VStr "Two").
Proof.
  intros meta track track'.
  repeat split; try (vm_compute; reflexivity).
  eexists. split; vm_compute; reflexivity.
Qed.

(** C5, as the code has it.  [extract_track_info] of [testyboy.py] returns
    exactly on the well-shaped payloads, and then returns the record of all
    six fields in which a field whose key is absent from the payload has its
    "Unknown ..." default and the timestamp is the one passed in; for a
    payload without a track record, [{}] included, all five metadata fields
    are defaults.  The extractor of [test_ui.py] returns three fields only,
    with the default "Unknown". *)
Theorem extraction_of_shaped_payloads (entry timestamp : value) :
  (shaped entry = true <->
   exists r, Testyboy.extract_track_info entry timestamp = Ok r)
  /\ (shaped entry = true ->
      Testyboy.extract_track_info entry timestamp
      = Ok (extracted entry timestamp))
  /\ (is_dict entry = true -> getd entry "track" (VDict []) = VDict [] ->
      Testyboy.extract_track_info entry timestamp
      = Ok (VDict [ ("Track Name", VStr "Unknown Track Name");
                    ("Artist", VStr "Unknown Artist");
                    ("Album", VStr "Unknown Album");
                    ("Genre", VStr "Unknown Genre");
                    ("Year Released", VStr "Unknown Year");
                    ("Timestamp", timestamp) ]))
  /\ (is_dict entry = true -> is_dict (getd entry "track" (VDict [])) = true ->
      TestUi.extract_track_info entry timestamp
      = Ok (VDict [ ("Track Name",
                     getd (getd entry "track" (VDict [])) "title" (VStr "Unknown"));
                    ("Artist",
                     getd (getd entry "track" (VDict [])) "subtitle" (VStr "Unknown"));
                    ("Timestamp", timestamp) ])).
Proof.
  split; [|split; [|split]].
  - split.
    + intros H. eexists. apply extract_track_info_shaped, H.
    + intros [r H]. apply (extract_track_info_Ok _ _ _ H).
  - apply extract_track_info_shaped.
  - intros He Ht. rewrite extract_track_info_shaped.
    + unfold extracted. rewrite Ht. reflexivity.
    + unfold shaped. rewrite He, Ht. reflexivity.
  - intros He Ht. unfold TestUi.extract_track_info.
    rewrite (py_get_dict _ _ _ He). cbn [bind].
    rewrite !(py_get_dict _ _ _ Ht). reflexivity.
Qed.

Lemma extraction_of_shaped_payloads_witness :
  let entry := VDict [("track", VDict [("title", VStr "Song");
                                      ("genres", VDict [])])] in
  shaped entry = true
  /\ Testyboy.extract_track_info entry (VStr "0_00_40")
     = Ok (VDict [ ("Track Name", VStr "Song");
                   ("Artist", VStr "Unknown Artist");
                   ("Album", VStr "Unknown Album");
                   ("Genre", VStr "Unknown Genre");
                   ("Year Released", VStr "Unknown Year");
                   ("Timestamp", VStr "0_00_40") ])
  /\ Testyboy.extract_track_info (VDict []) (VStr "0_00_40")
     = Ok (VDict [ ("Track Name", VStr "Unknown Track Name");
                   ("Artist", VStr "Unknown Artist");
                   ("Album", VStr "Unknown Album");
                   ("Genre", VStr "Unknown Genre");
                   ("Year Released", VStr "Unknown Year");
                   ("Timestamp", VStr "0_00_40") ]).
Proof.
  intros entry. split; [reflexivity|]. split.
  - apply (proj1 (proj2 (extraction_of_shaped_payloads entry (VStr "0_00_40")))).
    reflexivity.
  - apply (proj1 (proj2 (proj2
             (extraction_of_shaped_payloads (VDict []) (VStr "0_00_40")))));
      reflexivity.
Defined.

(** A payload whose ["track"] is [None] makes [testyboy.py]'s extractor
    raise, and the record of [test_ui.py]'s extractor has no album, genre or
    release year. *)
Lemma extraction_raises_or_lacks_fields :
  Testyboy.extract_track_info (VDict [("track", VNone)]) (VStr "0_00_00")
  = Raise (Exn AttributeError "'NoneType' object has no attribute 'get'")
  /\ (exists r, TestUi.extract_track_info (VDict []) (VStr "0:00") = Ok r
                /\ py_getitem r "Album" = Raise (Exn KeyError "'Album'")
                /\ py_getitem r "Genre" = Raise (Exn KeyError "'Genre'")
                /\ py_getitem r "Year Released"
                   = Raise (Exn KeyError "'Year Released'")
                /\ py_getitem r "Track Name" = Ok (VStr "Unknown")).
Proof. split; [reflexivity|]. eexists. repeat split. Qed.

(** ** The recognition client *)

(** C7. [analyze_chunk_with_shazam] returns a value for every window whose
    recognition ends in a payload or in an [Exception] (timeouts and
    malformed responses are such): the raw payload on success, [None] when
    the call raised.  Both copies of the function behave so. *)
Theorem analyze_chunk_always_returns (w : world) (file_path : string) :
  service_level (recognize w file_path) = true ->
  Testyboy.analyze_chunk_with_shazam w file_path
  = Ok (match recognize w file_path with
        | Ok payload => payload
        | Raise _ => VNone
        end)
  /\ TestUi.analyze_chunk_with_shazam w file_path
     = Testyboy.analyze_chunk_with_shazam w file_path.
Proof.
  unfold service_level, Testyboy.analyze_chunk_with_shazam,
    TestUi.analyze_chunk_with_shazam, try_except.
  destruct (recognize w file_path) as [payload|e]; [auto|].
  intros ->. auto.
Qed.

Lemma analyze_chunk_always_returns_witness :
  let w := Scenario.two_minutes
             (fun _ => Raise (Exn TimeoutError "timed out")) in
  service_level (recognize w "/tmp/run/audio_file_chunk_0_00_00.mp3") = true
  /\ Testyboy.analyze_chunk_with_shazam w "/tmp/run/audio_file_chunk_0_00_00.mp3"
     = Ok VNone.
Proof.
  intros w. split; [reflexivity|].
  apply (analyze_chunk_always_returns w "/tmp/run/audio_file_chunk_0_00_00.mp3").
  reflexivity.
Defined.

(** ** The search adapter *)

(** C8. For every query, when the search transport raises a connection
    error, [slskd_search] returns exactly one synthetic candidate whose user
    name is "Error" and whose path is the error message; the exception does
    not reach the caller. *)
Theorem slskd_search_connection_error (w : world) (track_name : string)
    (e : exn) :
  post w TestUi.SLSKD_URL (TestUi.payload track_name) = Raise e ->
  exn_cls e = RequestsConnectionError ->
  TestUi.slskd_search w track_name
  = Ok (VList [VDict [ ("username", VStr "Error");
                       ("path", VStr (exn_str e));
                       ("filesize", VStr "N/A") ]]).
Proof.
  intros Hpost Hcls. unfold TestUi.slskd_search. rewrite Hpost.
  unfold try_except, is_RequestException. cbn [bind]. rewrite Hcls.
  reflexivity.
Qed.

Lemma slskd_search_connection_error_witness :
  TestUi.slskd_search (Scenario.two_minutes Scenario.abc_xyz_abc) "Song ABC"
  = Ok (VList [VDict [ ("username", VStr "Error");
                       ("path", VStr "Connection refused");
                       ("filesize", VStr "N/A") ]]).
Proof.
  apply (slskd_search_connection_error
           (Scenario.two_minutes Scenario.abc_xyz_abc) "Song ABC"
           (Exn RequestsConnectionError "Connection refused"));
    reflexivity.
Defined.

(** ** Audio acquisition *)

Lemma filter_none {A : Type} (f : A -> bool) (l : list A) :
  (forall x, x ∈ l -> f x = false) -> List.filter f l = [].
Proof.
  induction l as [|x l IH]; intros H; simpl; [reflexivity|].
  rewrite (H x) by constructor. apply IH.
  intros y Hy. apply H. constructor. exact Hy.
Qed.



(** ** Segmentation *)

(** *** The float quotient of [make_chunks] *)












(** *** The times of the chunk names *)


(** Whatever [format_time] returns is the rendering of the seconds. *)
Lemma format_time_Ok_inv (milliseconds : Z) (t : string) :
  Testyboy.format_time milliseconds = Ok t -> t = chunk_time milliseconds.
Proof.
  unfold Testyboy.format_time. intros H.
  apply bind_Ok_inv in H as (delta & Hd & [= <-]).
  unfold Testyboy.timedelta in Hd.
  repeat match type of Hd with
         | (if ?c then _ else _) = _ => destruct c; [discriminate|]
         end.
  injection Hd as <-. reflexivity.
Qed.



Lemma make_chunks_Ok_nonzero (audio chunk_length : Z)
    (segments : list Pydub.segment) :
  Pydub.make_chunks audio chunk_length = Ok segments -> chunk_length <> 0.
Proof.
  unfold Pydub.make_chunks, Pydub.number_of_chunks. intros H ->.
  destruct (Pydub.float_overflows 0); [discriminate|].
  destruct (Pydub.float_overflows audio); discriminate.
Qed.

Lemma make_chunks_raises (audio chunk_length : Z) (e : exn) :
  Pydub.make_chunks audio chunk_length = Raise e ->
  exn_cls e = ZeroDivisionError \/ exn_cls e = OverflowError.
Proof.
  unfold Pydub.make_chunks, Pydub.number_of_chunks.
  destruct (Pydub.float_overflows chunk_length); [intros [= <-]; auto|].
  destruct (Pydub.float_overflows audio); [intros [= <-]; auto|].
  destruct (chunk_length =? 0); [intros [= <-]; auto|].
  discriminate.
Qed.

Lemma format_time_raises (milliseconds : Z) (e : exn) :
  Testyboy.format_time milliseconds = Raise e -> exn_cls e = OverflowError.
Proof.
  unfold Testyboy.format_time, Testyboy.timedelta.
  repeat match goal with
         | |- context [if ?c then _ else _] => destruct c
         end; cbn [bind]; try discriminate; intros [= <-]; reflexivity.
Qed.





(** ** The recognition loop *)

Section Collect.
Context {A B : Type}.
Implicit Types (kept : A -> result (list B)) (xs : list A).

Lemma collect_app kept xs ys :
  collect kept (xs ++ ys)
  = (let* a := collect kept xs in
     let* b := collect kept ys in
     Ok (a ++ b)).
Proof.
  unfold collect. rewrite mapM_app.
  destruct (mapM kept xs) as [l|e]; cbn [bind]; [|reflexivity].
  destruct (mapM kept ys) as [r|e]; cbn [bind]; [|reflexivity].
  rewrite concat_app. reflexivity.
Qed.

Lemma collect_singleton kept (x : A) :
  collect kept [x] = kept x.
Proof.
  unfold collect. cbn [mapM].
  destruct (kept x) as [ys|e]; cbn [bind concat]; [|reflexivity].
  rewrite app_nil_r. reflexivity.
Qed.

(** A loop whose step appends the contribution of the current element
    computes [collect]. *)
Lemma foldM_collect kept (step : list B -> A -> result (list B)) :
  (forall acc x, step acc x = (let* ys := kept x in Ok (acc ++ ys))) ->
  forall xs acc,
    foldM step acc xs = (let* out := collect kept xs in Ok (acc ++ out)).
Proof.
  intros Hstep. induction xs as [|x xs IH]; intros acc.
  - cbn. rewrite app_nil_r. reflexivity.
  - change (x :: xs) with ([x] ++ xs).
    rewrite collect_app, collect_singleton.
    cbn [app foldM]. rewrite Hstep.
    destruct (kept x) as [ys|e]; cbn [bind]; [|reflexivity].
    rewrite IH. destruct (collect kept xs) as [out|e]; cbn [bind];
      [|reflexivity].
    rewrite app_assoc. reflexivity.
Qed.

Lemma collect_ext kept1 kept2 xs :
  Forall (fun x => kept2 x = kept1 x) xs ->
  collect kept2 xs = collect kept1 xs.
Proof.
  unfold collect. intros H. f_equal.
  induction H as [|x xs Hx _ IH]; cbn [mapM]; [reflexivity|].
  rewrite Hx, IH. reflexivity.
Qed.

(** Two runs that differ only in that element [i] contributes nothing to
    the second: the second output is the first without what element [i]
    contributed. *)
Lemma collect_isolation kept1 kept2 xs (i : nat) (c : A) :
  xs !! i = Some c ->
  kept2 c = Ok [] ->
  (forall j c', j <> i -> xs !! j = Some c' -> kept2 c' = kept1 c') ->
  collect kept2 xs = collect kept1 (delete i xs)
  /\ (forall out1,
        collect kept1 xs = Ok out1 ->
        exists before mine after,
          collect kept1 (take i xs) = Ok before
          /\ kept1 c = Ok mine
          /\ collect kept1 (drop (S i) xs) = Ok after
          /\ out1 = before ++ mine ++ after
          /\ collect kept2 xs = Ok (before ++ after)).
Proof.
  intros Hi Hc Hagree.
  assert (Hbefore : collect kept2 (take i xs) = collect kept1 (take i xs)).
  { apply collect_ext, Forall_lookup. intros j x Hj.
    apply lookup_take_Some in Hj. destruct Hj as [Hj Hlt].
    apply (Hagree j); [lia | exact Hj]. }
  assert (Hafter : collect kept2 (drop (S i) xs)
                   = collect kept1 (drop (S i) xs)).
  { apply collect_ext, Forall_lookup. intros j x Hj.
    rewrite lookup_drop in Hj. apply (Hagree (S i + j)%nat); [lia | exact Hj]. }
  assert (H2 : collect kept2 xs = collect kept1 (delete i xs)).
  { rewrite <- (take_drop_middle xs i c Hi) at 1.
    rewrite delete_take_drop.
    change (c :: drop (S i) xs) with ([c] ++ drop (S i) xs).
    rewrite !collect_app, collect_singleton, Hc, Hbefore, Hafter.
    destruct (collect kept1 (take i xs)); cbn [bind]; [|reflexivity].
    destruct (collect kept1 (drop (S i) xs)); reflexivity. }
  split; [exact H2|].
  intros out1 H1. rewrite H2, delete_take_drop, collect_app.
  rewrite <- (take_drop_middle xs i c Hi) in H1.
  change (c :: drop (S i) xs) with ([c] ++ drop (S i) xs) in H1.
  rewrite !collect_app, collect_singleton in H1.
  destruct (collect kept1 (take i xs)) as [before|e]; [|discriminate].
  destruct (kept1 c) as [mine|e]; [|discriminate].
  destruct (collect kept1 (drop (S i) xs)) as [after|e]; [|discriminate].
  cbn [bind] in *. injection H1 as <-.
  exists before, mine, after. auto.
Qed.
End Collect.

Lemma analyze_all_collect (w : world) (chunks : list string) :
  Testyboy.analyze_all w chunks = collect (kept_payload w) chunks.
Proof.
  unfold Testyboy.analyze_all.
  rewrite (foldM_collect (kept_payload w)).
  - destruct (collect (kept_payload w) chunks); reflexivity.
  - intros acc x. unfold Testyboy.analyze_step, kept_payload.
    destruct (Testyboy.analyze_chunk_with_shazam w x) as [r|e]; cbn [bind];
      [|reflexivity].
    destruct (truthy r); [reflexivity | rewrite app_nil_r; reflexivity].
Qed.

Lemma ui_analyze_all_collect (w : world) (chunks : list TestUi.chunk) :
  TestUi.analyze_all w chunks = collect (kept_tagged w) chunks.
Proof.
  unfold TestUi.analyze_all.
  rewrite (foldM_collect (kept_tagged w)).
  - destruct (collect (kept_tagged w) chunks); reflexivity.
  - intros acc x. unfold TestUi.analyze_step, kept_tagged.
    destruct (TestUi.analyze_chunk_with_shazam w (TestUi.file x)) as [r|e];
      cbn [bind]; [|reflexivity].
    destruct (truthy r); [reflexivity | rewrite app_nil_r; reflexivity].
Qed.

Lemma failed_analyze (w : world) (file_path : string) :
  failed (recognize w file_path) = true ->
  exists r, Testyboy.analyze_chunk_with_shazam w file_path = Ok r
            /\ truthy r = false.
Proof.
  unfold failed, Testyboy.analyze_chunk_with_shazam, try_except.
  destruct (recognize w file_path) as [v|e].
  - intros H. exists v. split; [reflexivity|]. destruct (truthy v);
      [discriminate | reflexivity].
  - intros ->. exists VNone. auto.
Qed.

(** C3. Partial failure isolation, as a statement about two runs of the
    recognition loop over the same windows.  If the second run differs from
    the first only in that the recognition of window [i] fails (the service
    raises an exception, or answers with no match), then the second run
    gives what the first gives on the windows without window [i]; and when
    the first run ends with [results], these are the results of the windows
    before [i], what window [i] contributed, and the results of the windows
    after [i], of which the second run returns the first and the last part,
    unchanged and in the same order.  This holds for the loop of
    [testyboy.py] and for the loop of [test_ui.py]. *)
Theorem partial_failure_isolation (w1 w2 : world) :
  (forall (chunks : list string) (i : nat) (c : string),
     chunks !! i = Some c ->
     failed (recognize w2 c) = true ->
     (forall j c', j <> i -> chunks !! j = Some c' ->
                   recognize w2 c' = recognize w1 c') ->
     Testyboy.analyze_all w2 chunks = Testyboy.analyze_all w1 (delete i chunks)
     /\ (forall results,
           Testyboy.analyze_all w1 chunks = Ok results ->
           exists before mine after,
             Testyboy.analyze_all w1 (take i chunks) = Ok before
             /\ kept_payload w1 c = Ok mine
             /\ Testyboy.analyze_all w1 (drop (S i) chunks) = Ok after
             /\ results = before ++ mine ++ after
             /\ Testyboy.analyze_all w2 chunks = Ok (before ++ after)))
  /\ (forall (chunks : list TestUi.chunk) (i : nat) (c : TestUi.chunk),
        chunks !! i = Some c ->
        failed (recognize w2 (TestUi.file c)) = true ->
        (forall j c', j <> i -> chunks !! j = Some c' ->
                      recognize w2 (TestUi.file c')
                      = recognize w1 (TestUi.file c')) ->
        TestUi.analyze_all w2 chunks = TestUi.analyze_all w1 (delete i chunks)
        /\ (forall results,
              TestUi.analyze_all w1 chunks = Ok results ->
              exists before mine after,
                TestUi.analyze_all w1 (take i chunks) = Ok before
                /\ kept_tagged w1 c = Ok mine
                /\ TestUi.analyze_all w1 (drop (S i) chunks) = Ok after
                /\ results = before ++ mine ++ after
                /\ TestUi.analyze_all w2 chunks = Ok (before ++ after))).
Proof.
  split.
  - intros chunks i c Hi Hfail Hagree.
    rewrite !analyze_all_collect.
    apply collect_isolation; [exact Hi| |].
    + unfold kept_payload.
      destruct (failed_analyze w2 c Hfail) as (r & -> & Hr).
      cbn [bind]. rewrite Hr. reflexivity.
    + intros j c' Hj Hc'. unfold kept_payload,
        Testyboy.analyze_chunk_with_shazam.
      rewrite (Hagree j c' Hj Hc'). reflexivity.
  - intros chunks i c Hi Hfail Hagree.
    rewrite !ui_analyze_all_collect.
    apply collect_isolation; [exact Hi| |].
    + unfold kept_tagged.
      change (TestUi.analyze_chunk_with_shazam w2 (TestUi.file c))
        with (Testyboy.analyze_chunk_with_shazam w2 (TestUi.file c)).
      destruct (failed_analyze w2 (TestUi.file c) Hfail) as (r & -> & Hr).
      cbn [bind]. rewrite Hr. reflexivity.
    + intros j c' Hj Hc'. unfold kept_tagged,
        TestUi.analyze_chunk_with_shazam.
      rewrite (Hagree j c' Hj Hc'). reflexivity.
Qed.

Lemma partial_failure_isolation_witness :
  let w1 := Scenario.two_minutes Scenario.abc_xyz_abc in
  let w2 := Scenario.two_minutes Scenario.abc_timeout_abc in
  Testyboy.analyze_all w1 Scenario.chunk_files
  = Ok [ Scenario.payload "ABC" (VInt 1700000000000);
         Scenario.payload "XYZ" (VInt 1700000001000);
         Scenario.payload "ABC" (VInt 1700000002000) ]
  /\ Testyboy.analyze_all w2 Scenario.chunk_files
     = Testyboy.analyze_all w1 (delete 1%nat Scenario.chunk_files).
Proof.
  intros w1 w2. split; [reflexivity|].
  apply (proj1 (partial_failure_isolation w1 w2) Scenario.chunk_files 1%nat
           "/tmp/run/audio_file_chunk_0_00_40.mp3").
  - reflexivity.
  - reflexivity.
  - intros j c' Hj Hc'.
    destruct j as [|[|[|j]]]; try discriminate; try contradiction;
      injection Hc' as <-; reflexivity.
Defined.

(** ** The whole pipeline *)

(** C1, on the run of the claim: three windows of 40 seconds, windows 0
    and 2 recognized as "ABC" and window 1 as "XYZ".  [main] of
    [testyboy.py] drops the duplicate but takes each timestamp from the
    ["timestamp"] entry of a recognition payload, not from the window: the
    records carry the times at which the service answered, and the run
    aborts with [KeyError] when the payloads have no such entry.  The
    payload is moreover the one at the same position of the list before
    deduplication: when windows 0 and 1 are "ABC" and window 2 is "XYZ", the
    record of "XYZ" carries what the payload of window 1 holds.
    [process_pipeline] of [test_ui.py] carries the start offsets of the
    windows but never deduplicates: its list has three records. *)
Theorem pipeline_on_abc_xyz_abc :
  let url := "https://youtu.be/x" in
  let temp_dir := "/tmp/run" in
  Testyboy.split_audio_into_chunks (Scenario.two_minutes Scenario.abc_xyz_abc)
    (VStr "/tmp/run/audio_file.mp3") 40
  = Ok Scenario.chunk_files
  /\ Testyboy.main (Scenario.two_minutes Scenario.abc_xyz_abc) url temp_dir
     = Ok (Testyboy.FinalList
             [ Scenario.track "ABC" (VInt 1700000000000);
               Scenario.track "XYZ" (VInt 1700000001000) ])
  /\ Testyboy.main (Scenario.two_minutes Scenario.abc_xyz_abc_bare) url temp_dir
     = Ok (Testyboy.AnErrorOccurred (Exn KeyError "'timestamp'"))
  /\ Testyboy.main (Scenario.two_minutes Scenario.abc_abc_xyz) url temp_dir
     = Ok (Testyboy.FinalList
             [ Scenario.track "ABC" (VStr "0_00_00");
               Scenario.track "XYZ" (VStr "0_00_40") ])
  /\ TestUi.process_pipeline (Scenario.two_minutes Scenario.abc_xyz_abc)
       (TestUi.App [] "Waiting for input...") url temp_dir
     = Ok (TestUi.App
             [ Scenario.ui_track "ABC" "0:00";
               Scenario.ui_track "XYZ" "0:40";
               Scenario.ui_track "ABC" "1:20" ]
             "Processing complete. Double-click a track to search Soulseek.").
Proof. repeat split; vm_compute; reflexivity. Qed.

(** ** Further properties of deduplication *)

Lemma key_of_None_lacks_track (r : value) :
  key_of r = Ok None -> lacks_track r = true.
Proof.
  unfold key_of, lacks_track.
  destruct (truthy r) eqn:Hr; cbn [negb orb]; [|reflexivity].
  destruct r as [| | | | |kvs]; try discriminate. cbn [py_get bind].
  destruct (assoc "track" kvs) as [t|]; [|reflexivity].
  destruct (truthy t); cbn [negb]; [|reflexivity].
  destruct (py_getitem t "key") as [k|e]; cbn [bind]; [|discriminate].
  destruct (set_contains [] k); cbn [bind]; discriminate.
Qed.

Lemma dedup_loop_keys_read (results seen deduplicated : list value)
    (st : list value * list value) :
  foldM Testyboy.dedup_step (seen, deduplicated) results = Ok st ->
  Forall (fun r => exists o, key_of r = Ok o) results.
Proof.
  revert seen deduplicated.
  induction results as [|r results IH]; intros seen d; cbn [foldM].
  - constructor.
  - rewrite dedup_step_key_of.
    destruct (key_of r) as [[key|]|e] eqn:Hk; cbn [bind]; [| |discriminate].
    + destruct (existsb (atom_eqb key) seen); intros H;
        (constructor; [eauto | apply (IH _ _ H)]).
    + intros H. constructor; [eauto | apply (IH _ _ H)].
Qed.

Lemma dedup_Ok_guarded (x y : list value) :
  Testyboy.deduplicate_results x = Ok y ->
  Forall (fun r => lacks_track r = true \/ is_Some (identity r)) x.
Proof.
  intros H. unfold Testyboy.deduplicate_results in H.
  apply bind_Ok_inv in H. destruct H as (st & Hst & _).
  apply dedup_loop_keys_read in Hst.
  eapply Forall_impl; [exact Hst|]. intros r [o Ho]. cbn beta.
  destruct o as [k|].
  - right. rewrite (key_of_identity _ _ Ho). eauto.
  - left. apply key_of_None_lacks_track, Ho.
Qed.

(** X1. [deduplicate_results] returns exactly on the lists in which every
    result either is skipped by the guard (falsy, or a dictionary with a
    missing or falsy ["track"]) or has a track record with a hashable
    ["key"]; on every other list it raises. *)
Theorem dedup_returns_iff (x : list value) :
  (exists y, Testyboy.deduplicate_results x = Ok y)
  <-> Forall (fun r => lacks_track r = true \/ is_Some (identity r)) x.
Proof.
  split.
  - intros [y H]. apply (dedup_Ok_guarded x y H).
  - intros Hx. destruct (dedup_loop_total x [] []) as [st Hst].
    { eapply Forall_impl; [exact Hx|]. intros r. apply key_of_total. }
    exists (snd st). unfold Testyboy.deduplicate_results. rewrite Hst.
    reflexivity.
Qed.

Lemma dedup_returns_iff_witness :
  exists y,
    Testyboy.deduplicate_results
      [VNone; VDict [("track", VDict [("key", VInt 7)])]] = Ok y.
Proof.
  apply (proj2 (dedup_returns_iff
                  [VNone; VDict [("track", VDict [("key", VInt 7)])]])).
  apply Forall_cons. split; [left; reflexivity|].
  apply Forall_cons. split; [right; eexists; reflexivity | constructor].
Defined.

Lemma holds_key_refl (r key : value) :
  identity r = Some key -> holds_key key r = true.
Proof.
  intros Hid. unfold holds_key. rewrite Hid. apply atom_eqb_refl.
  unfold identity in Hid.
  destruct r as [| | | | |kvs]; try discriminate.
  destruct (assoc "track" kvs) as [[| | | | |tk]|]; try discriminate.
  destruct (assoc "key" tk) as [k'|]; try discriminate.
  destruct (hashable k') eqn:Hh; [congruence | discriminate].
Qed.

(** The set [seen] at the end of the loop holds the identities of all the
    results iterated. *)
Lemma dedup_loop_seen (results earlier seen deduplicated : list value)
    (st : list value * list value) :
  (forall k, existsb (atom_eqb k) seen = existsb (holds_key k) earlier) ->
  foldM Testyboy.dedup_step (seen, deduplicated) results = Ok st ->
  forall k, existsb (atom_eqb k) (fst st)
            = existsb (holds_key k) (earlier ++ results).
Proof.
  revert earlier seen deduplicated.
  induction results as [|r results IH]; intros earlier seen d Hinv;
    cbn [foldM].
  - intros [= <-] k. rewrite app_nil_r. apply Hinv.
  - rewrite dedup_step_key_of.
    replace (earlier ++ r :: results) with ((earlier ++ [r]) ++ results)
      by (rewrite <- app_assoc; reflexivity).
    destruct (key_of r) as [[key|]|e] eqn:Hk; cbn [bind]; [| |discriminate].
    + pose proof (key_of_identity _ _ Hk) as Hid.
      destruct (existsb (atom_eqb key) seen) eqn:Hseen; intros H.
      * apply (IH (earlier ++ [r]) seen d); [|exact H].
        intros k. rewrite existsb_app. simpl. rewrite orb_false_r.
        unfold holds_key at 2. rewrite Hid. rewrite Hinv.
        destruct (atom_eqb k key) eqn:Hkk; [|rewrite orb_false_r; reflexivity].
        rewrite orb_true_r, <- Hinv.
        apply (existsb_atom_eqb_trans k key); assumption.
      * apply (IH (earlier ++ [r]) (key :: seen) (d ++ [r])); [|exact H].
        intros k. rewrite existsb_app. simpl. rewrite orb_false_r.
        unfold holds_key at 2. rewrite Hid, Hinv. apply orb_comm.
    + pose proof (key_of_identity _ _ Hk) as Hid. intros H.
      apply (IH (earlier ++ [r]) seen d); [|exact H].
      intros k. rewrite existsb_app. simpl. rewrite orb_false_r.
      unfold holds_key at 2. rewrite Hid, orb_false_r. apply Hinv.
Qed.

(** The set [seen] holds only identities of results that were kept. *)
Lemma dedup_loop_seen_kept (results seen deduplicated : list value)
    (st : list value * list value) :
  (forall k, existsb (atom_eqb k) seen = existsb (holds_key k) deduplicated) ->
  foldM Testyboy.dedup_step (seen, deduplicated) results = Ok st ->
  forall k, existsb (atom_eqb k) (fst st) = existsb (holds_key k) (snd st).
Proof.
  revert seen deduplicated.
  induction results as [|r results IH]; intros seen d Hinv; cbn [foldM].
  - intros [= <-]. exact Hinv.
  - rewrite dedup_step_key_of.
    destruct (key_of r) as [[key|]|e] eqn:Hk; cbn [bind]; [| |discriminate].
    + destruct (existsb (atom_eqb key) seen) eqn:Hseen; intros H.
      * apply (IH _ _ Hinv H).
      * apply (IH (key :: seen) (d ++ [r])); [|exact H].
        intros k. rewrite existsb_app. simpl. rewrite orb_false_r.
        unfold holds_key at 2. rewrite (key_of_identity _ _ Hk), Hinv.
        apply orb_comm.
    + intros H. apply (IH _ _ Hinv H).
Qed.

Lemma fresh_keys_identity (kept seen : list value) (r : value) :
  fresh_keys seen kept -> r ∈ kept -> is_Some (identity r).
Proof.
  revert seen; induction kept as [|r0 kept IH]; intros seen Hf Hr.
  - inversion Hr.
  - destruct Hf as (k & Hk0 & _ & Hrest).
    apply elem_of_cons in Hr. destruct Hr as [-> | Hr].
    + rewrite (key_of_identity _ _ Hk0). eauto.
    + apply (IH (k :: seen) Hrest Hr).
Qed.

(** X2. When [deduplicate_results] returns, every track identity of the
    input is represented in the output, every result of the output is a
    result of the input that has an identity, and the output is never
    longer than the input. *)
Theorem dedup_keeps_every_identity (x y : list value) :
  Testyboy.deduplicate_results x = Ok y ->
  (forall r, r ∈ x -> is_Some (identity r) ->
             exists r', r' ∈ y /\ same_identity r r' = true)
  /\ (forall r', r' ∈ y -> r' ∈ x /\ is_Some (identity r'))
  /\ (length y <= length x)%nat.
Proof.
  intros H. unfold Testyboy.deduplicate_results in H.
  apply bind_Ok_inv in H. destruct H as (st & Hst & [= <-]).
  split; [|split].
  - intros r Hr [key Hid].
    pose proof (dedup_loop_seen x [] [] [] st (fun k => eq_refl) Hst key) as Hs.
    pose proof (dedup_loop_seen_kept x [] [] st (fun k => eq_refl) Hst key) as Hk.
    rewrite Hk in Hs. cbn [app] in Hs.
    assert (Hx : existsb (holds_key key) x = true).
    { apply existsb_exists. exists r. split.
      - apply list_elem_of_In, Hr.
      - apply holds_key_refl, Hid. }
    rewrite Hx in Hs. apply existsb_exists in Hs.
    destruct Hs as (r' & Hin & Hr').
    exists r'. split; [apply list_elem_of_In, Hin|].
    unfold same_identity. rewrite Hid. exact Hr'.
  - intros r' Hr'.
    destruct (dedup_loop_kept x [] [] st Hst) as (kept & Hk & Hf & Hs).
    cbn [app] in Hk. rewrite Hk in Hr'. split.
    + eapply elem_of_sublist; eassumption.
    + apply (fresh_keys_identity kept [] r' Hf Hr').
  - destruct (dedup_loop_kept x [] [] st Hst) as (kept & Hk & _ & Hs).
    cbn [app] in Hk. rewrite Hk. apply sublist_length, Hs.
Qed.

Lemma dedup_keeps_every_identity_witness :
  let abc := VDict [("track", VDict [("key", VStr "ABC")])] in
  let abc' := VDict [("track", VDict [("key", VStr "ABC"); ("title", VStr "x")])] in
  exists r', r' ∈ [abc] /\ same_identity abc' r' = true.
Proof.
  intros abc abc'.
  apply (proj1 (dedup_keeps_every_identity [abc; abc'] [abc] eq_refl) abc').
  - apply elem_of_cons. right. constructor.
  - eexists. reflexivity.
Defined.

Lemma lacks_track_key_of (r : value) :
  lacks_track r = true -> key_of r = Ok None.
Proof.
  intros Hr. destruct (key_of_total r (or_introl Hr)) as [o Ho].
  rewrite Ho. f_equal. apply key_of_identity in Ho. rewrite <- Ho.
  unfold lacks_track in Hr. unfold identity.
  destruct r as [| | | | |kvs]; try reflexivity.
  destruct (assoc "track" kvs) as [[| | | | |tk]|] eqn:Ht; try reflexivity.
  rewrite (assoc_Some_truthy _ _ _ Ht) in Hr.
  destruct tk as [|tkv tk]; [reflexivity | discriminate].
Qed.

Lemma identity_key_of (r key : value) :
  identity r = Some key -> key_of r = Ok (Some key).
Proof.
  intros Hid. destruct (key_of_total r) as [o Ho].
  { right. rewrite Hid. eauto. }
  rewrite Ho. f_equal. rewrite <- Hid. symmetry. apply key_of_identity, Ho.
Qed.

(** Results that are skipped, or whose key is in [seen], leave the state of
    the loop as it is. *)
Lemma dedup_loop_noop (ys seen deduplicated : list value) :
  Forall (fun r => lacks_track r = true
                   \/ exists key, identity r = Some key
                                  /\ existsb (atom_eqb key) seen = true) ys ->
  foldM Testyboy.dedup_step (seen, deduplicated) ys = Ok (seen, deduplicated).
Proof.
  induction 1 as [|r ys Hr _ IH]; cbn [foldM]; [reflexivity|].
  rewrite dedup_step_key_of.
  destruct Hr as [Hr | (key & Hid & Hseen)].
  - rewrite (lacks_track_key_of r Hr). exact IH.
  - rewrite (identity_key_of r key Hid), Hseen. exact IH.
Qed.

(** X3. Results appended to a list change nothing in what
    [deduplicate_results] returns when each of them is skipped by the guard
    or repeats the identity of a result of the list; in particular
    [deduplicate_results(x + x)] gives what [deduplicate_results(x)]
    gives, the same list or the same exception. *)
Theorem dedup_absorbs_repeats (x : list value) :
  (forall y out,
     Testyboy.deduplicate_results x = Ok out ->
     Forall (fun r => lacks_track r = true
                      \/ exists r', r' ∈ x /\ same_identity r r' = true) y ->
     Testyboy.deduplicate_results (x ++ y) = Ok out)
  /\ Testyboy.deduplicate_results (x ++ x) = Testyboy.deduplicate_results x.
Proof.
  assert (Habs : forall y out,
     Testyboy.deduplicate_results x = Ok out ->
     Forall (fun r => lacks_track r = true
                      \/ exists r', r' ∈ x /\ same_identity r r' = true) y ->
     Testyboy.deduplicate_results (x ++ y) = Ok out).
  { intros y out H Hy. unfold Testyboy.deduplicate_results in *.
    apply bind_Ok_inv in H. destruct H as ([seen d] & Hst & [= <-]).
    rewrite foldM_app, Hst. cbn [bind].
    rewrite dedup_loop_noop; [reflexivity|].
    eapply Forall_impl; [exact Hy|]. intros r [Hr | (r' & Hin & Hsame)].
    - left. exact Hr.
    - right. unfold same_identity in Hsame.
      destruct (identity r) as [key|] eqn:Hid; [|discriminate].
      exists key. split; [reflexivity|].
      pose proof (dedup_loop_seen x [] [] [] _ (fun k => eq_refl) Hst key)
        as Hs.
      cbn [fst app] in Hs. rewrite Hs. apply existsb_exists. exists r'.
      split; [apply list_elem_of_In, Hin | exact Hsame]. }
  split; [exact Habs|].
  destruct (Testyboy.deduplicate_results x) as [out|e] eqn:H.
  - apply Habs; [reflexivity|].
    pose proof (dedup_Ok_guarded x out H) as Hx.
    apply Forall_forall. intros r Hr.
    rewrite Forall_forall in Hx. destruct (Hx r Hr) as [Hl | [key Hid]].
    + left. exact Hl.
    + right. exists r. split; [exact Hr|].
      unfold same_identity. rewrite Hid. apply holds_key_refl, Hid.
  - unfold Testyboy.deduplicate_results in *. rewrite foldM_app.
    destruct (foldM Testyboy.dedup_step ([], []) x); [discriminate|].
    exact H.
Qed.

Lemma dedup_absorbs_repeats_witness :
  let abc := VDict [("track", VDict [("key", VStr "ABC")])] in
  let abc' := VDict [("track", VDict [("key", VStr "ABC"); ("title", VStr "x")])] in
  Testyboy.deduplicate_results ([abc] ++ [abc'; VNone]) = Ok [abc].
Proof.
  intros abc abc'.
  apply (proj1 (dedup_absorbs_repeats [abc])); [reflexivity|].
  apply Forall_cons. split.
  - right. exists abc. split; [constructor | reflexivity].
  - apply Forall_cons. split; [left; reflexivity | constructor].
Defined.

(** ** Further properties of the recognition loop *)

Lemma concat_option_list {A B : Type} (f : A -> option B) (xs : list A) :
  concat (map (fun x => option_list (f x)) xs) = omap f xs.
Proof.
  induction xs as [|x xs IH]; [reflexivity|]. cbn [map concat].
  rewrite IH.
  change (omap f (x :: xs))
    with (match f x with Some y => y :: omap f xs | None => omap f xs end).
  destruct (f x); reflexivity.
Qed.

Lemma omap_length_le {A B : Type} (f : A -> option B) (xs : list A) :
  (length (omap f xs) <= length xs)%nat.
Proof.
  induction xs as [|x xs IH]; [reflexivity|].
  change (omap f (x :: xs))
    with (match f x with Some y => y :: omap f xs | None => omap f xs end).
  destruct (f x); cbn [length]; lia.
Qed.

Lemma kept_payload_answer (w : world) (c : string) :
  service_level (recognize w c) = true ->
  kept_payload w c = Ok (option_list (answer w c)).
Proof.
  unfold service_level, kept_payload, answer,
    Testyboy.analyze_chunk_with_shazam, try_except.
  destruct (recognize w c) as [v|e].
  - intros _. cbn [bind]. destruct (truthy v); reflexivity.
  - intros ->. reflexivity.
Qed.

Lemma kept_payload_Ok (w : world) (c : string) (ys : list value) :
  kept_payload w c = Ok ys -> service_level (recognize w c) = true.
Proof.
  unfold service_level, kept_payload,
    Testyboy.analyze_chunk_with_shazam, try_except.
  destruct (recognize w c) as [v|e]; [reflexivity|].
  destruct (is_Exception e); [reflexivity | discriminate].
Qed.

Lemma kept_tagged_answer (w : world) (c : TestUi.chunk) :
  service_level (recognize w (TestUi.file c)) = true ->
  kept_tagged w c = Ok (option_list (ui_answer w c)).
Proof.
  unfold service_level, kept_tagged, ui_answer, answer,
    TestUi.analyze_chunk_with_shazam, try_except.
  destruct (recognize w (TestUi.file c)) as [v|e].
  - intros _. cbn [bind]. destruct (truthy v); reflexivity.
  - intros ->. reflexivity.
Qed.

Lemma kept_tagged_Ok (w : world) (c : TestUi.chunk) (ys : list TestUi.tagged) :
  kept_tagged w c = Ok ys ->
  service_level (recognize w (TestUi.file c)) = true.
Proof.
  unfold service_level, kept_tagged,
    TestUi.analyze_chunk_with_shazam, try_except.
  destruct (recognize w (TestUi.file c)) as [v|e]; [reflexivity|].
  destruct (is_Exception e); [reflexivity | discriminate].
Qed.

Section CollectAnswers.
Context {A B : Type} (kept : A -> result (list B)) (ans : A -> option B)
  (ok : A -> Prop).
Hypothesis kept_ans : forall x, ok x -> kept x = Ok (option_list (ans x)).
Hypothesis kept_ok : forall x ys, kept x = Ok ys -> ok x.

Lemma collect_answers (xs : list A) :
  Forall ok xs -> collect kept xs = Ok (omap ans xs).
Proof.
  intros H. unfold collect.
  rewrite (mapM_total kept (fun x => option_list (ans x))).
  - cbn [bind]. rewrite concat_option_list. reflexivity.
  - intros x Hx. apply kept_ans. rewrite Forall_forall in H. apply H, Hx.
Qed.

Lemma collect_Ok_all (xs : list A) (out : list B) :
  collect kept xs = Ok out -> Forall ok xs.
Proof.
  unfold collect. intros H. apply bind_Ok_inv in H.
  destruct H as (yss & H & _). revert yss H.
  induction xs as [|x xs IH]; intros yss H; [constructor|].
  cbn [mapM] in H. apply bind_Ok_inv in H. destruct H as (ys & Hx & H).
  apply bind_Ok_inv in H. destruct H as (yss' & Hxs & _).
  constructor; [apply (kept_ok x ys Hx) | apply (IH yss' Hxs)].
Qed.

Lemma collect_first_raise (pre post : list A) (c : A) (e : exn) :
  Forall ok pre -> kept c = Raise e ->
  collect kept (pre ++ c :: post) = Raise e.
Proof.
  intros Hpre Hc. rewrite collect_app, (collect_answers pre Hpre).
  cbn [bind]. change (c :: post) with ([c] ++ post).
  rewrite collect_app, collect_singleton, Hc. reflexivity.
Qed.
End CollectAnswers.

(** X4. The recognition loop of [main] returns exactly when no recognition
    ends in a signal outside [Exception], and [results] then holds, in
    window order, the truthy payloads that the service returned, at most one
    per chunk; otherwise the loop raises the signal of the first such
    chunk.  The loop of [process_pipeline] does the same, each payload
    tagged with the timestamp of its chunk. *)
Theorem analyze_all_answers (w : world) :
  (forall chunks results,
     Testyboy.analyze_all w chunks = Ok results
     <-> Forall (fun c => service_level (recognize w c) = true) chunks
         /\ results = omap (answer w) chunks)
  /\ (forall chunks, Forall (fun r => truthy r = true) (omap (answer w) chunks)
                     /\ (length (omap (answer w) chunks) <= length chunks)%nat)
  /\ (forall pre c post e,
        Forall (fun c => service_level (recognize w c) = true) pre ->
        recognize w c = Raise e -> is_Exception e = false ->
        Testyboy.analyze_all w (pre ++ c :: post) = Raise e)
  /\ (forall chunks results,
        TestUi.analyze_all w chunks = Ok results
        <-> Forall (fun c => service_level (recognize w (TestUi.file c)) = true)
              chunks
            /\ results = omap (ui_answer w) chunks).
Proof.
  split; [|split; [|split]].
  - intros chunks results. rewrite analyze_all_collect. split.
    + intros H.
      pose proof (collect_Ok_all _ _ (kept_payload_Ok w) chunks results H) as Hall.
      split; [exact Hall|].
      rewrite (collect_answers _ (answer w) _ (kept_payload_answer w) chunks Hall)
        in H.
      congruence.
    + intros [Hall ->].
      apply (collect_answers _ (answer w) _ (kept_payload_answer w) chunks Hall).
  - intros chunks. split.
    + apply Forall_forall. intros r Hr. apply list_elem_of_omap in Hr.
      destruct Hr as (c & _ & Hc). unfold answer in Hc.
      destruct (recognize w c) as [v|e]; [|discriminate].
      destruct (truthy v) eqn:Hv; [congruence | discriminate].
    + apply omap_length_le.
  - intros pre c post e Hpre Hc He. rewrite analyze_all_collect.
    apply (collect_first_raise _ (answer w) _ (kept_payload_answer w));
      [exact Hpre|].
    unfold kept_payload, Testyboy.analyze_chunk_with_shazam, try_except.
    rewrite Hc, He. reflexivity.
  - intros chunks results. rewrite ui_analyze_all_collect. split.
    + intros H.
      pose proof (collect_Ok_all _ _ (kept_tagged_Ok w) chunks results H) as Hall.
      split; [exact Hall|].
      rewrite (collect_answers _ (ui_answer w) _ (kept_tagged_answer w)
                 chunks Hall) in H.
      congruence.
    + intros [Hall ->].
      apply (collect_answers _ (ui_answer w) _ (kept_tagged_answer w) chunks Hall).
Qed.

Lemma analyze_all_answers_witness :
  let w := Scenario.two_minutes Scenario.abc_timeout_abc in
  Testyboy.analyze_all w Scenario.chunk_files
  = Ok [ Scenario.payload "ABC" (VInt 1700000000000);
         Scenario.payload "ABC" (VInt 1700000002000) ].
Proof.
  intros w.
  apply (proj2 (proj1 (analyze_all_answers w) Scenario.chunk_files _)).
  split; [|reflexivity].
  repeat (apply Forall_cons; split; [reflexivity|]). constructor.
Defined.

(** ** Exceptions that leave a run *)

Lemma benign_Ok {A : Type} (a : A) : benign (Ok a).
Proof. intros e H. discriminate. Qed.

Lemma benign_Raise {A : Type} (e : exn) :
  is_Exception e = true -> benign (@Raise A e).
Proof. intros He e' [= <-]. exact He. Qed.

Lemma benign_bind {A B : Type} (m : result A) (k : A -> result B) :
  benign m -> (forall a, m = Ok a -> benign (k a)) -> benign (bind m k).
Proof.
  intros Hm Hk e. destruct m as [a|e']; cbn [bind].
  - apply (Hk a eq_refl).
  - intros [= <-]. apply Hm. reflexivity.
Qed.

Lemma benign_foldM {S A : Type} (f : S -> A -> result S) (xs : list A) (s : S) :
  (forall s x, benign (f s x)) -> benign (foldM f s xs).
Proof.
  intros Hf. revert s. induction xs as [|x xs IH]; intros s; cbn [foldM].
  - apply benign_Ok.
  - apply benign_bind; [apply Hf | intros s' _; apply IH].
Qed.

Lemma benign_mapM {A B : Type} (f : A -> result B) (xs : list A) :
  (forall x, benign (f x)) -> benign (mapM f xs).
Proof.
  intros Hf. induction xs as [|x xs IH]; cbn [mapM].
  - apply benign_Ok.
  - apply benign_bind; [apply Hf|]. intros y _.
    apply benign_bind; [apply IH|]. intros ys _. apply benign_Ok.
Qed.

Lemma benign_py_get (v : value) (k : string) (d : value) :
  benign (py_get v k d).
Proof. intros e. destruct v; cbn; intros [= <-]; reflexivity. Qed.

Lemma benign_py_getitem (v : value) (k : string) : benign (py_getitem v k).
Proof.
  intros e. destruct v as [| | | | |kvs]; cbn; try (intros [= <-]; reflexivity).
  destruct (assoc k kvs); intros [= <-]; reflexivity.
Qed.

Lemma benign_py_iter (v : value) : benign (py_iter v).
Proof. intros e. destruct v; cbn; intros [= <-]; reflexivity. Qed.

Lemma benign_py_first (v : value) : benign (py_first v).
Proof.
  intros e. destruct v as [| | |s|xs|kvs]; cbn; try (intros [= <-]; reflexivity).
  - destruct s; intros [= <-]; reflexivity.
  - destruct xs; intros [= <-]; reflexivity.
Qed.

Lemma benign_set_contains (seen : list value) (k : value) :
  benign (set_contains seen k).
Proof.
  intros e. unfold set_contains. destruct (hashable k); intros [= <-].
  reflexivity.
Qed.

Ltac benign_step :=
  first [ apply benign_Ok
        | apply benign_py_get | apply benign_py_getitem | apply benign_py_iter
        | apply benign_py_first | apply benign_set_contains
        | apply benign_bind; [|intros ? _]
        | apply benign_foldM; intros ? ?
        | apply benign_mapM; intros ?
        | match goal with |- benign (if ?b then _ else _) => destruct b end
        | match goal with |- benign (let '(_, _) := ?p in _) => destruct p end ].

Lemma benign_extract_track_info (entry timestamp : value) :
  benign (Testyboy.extract_track_info entry timestamp).
Proof.
  unfold Testyboy.extract_track_info, Testyboy.scan_section, Testyboy.scan_meta.
  repeat benign_step.
Qed.

Lemma benign_ui_extract_track_info (entry timestamp : value) :
  benign (TestUi.extract_track_info entry timestamp).
Proof. unfold TestUi.extract_track_info. repeat benign_step. Qed.

Lemma benign_deduplicate_results (results : list value) :
  benign (Testyboy.deduplicate_results results).
Proof.
  unfold Testyboy.deduplicate_results, Testyboy.dedup_step.
  repeat benign_step.
Qed.

Lemma benign_make_chunks (audio chunk_length : Z) :
  benign (Pydub.make_chunks audio chunk_length).
Proof.
  intros e He. unfold is_Exception.
  destruct (make_chunks_raises _ _ _ He) as [-> | ->]; reflexivity.
Qed.

Lemma benign_format_time (milliseconds : Z) :
  benign (Testyboy.format_time milliseconds).
Proof.
  intros e He. unfold is_Exception.
  rewrite (format_time_raises _ _ He). reflexivity.
Qed.

Lemma benign_splitext_root_of (audio_file : value) :
  benign (Testyboy.splitext_root_of audio_file).
Proof. intros e. destruct audio_file; cbn; intros [= <-]; reflexivity. Qed.

Lemma benign_download (w : world) (youtube_url temp_dir : string) :
  raises_only_Exception w ->
  benign (Testyboy.download_youtube_audio w youtube_url temp_dir).
Proof.
  intros (Hrun & _ & _) e. unfold Testyboy.download_youtube_audio.
  destruct (yt_dlp w youtube_url temp_dir) as [rc stderr|e'] eqn:Hy.
  - destruct (rc =? 0).
    + destruct (List.filter _ _); discriminate.
    + intros [= <-]. reflexivity.
  - intros [= <-]. apply (Hrun _ _ _ Hy).
Qed.

Lemma benign_split (w : world) (audio_file : value) (chunk_duration : Z) :
  raises_only_Exception w ->
  benign (Testyboy.split_audio_into_chunks w audio_file chunk_duration)
  /\ benign (TestUi.split_audio_into_chunks w audio_file chunk_duration).
Proof.
  intros (_ & Hdec & _).
  unfold Testyboy.split_audio_into_chunks, TestUi.split_audio_into_chunks.
  split.
  - apply benign_bind; [intros e; apply Hdec | intros audio _].
    apply benign_bind; [apply benign_make_chunks | intros chunks _].
    apply benign_mapM. intros i.
    apply benign_bind; [apply benign_format_time | intros start_time _].
    apply benign_bind; [apply benign_splitext_root_of | intros root _].
    apply benign_Ok.
  - apply benign_bind; [intros e; apply Hdec | intros audio _].
    apply benign_bind; [apply benign_make_chunks | intros chunks _].
    apply benign_mapM. intros i.
    apply benign_bind; [apply benign_splitext_root_of | intros root _].
    apply benign_Ok.
Qed.

Lemma benign_analyze_chunk (w : world) (file_path : string) :
  raises_only_Exception w ->
  benign (Testyboy.analyze_chunk_with_shazam w file_path).
Proof.
  intros (_ & _ & Hrec) e.
  unfold Testyboy.analyze_chunk_with_shazam, try_except.
  destruct (recognize w file_path) as [v|e'] eqn:Hr; [discriminate|].
  rewrite (Hrec _ _ Hr). discriminate.
Qed.

Lemma benign_main_after_download (w : world) (audio_file : value) :
  raises_only_Exception w ->
  benign (Testyboy.main_after_download w audio_file).
Proof.
  intros Hw. unfold Testyboy.main_after_download.
  apply benign_bind; [apply (benign_split w _ _ Hw) | intros chunks _].
  apply benign_bind.
  { unfold Testyboy.analyze_all, Testyboy.analyze_step.
    apply benign_foldM. intros results chunk.
    apply benign_bind; [apply (benign_analyze_chunk w _ Hw) | intros r _].
    destruct (truthy r); apply benign_Ok. }
  intros results _.
  apply benign_bind; [apply benign_deduplicate_results | intros d _].
  unfold Testyboy.extract_all. apply benign_mapM. intros rc.
  apply benign_bind; [apply benign_py_getitem | intros ts _].
  apply benign_extract_track_info.
Qed.

Lemma benign_update_track_list (w : world) (self : TestUi.app) :
  benign (TestUi.update_track_list w self).
Proof.
  unfold TestUi.update_track_list. apply benign_foldM. intros [] track.
  apply benign_bind; [apply benign_py_getitem | intros name _].
  apply benign_bind; [apply benign_py_getitem | intros artist _].
  apply benign_bind; [apply benign_py_getitem | intros timestamp _].
  unfold TestUi.tree_item. destruct (forallb _ _); [apply benign_Ok|].
  apply benign_Raise. reflexivity.
Qed.

Lemma benign_process_after_download (w : world) (self : TestUi.app)
    (audio_file : value) :
  raises_only_Exception w ->
  benign (snd (TestUi.process_after_download w self audio_file)).
Proof.
  intros Hw. unfold TestUi.process_after_download. cbv zeta.
  destruct (TestUi.split_audio_into_chunks w audio_file 40)
    as [chunks|e] eqn:Hs.
  2:{ cbn [snd]. intros e' [= <-].
      exact (proj2 (benign_split w _ _ Hw) e Hs). }
  destruct (bind (TestUi.analyze_all w chunks) _) as [new_tracks|e] eqn:Hr.
  2:{ cbn [snd]. intros e' [= <-]. revert e Hr.
      apply benign_bind.
      { unfold TestUi.analyze_all, TestUi.analyze_step.
        apply benign_foldM. intros results chunk.
        apply benign_bind; [apply (benign_analyze_chunk w _ Hw) | intros r _].
        destruct (truthy r); apply benign_Ok. }
      intros results _.
      unfold TestUi.extract_all. apply benign_mapM. intros r.
      apply benign_ui_extract_track_info. }
  destruct (TestUi.update_track_list w _) as [[]|e] eqn:Hu; cbn [snd].
  - apply benign_Ok.
  - intros e' [= <-]. exact (benign_update_track_list _ _ e Hu).
Qed.

Lemma finish_benign (block : TestUi.app * result unit) :
  benign (snd block) -> exists self', TestUi.finish block = Ok self'.
Proof.
  destruct block as [self [[]|e]]; cbn [snd TestUi.finish]; intros Hb;
    [eauto|].
  rewrite (Hb e eq_refl). eauto.
Qed.

Lemma finish_Raise (block : TestUi.app * result unit) (e : exn) :
  TestUi.finish block = Raise e -> is_Exception e = false.
Proof.
  destruct block as [self [[]|e']]; cbn [TestUi.finish]; [discriminate|].
  destruct (is_Exception e') eqn:He; [discriminate|].
  intros [= <-]. exact He.
Qed.

Lemma try_except_benign {A : Type} (m : result A) (h : exn -> A) :
  benign m -> exists a, try_except m is_Exception (fun e => Ok (h e)) = Ok a.
Proof.
  intros Hm. unfold try_except. destruct m as [a|e]; [eauto|].
  rewrite (Hm e eq_refl). eauto.
Qed.

(** X5. A run of [main] always ends with a report, the final list or "An
    error occurred", and a run of [process_pipeline] always ends with a
    state of the widget, as long as the collaborators (yt-dlp, the decoder,
    the recognition service) raise nothing outside [Exception]: no
    [KeyError], [TypeError], [AttributeError] or [ZeroDivisionError] of the
    program's own leaves either function.  What does leave them is never an
    [Exception]. *)
Theorem runs_end_with_a_report (w : world) (youtube_url temp_dir : string)
    (self : TestUi.app) :
  (raises_only_Exception w ->
   (exists report, Testyboy.main w youtube_url temp_dir = Ok report)
   /\ (exists self', TestUi.process_pipeline w self youtube_url temp_dir
                     = Ok self'))
  /\ (forall e, Testyboy.main w youtube_url temp_dir = Raise e ->
                is_Exception e = false)
  /\ (forall e, TestUi.process_pipeline w self youtube_url temp_dir = Raise e ->
                is_Exception e = false).
Proof.
  split; [|split].
  - intros Hw. split.
    + unfold Testyboy.main.
      apply (try_except_benign _ Testyboy.AnErrorOccurred).
      apply benign_bind; [apply (benign_download w _ _ Hw) | intros f _].
      apply benign_bind; [apply (benign_main_after_download w _ Hw)|].
      intros info _. apply benign_Ok.
    + unfold TestUi.process_pipeline.
      destruct (negb (truthy (VStr youtube_url))); [eauto|].
      apply finish_benign.
      destruct (TestUi.download_youtube_audio w youtube_url temp_dir)
        as [f|e] eqn:Hd.
      * apply (benign_process_after_download w _ _ Hw).
      * cbn [snd]. intros e' [= <-]. exact (benign_download w _ _ Hw e Hd).
  - intros e. unfold Testyboy.main, try_except.
    destruct (bind _ _) as [r|e']; [discriminate|].
    destruct (is_Exception e') eqn:He; [discriminate|].
    intros [= <-]. exact He.
  - intros e. unfold TestUi.process_pipeline.
    destruct (negb (truthy (VStr youtube_url))); [discriminate|].
    apply finish_Raise.
Qed.

Lemma two_minutes_raises_only_Exception :
  raises_only_Exception (Scenario.two_minutes Scenario.abc_timeout_abc).
Proof.
  split; [|split].
  - intros url temp_dir e. discriminate.
  - intros f e. destruct f; cbn; intros [= <-]; reflexivity.
  - intros p e. cbn. destruct (Scenario.window_of p) as [|[|n]]; cbn;
      try discriminate. intros [= <-]. reflexivity.
Qed.

Lemma runs_end_with_a_report_witness :
  exists report,
    Testyboy.main (Scenario.two_minutes Scenario.abc_timeout_abc)
      "https://youtu.be/x" "/tmp/run" = Ok report.
Proof.
  apply (proj1 (runs_end_with_a_report
                  (Scenario.two_minutes Scenario.abc_timeout_abc)
                  "https://youtu.be/x" "/tmp/run" (TestUi.App [] ""))
           two_minutes_raises_only_Exception).
Defined.

(** ** Further properties of the pipelines *)





Lemma mapM_lookup {A B : Type} (f : A -> result B) (xs : list A) (ys : list B) :
  mapM f xs = Ok ys ->
  length ys = length xs
  /\ (forall k y, ys !! k = Some y -> exists x, xs !! k = Some x /\ f x = Ok y).
Proof.
  revert ys; induction xs as [|x xs IH]; intros ys; cbn [mapM].
  - intros [= <-]. split; [reflexivity|]. intros k y Hk.
    rewrite lookup_nil in Hk. discriminate.
  - intros H. apply bind_Ok_inv in H. destruct H as (y0 & H0 & H).
    apply bind_Ok_inv in H. destruct H as (ys' & Hxs & [= <-]).
    destruct (IH ys' Hxs) as [Hlen Hk]. split.
    + cbn [length]. rewrite Hlen. reflexivity.
    + intros [|k] y Hy.
      * injection Hy as <-. exists x. auto.
      * apply (Hk k y Hy).
Qed.

Lemma dedup_Ok_first_occurrences (x y : list value) :
  Testyboy.deduplicate_results x = Ok y ->
  y = first_occurrences x /\ sublist y x.
Proof.
  intros H. unfold Testyboy.deduplicate_results in H.
  apply bind_Ok_inv in H. destruct H as (st & Hst & [= <-]). split.
  - apply (dedup_loop_first_occurrences x [] [] []) in Hst; [exact Hst|].
    intros k; reflexivity.
  - apply dedup_loop_kept in Hst. destruct Hst as (kept & -> & _ & Hs).
    exact Hs.
Qed.

(** X7. What [main] prints when a run completes: one record per first
    occurrence of a track identity among the recognition results, in
    order.  Record [k] is extracted from the [k]-th first occurrence, and
    its timestamp is the ["timestamp"] entry of the [k]-th recognition
    result of the list before deduplication, which must have one. *)
Theorem main_records (w : world) (audio_file : value) (out : list value) :
  Testyboy.main_after_download w audio_file = Ok out ->
  exists chunks results,
    Testyboy.split_audio_into_chunks w audio_file 40 = Ok chunks
    /\ Testyboy.analyze_all w chunks = Ok results
    /\ length out = length (first_occurrences results)
    /\ (forall k record,
          out !! k = Some record ->
          exists r c timestamp,
            first_occurrences results !! k = Some r
            /\ results !! k = Some c
            /\ py_getitem c "timestamp" = Ok timestamp
            /\ record = extracted r timestamp).
Proof.
  unfold Testyboy.main_after_download. intros H.
  apply bind_Ok_inv in H. destruct H as (chunks & Hsplit & H).
  apply bind_Ok_inv in H. destruct H as (results & Hres & H).
  apply bind_Ok_inv in H. destruct H as (d & Hd & H).
  exists chunks, results. split; [exact Hsplit|]. split; [exact Hres|].
  destruct (dedup_Ok_first_occurrences _ _ Hd) as [Hfo Hsub].
  rewrite <- Hfo.
  unfold Testyboy.extract_all in H. apply mapM_lookup in H.
  destruct H as [Hlen Hk]. split.
  - rewrite Hlen, length_zip_with. apply sublist_length in Hsub. lia.
  - intros k record Hrec. destruct (Hk k record Hrec) as ([r c] & Hz & Hx).
    apply lookup_zip_Some in Hz. destruct Hz as [Hr Hc].
    cbn [fst snd] in Hx. apply bind_Ok_inv in Hx.
    destruct Hx as (timestamp & Hts & Hx).
    exists r, c, timestamp. repeat split; try assumption.
    pose proof (extract_track_info_Ok _ _ _ Hx) as Hshape.
    rewrite (extract_track_info_shaped _ _ Hshape) in Hx. congruence.
Qed.

Lemma main_records_witness :
  exists chunks results,
    Testyboy.split_audio_into_chunks
      (Scenario.two_minutes Scenario.abc_abc_xyz)
      (VStr "/tmp/run/audio_file.mp3") 40 = Ok chunks
    /\ Testyboy.analyze_all (Scenario.two_minutes Scenario.abc_abc_xyz) chunks
       = Ok results
    /\ length [ Scenario.track "ABC" (VStr "0_00_00");
                Scenario.track "XYZ" (VStr "0_00_40") ]
       = length (first_occurrences results).
Proof.
  destruct (main_records (Scenario.two_minutes Scenario.abc_abc_xyz)
              (VStr "/tmp/run/audio_file.mp3")
              [ Scenario.track "ABC" (VStr "0_00_00");
                Scenario.track "XYZ" (VStr "0_00_40") ] eq_refl)
    as (chunks & results & H1 & H2 & H3 & _).
  exists chunks, results. auto.
Defined.

Lemma mapM_Ok_map {A B : Type} (f : A -> result B) (g : A -> B)
    (xs : list A) (ys : list B) :
  (forall x y, f x = Ok y -> y = g x) ->
  mapM f xs = Ok ys -> ys = map g xs.
Proof.
  intros Hfg. revert ys; induction xs as [|x xs IH]; intros ys; cbn [mapM map].
  - intros [= <-]. reflexivity.
  - intros H. apply bind_Ok_inv in H. destruct H as (y0 & H0 & H).
    apply bind_Ok_inv in H. destruct H as (ys' & Hxs & [= <-]).
    rewrite (Hfg x y0 H0), (IH ys' Hxs). reflexivity.
Qed.

Lemma ui_extract_Ok (entry timestamp record : value) :
  TestUi.extract_track_info entry timestamp = Ok record ->
  record
  = VDict [ ("Track Name",
             getd (getd entry "track" (VDict [])) "title" (VStr "Unknown"));
            ("Artist",
             getd (getd entry "track" (VDict [])) "subtitle" (VStr "Unknown"));
            ("Timestamp", timestamp) ].
Proof.
  unfold TestUi.extract_track_info. intros H.
  apply bind_Ok_inv in H. destruct H as (t & Ht & H).
  apply py_get_Ok in Ht. destruct Ht as [_ ->].
  apply bind_Ok_inv in H. destruct H as (title & Hti & H).
  apply py_get_Ok in Hti. destruct Hti as [_ ->].
  apply bind_Ok_inv in H. destruct H as (artist & Ha & H).
  apply py_get_Ok in Ha. destruct Ha as [_ ->].
  congruence.
Qed.

Lemma omap_fmap_sublist {A B C : Type} (f : A -> option B) (g : B -> C)
    (h : A -> C) (xs : list A) :
  (forall x y, f x = Some y -> g y = h x) ->
  sublist (map g (omap f xs)) (map h xs).
Proof.
  intros Hfg. induction xs as [|x xs IH]; [constructor|].
  change (omap f (x :: xs))
    with (match f x with Some y => y :: omap f xs | None => omap f xs end).
  destruct (f x) as [y|] eqn:Hx; cbn [map].
  - rewrite (Hfg x y Hx). apply sublist_skip, IH.
  - apply sublist_cons, IH.
Qed.

(** The item of the tree for a record of [extract_track_info]. *)
Lemma tree_item_record (w : world) (r : TestUi.tagged) :
  (let* name := py_getitem (ui_record r) "Track Name" in
   let* artist := py_getitem (ui_record r) "Artist" in
   let* timestamp := py_getitem (ui_record r) "Timestamp" in
   TestUi.tree_item w [name; artist; timestamp])
  = if shown_as_text (ui_record r) then Ok tt
    else Raise (Exn TypeError
                  (qt_type_error w
                     [getd (ui_record r) "Track Name" VNone;
                      getd (ui_record r) "Artist" VNone;
                      getd (ui_record r) "Timestamp" VNone])).
Proof.
  unfold ui_record, shown_as_text, TestUi.tree_item. cbn.
  destruct (TestUi.is_str _), (TestUi.is_str _); reflexivity.
Qed.

(** [update_track_list] on the records of [extract_track_info]: the tree
    is redrawn when all of them can be shown, and the constructor of the
    first item that cannot raises [TypeError]. *)
Lemma update_track_list_records (w : world) (status : string)
    (results : list TestUi.tagged) :
  if forallb shown_as_text (map ui_record results)
  then TestUi.update_track_list w (TestUi.App (map ui_record results) status)
       = Ok tt
  else exists e,
         TestUi.update_track_list w (TestUi.App (map ui_record results) status)
         = Raise e
         /\ exn_cls e = TypeError.
Proof.
  unfold TestUi.update_track_list. cbn [TestUi.tracks].
  induction results as [|r results IH]; [reflexivity|].
  cbn [map forallb foldM]. rewrite tree_item_record.
  destruct (shown_as_text (ui_record r)); cbn [andb bind].
  - exact IH.
  - eexists. split; reflexivity.
Qed.

(** X8. How a run of [process_pipeline] ends.  Either it fails before the
    tracks are assigned, and then the tracks shown before are kept and the
    status is "Error: ..."; or the tracks are assigned, and then they are
    the three-field records of the truthy recognition payloads, one per
    recognized chunk in chunk order, each with the timestamp of its chunk
    (the timestamps are a subsequence of the start times of the chunks),
    and the status is "Processing complete" when every record has a string
    for its name and its artist, and "Error: ..." when one has not, the
    redrawing of the list having raised [TypeError]. *)
Theorem process_pipeline_tracks (w : world) (self self' : TestUi.app)
    (url temp_dir : string) :
  TestUi.process_pipeline w self url temp_dir = Ok self' ->
  (TestUi.tracks self' = TestUi.tracks self
   /\ exists msg, TestUi.status_label self' = "Error: " +:+ msg)
  \/ (exists audio_file chunks,
        TestUi.download_youtube_audio w url temp_dir = Ok audio_file
        /\ TestUi.split_audio_into_chunks w audio_file 40 = Ok chunks
        /\ TestUi.tracks self' = map ui_record (omap (ui_answer w) chunks)
        /\ sublist
             (map (fun record => getd record "Timestamp" VNone)
                (TestUi.tracks self'))
             (map (fun c => VStr (TestUi.timestamp c)) chunks)
        /\ (if forallb shown_as_text (TestUi.tracks self')
            then TestUi.status_label self'
                 = "Processing complete. Double-click a track to search Soulseek."
            else exists e,
                   TestUi.update_track_list w self' = Raise e
                   /\ exn_cls e = TypeError
                   /\ TestUi.status_label self' = "Error: " +:+ exn_str e)).
Proof.
  unfold TestUi.process_pipeline.
  destruct (negb (truthy (VStr url))).
  { intros [= <-]. left. split; [reflexivity|].
    exists "Please enter a YouTube URL.". reflexivity. }
  destruct (TestUi.download_youtube_audio w url temp_dir)
    as [audio_file|e] eqn:Hd.
  2:{ cbn [TestUi.finish]. destruct (is_Exception e); [|discriminate].
      intros [= <-]. left. split; [reflexivity|]. eauto. }
  unfold TestUi.process_after_download. cbv zeta.
  destruct (TestUi.split_audio_into_chunks w audio_file 40)
    as [chunks|e] eqn:Hsplit.
  2:{ cbn [TestUi.finish]. destruct (is_Exception e); [|discriminate].
      intros [= <-]. left. split; [reflexivity|]. eauto. }
  destruct (bind (TestUi.analyze_all w chunks) _) as [new_tracks|e] eqn:H.
  2:{ cbn [TestUi.finish]. destruct (is_Exception e); [|discriminate].
      intros [= <-]. left. split; [reflexivity|]. eauto. }
  apply bind_Ok_inv in H. destruct H as (results & Hres & Hex).
  rewrite ui_analyze_all_collect in Hres.
  pose proof (collect_Ok_all _ _ (kept_tagged_Ok w) chunks results Hres) as Hall.
  rewrite (collect_answers _ (ui_answer w) _ (kept_tagged_answer w) chunks Hall)
    in Hres.
  injection Hres as <-.
  assert (Htracks : new_tracks = map ui_record (omap (ui_answer w) chunks)).
  { apply (mapM_Ok_map _ ui_record _ _ (fun x y H => ui_extract_Ok _ _ _ H) Hex). }
  assert (Hsub : sublist
                   (map (fun record => getd record "Timestamp" VNone) new_tracks)
                   (map (fun c => VStr (TestUi.timestamp c)) chunks)).
  { rewrite Htracks, map_map.
    apply omap_fmap_sublist. intros c t Hc. unfold ui_answer in Hc.
    destruct (answer w (TestUi.file c)); [|discriminate].
    injection Hc as <-. reflexivity. }
  set (status := TestUi.status_label _).
  pose proof (update_track_list_records w status (omap (ui_answer w) chunks))
    as Hupd.
  rewrite <- Htracks in Hupd.
  destruct (forallb shown_as_text new_tracks) eqn:Hshown.
  - rewrite Hupd. cbn [TestUi.finish]. intros [= <-]. right.
    exists audio_file, chunks. cbn [TestUi.tracks TestUi.set_status].
    rewrite Hshown. auto.
  - destruct Hupd as (e & Hupd & Hcls). rewrite Hupd. cbn [TestUi.finish].
    unfold is_Exception. rewrite Hcls. intros [= <-]. right.
    exists audio_file, chunks. cbn [TestUi.tracks TestUi.set_status].
    rewrite Hshown. split; [reflexivity|]. split; [exact Hsplit|].
    split; [exact Htracks|]. split; [exact Hsub|].
    exists e. split; [|split; [exact Hcls | reflexivity]].
    unfold TestUi.update_track_list in *. exact Hupd.
Qed.

Lemma process_pipeline_tracks_witness :
  let w := Scenario.two_minutes numbered_title in
  let self := TestUi.App [Scenario.ui_track "ABC" "0:00"] "Waiting" in
  exists self',
    TestUi.process_pipeline w self "https://youtu.be/x" "/tmp/run" = Ok self'
    /\ length (TestUi.tracks self') = 3%nat
    /\ TestUi.status_label self'
       = "Error: arguments did not match any overloaded call".
Proof.
  intros w self. eexists. split; [reflexivity|].
  destruct (process_pipeline_tracks w self _ "https://youtu.be/x" "/tmp/run"
              eq_refl) as [[H _] | (audio_file & chunks & _)].
  - discriminate H.
  - split; reflexivity.
Defined.

(** ** Further properties of the search adapter and of the download *)

(** X9. The outcomes of [slskd_search].  A response with an error status
    gives the synthetic candidate with the message of the HTTP error, the
    body not being read; a good response whose body is a JSON object gives
    its ["result"] entry, the empty list when it has none; a good response
    whose body is JSON of another kind raises [AttributeError], which is
    not caught.  No [RequestException] ever leaves the function. *)
Theorem slskd_search_outcomes (w : world) (track_name : string) :
  (forall e, TestUi.slskd_search w track_name = Raise e ->
             is_RequestException e = false)
  /\ (forall r msg,
        post w TestUi.SLSKD_URL (TestUi.payload track_name) = Ok r ->
        http_error r = Some msg ->
        TestUi.slskd_search w track_name = Ok (error_candidate msg))
  /\ (forall r body,
        post w TestUi.SLSKD_URL (TestUi.payload track_name) = Ok r ->
        http_error r = None -> body_json r = Ok body ->
        TestUi.slskd_search w track_name
        = if is_dict body then Ok (getd body "result" (VList []))
          else Raise (Exn AttributeError
                        ("'" +:+ type_name body
                         +:+ "' object has no attribute 'get'"))).
Proof.
  unfold TestUi.slskd_search, try_except. split; [|split].
  - intros e. destruct (bind _ _) as [v|e']; [discriminate|].
    destruct (is_RequestException e') eqn:He; [discriminate|].
    intros [= <-]. exact He.
  - intros r msg Hp Hs. rewrite Hp. cbn [bind].
    unfold TestUi.raise_for_status. rewrite Hs. reflexivity.
  - intros r body Hp Hs Hb. rewrite Hp. cbn [bind].
    unfold TestUi.raise_for_status. rewrite Hs. cbn [bind]. rewrite Hb.
    cbn [bind]. destruct body; reflexivity.
Qed.

Lemma slskd_search_outcomes_witness :
  let hit := VDict [ ("username", VStr "dj"); ("path", VStr "a.mp3");
                     ("filesize", VInt 1024) ] in
  let w := World (fun _ _ => Exited 0 "") (fun _ => []) (fun _ => Ok 0)
             (fun _ => Ok VNone)
             (fun _ _ => Ok (Response None
                               (Ok (VDict [("result", VList [hit])]))))
             (fun _ => "") in
  TestUi.slskd_search w "Song ABC" = Ok (VList [hit]).
Proof.
  intros hit w.
  apply (proj2 (proj2 (slskd_search_outcomes w "Song ABC"))
           (Response None (Ok (VDict [("result", VList [hit])])))
           (VDict [("result", VList [hit])])); reflexivity.
Defined.

Lemma filter_first {A : Type} (f : A -> bool) (before after : list A) (x : A) :
  (forall y, y ∈ before -> f y = false) -> f x = true ->
  List.filter f (before ++ x :: after) = x :: List.filter f after.
Proof.
  intros Hb Hx. rewrite List.filter_app, (filter_none f before Hb).
  cbn. rewrite Hx. reflexivity.
Qed.

(** X10. After a successful download, [download_youtube_audio] returns the
    path, joined to the temporary directory, of the first entry of the
    directory listing whose name starts with "audio_file" and ends with
    ".mp3"; whatever it returns is [None] or the path of such an entry.
    The copy in [test_ui.py] returns the same. *)
Theorem download_returns_first_audio_file (w : world)
    (youtube_url temp_dir stderr : string) :
  yt_dlp w youtube_url temp_dir = Exited 0 stderr ->
  (forall before file after,
     listdir w temp_dir = before ++ file :: after ->
     (forall name, name ∈ before -> is_audio_file name = false) ->
     is_audio_file file = true ->
     Testyboy.download_youtube_audio w youtube_url temp_dir
     = Ok (VStr (OsPath.join temp_dir file))
     /\ TestUi.download_youtube_audio w youtube_url temp_dir
        = Ok (VStr (OsPath.join temp_dir file)))
  /\ (forall v,
        Testyboy.download_youtube_audio w youtube_url temp_dir = Ok v ->
        v = VNone
        \/ exists file, file ∈ listdir w temp_dir
                        /\ is_audio_file file = true
                        /\ v = VStr (OsPath.join temp_dir file)).
Proof.
  intros Hrun. split.
  - intros before file after Hl Hb Hf.
    unfold TestUi.download_youtube_audio, Testyboy.download_youtube_audio.
    rewrite Hrun, Hl. cbn [Z.eqb].
    unfold is_audio_file in Hb, Hf.
    rewrite (filter_first _ before after file Hb Hf). split; reflexivity.
  - intros v. unfold Testyboy.download_youtube_audio. rewrite Hrun.
    cbn [Z.eqb].
    destruct (List.filter _ _) as [|file rest] eqn:Hfil.
    + intros [= <-]. left. reflexivity.
    + intros [= <-]. right. exists file.
      assert (Hin : In file (file :: rest)) by (left; reflexivity).
      rewrite <- Hfil in Hin. apply List.filter_In in Hin.
      destruct Hin as [Hin Hf]. split; [apply list_elem_of_In, Hin|].
      split; [exact Hf | reflexivity].
Qed.

Lemma download_returns_first_audio_file_witness :
  let w := Scenario.world_of (Exited 0 "")
             ["audio_file.webm"; "audio_file.mp3"; "audio_file (1).mp3"]
             120000 Scenario.abc_xyz_abc in
  Testyboy.download_youtube_audio w "https://youtu.be/x" "/tmp/run"
  = Ok (VStr "/tmp/run/audio_file.mp3").
Proof.
  intros w.
  apply (proj1 (download_returns_first_audio_file w "https://youtu.be/x"
                  "/tmp/run" "" eq_refl)
           ["audio_file.webm"] "audio_file.mp3" ["audio_file (1).mp3"]).
  - reflexivity.
  - intros name Hname. apply list_elem_of_In in Hname.
    destruct Hname as [<- | []]. reflexivity.
  - reflexivity.
Defined.

(** ** The extractor of [clean.py] *)

Lemma clean_first_text_dicts (key default : string) (metas : list value) :
  forallb is_dict metas = true ->
  Clean.first_text key metas (VStr default)
  = Ok (first_text_or_None key default metas).
Proof.
  unfold first_text_or_None.
  induction metas as [|m metas IH]; intros H; [reflexivity|].
  cbn [forallb] in H. apply andb_prop in H. destruct H as [Hm H].
  cbn [Clean.first_text]. rewrite (py_get_dict _ _ _ Hm). cbn [bind].
  rewrite filter_cons. fold (titled key m).
  destruct (titled key m) eqn:Ht.
  - rewrite decide_True by reflexivity. apply py_get_dict, Hm.
  - rewrite decide_False by discriminate. apply IH, H.
Qed.

(** The generator stops at the first match: the entries after it are not
    looked at. *)
Lemma clean_first_text_lazy (key : string) (default m : value)
    (before after : list value) :
  forallb is_dict before = true ->
  (forall m', m' ∈ before -> titled key m' = false) ->
  is_dict m = true -> titled key m = true ->
  Clean.first_text key (before ++ m :: after) default
  = Ok (getd m "text" VNone).
Proof.
  induction before as [|m0 before IH]; intros Hd Hn Hm Ht.
  - cbn [app Clean.first_text]. rewrite (py_get_dict _ _ _ Hm). cbn [bind].
    unfold titled in Ht. rewrite Ht. apply py_get_dict, Hm.
  - cbn [forallb] in Hd. apply andb_prop in Hd. destruct Hd as [Hm0 Hd].
    cbn [app Clean.first_text]. rewrite (py_get_dict _ _ _ Hm0). cbn [bind].
    assert (H0 : titled key m0 = false) by (apply Hn; constructor).
    unfold titled in H0. rewrite H0.
    apply IH; try assumption. intros m' Hm'. apply Hn. constructor. exact Hm'.
Qed.

Lemma clean_first_section_metadata (track : value) :
  clean_shaped track = true ->
  Clean.first_section_metadata track = Ok (first_section_entries track)
  /\ forallb is_dict (first_section_entries track) = true.
Proof.
  unfold clean_shaped, Clean.first_section_metadata, first_section_entries.
  intros H. apply andb_prop in H. destruct H as [H Hsec].
  apply andb_prop in H. destruct H as [Ht _].
  rewrite (py_get_dict _ _ _ Ht). cbn [bind].
  destruct (getd track "sections" (VList [VDict []]))
    as [| | | |[|section rest]|]; try discriminate.
  cbn [py_first bind]. unfold shaped_section in Hsec.
  apply andb_prop in Hsec. destruct Hsec as [Hsec Hm].
  apply andb_prop in Hsec. destruct Hsec as [Hd Hi].
  rewrite (py_get_dict _ _ _ Hd). cbn [bind].
  rewrite (py_iter_items _ Hi). auto.
Qed.

Lemma clean_extract_item_append (acc : list value) (item : value) :
  Clean.extract_item acc item
  = (let* ys := Clean.extract_item [] item in Ok (acc ++ ys)).
Proof.
  unfold Clean.extract_item.
  destruct (py_get item "track" (VDict [])) as [track|e]; cbn [bind];
    [|reflexivity].
  destruct (truthy track); [|cbn [bind]; rewrite app_nil_r; reflexivity].
  repeat match goal with
         | |- context [bind ?m _] =>
             lazymatch m with
             | bind _ _ => fail
             | _ => destruct m; cbn [bind]; [|reflexivity]
             end
         end.
  reflexivity.
Qed.

Lemma clean_extract_collect (data : list value) :
  Clean.extract_track_info data = collect (Clean.extract_item []) data.
Proof.
  unfold Clean.extract_track_info.
  rewrite (foldM_collect (Clean.extract_item [])).
  - destruct (collect _ data); reflexivity.
  - intros acc x. apply clean_extract_item_append.
Qed.

Lemma clean_extract_item_shaped (item : value) :
  is_dict item = true ->
  (has_track item = true -> clean_shaped (getd item "track" (VDict [])) = true) ->
  Clean.extract_item [] item
  = Ok (if has_track item
        then [clean_record (getd item "track" (VDict []))] else []).
Proof.
  intros Hi Hs. unfold Clean.extract_item, has_track in *.
  rewrite (py_get_dict _ _ _ Hi). cbn [bind].
  destruct (truthy (getd item "track" (VDict []))); [|reflexivity].
  specialize (Hs eq_refl).
  destruct (clean_first_section_metadata _ Hs) as [Hmeta Hdicts].
  unfold clean_shaped in Hs.
  apply andb_prop in Hs. destruct Hs as [Hs _].
  apply andb_prop in Hs. destruct Hs as [Ht Hg].
  rewrite !(py_get_dict _ _ _ Ht). cbn [bind].
  rewrite Hmeta. cbn [bind].
  rewrite (clean_first_text_dicts _ _ _ Hdicts). cbn [bind].
  rewrite (py_get_dict _ _ _ Hg). cbn [bind].
  rewrite (clean_first_text_dicts _ _ _ Hdicts). reflexivity.
Qed.

(** X11. On a list of dictionaries whose track records are well shaped,
    [extract_track_info] of [clean.py] returns, in input order, one record
    per item that has a truthy ["track"], the other items being skipped.
    Album and release year are read from the first section only, from the
    first entry with the title: its text, or [None] when it has no text,
    the "Unknown ..." default only when no entry has the title. *)
Theorem clean_extract_records (data : list value) :
  Forall (fun item =>
            is_dict item = true
            /\ (has_track item = true ->
                clean_shaped (getd item "track" (VDict [])) = true)) data ->
  Clean.extract_track_info data
  = Ok (map (fun item => clean_record (getd item "track" (VDict [])))
          (List.filter has_track data)).
Proof.
  intros H. rewrite clean_extract_collect. unfold collect.
  rewrite (mapM_total _
             (fun item => if has_track item
                          then [clean_record (getd item "track" (VDict []))]
                          else [])).
  - cbn [bind]. f_equal. clear H.
    induction data as [|item data IH]; [reflexivity|].
    cbn [map concat List.filter]. rewrite IH.
    destruct (has_track item); reflexivity.
  - intros item Hin. rewrite Forall_forall in H.
    destruct (H item Hin) as [Hi Hs]. apply clean_extract_item_shaped; assumption.
Qed.

Lemma clean_extract_records_witness :
  let track :=
    VDict [("title", VStr "Song");
           ("sections",
            VList [VDict [("metadata", VList [VDict [("title", VStr "Album")]])]])] in
  Clean.extract_track_info [VDict [("matches", VList [])]; VDict [("track", track)]]
  = Ok [VDict [ ("Artist", VStr "Unknown Artist");
                ("Album", VNone);
                ("Track Name", VStr "Song");
                ("Genre", VStr "Unknown Genre");
                ("Year Released", VStr "Unknown Year") ]].
Proof.
  intros track.
  apply (clean_extract_records
           [VDict [("matches", VList [])]; VDict [("track", track)]]).
  apply Forall_cons. split; [split; [reflexivity | discriminate]|].
  apply Forall_cons. split; [split; reflexivity | constructor].
Defined.

(** X12. The generator expressions of [clean.py] stop at the first entry
    with the title: when the entries before it are dictionaries without the
    title, the lookup returns the text of that entry ([None] when it has
    none) whatever follows, even entries that are not dictionaries. *)
Theorem clean_lookup_stops_at_first_match (key : string)
    (default m : value) (before after : list value) :
  forallb is_dict before = true ->
  (forall m', m' ∈ before -> titled key m' = false) ->
  is_dict m = true -> titled key m = true ->
  Clean.first_text key (before ++ m :: after) default
  = Ok (getd m "text" VNone).
Proof. apply clean_first_text_lazy. Qed.

Lemma clean_lookup_stops_at_first_match_witness :
  Clean.first_text "Album"
    ([VDict [("title", VStr "Label")]]
     ++ VDict [("title", VStr "Album"); ("text", VStr "One")] :: [VNone])
    (VStr "Unknown Album")
  = Ok (VStr "One").
Proof.
  apply (clean_lookup_stops_at_first_match "Album" (VStr "Unknown Album")
           (VDict [("title", VStr "Album"); ("text", VStr "One")])
           [VDict [("title", VStr "Label")]] [VNone]).
  - reflexivity.
  - intros m' Hm'. apply list_elem_of_In in Hm'.
    destruct Hm' as [<- | []]. reflexivity.
  - reflexivity.
  - reflexivity.
Defined.

Lemma clean_extract_item_empty_sections (item : value) :
  is_dict item = true ->
  truthy (getd item "track" (VDict [])) = true ->
  is_dict (getd item "track" (VDict [])) = true ->
  getd (getd item "track" (VDict [])) "sections" (VList [VDict []]) = VList [] ->
  Clean.extract_item [] item
  = Raise (Exn IndexError "list index out of range").
Proof.
  intros Hi Ht Hd Hs. unfold Clean.extract_item, Clean.first_section_metadata.
  rewrite (py_get_dict _ _ _ Hi). cbn [bind]. rewrite Ht.
  rewrite !(py_get_dict _ _ _ Hd). cbn [bind]. rewrite Hs. reflexivity.
Qed.

(** X13. A track record whose ["sections"] is the empty list makes
    [extract_track_info] of [clean.py] fail: indexing the first section
    raises [IndexError], and the records of the items before it are lost
    with the call.  (A track without a ["sections"] entry is read with an
    empty section in its place and raises nothing.) *)
Theorem clean_empty_sections_raise (before after out : list value)
    (item : value) :
  Clean.extract_track_info before = Ok out ->
  is_dict item = true ->
  truthy (getd item "track" (VDict [])) = true ->
  is_dict (getd item "track" (VDict [])) = true ->
  getd (getd item "track" (VDict [])) "sections" (VList [VDict []]) = VList [] ->
  Clean.extract_track_info (before ++ item :: after)
  = Raise (Exn IndexError "list index out of range").
Proof.
  intros Hb Hi Ht Hd Hs. rewrite clean_extract_collect in *.
  rewrite collect_app, Hb. cbn [bind].
  change (item :: after) with ([item] ++ after).
  rewrite collect_app, collect_singleton.
  rewrite (clean_extract_item_empty_sections item Hi Ht Hd Hs). reflexivity.
Qed.

Lemma clean_empty_sections_raise_witness :
  let good := VDict [("track", VDict [("title", VStr "One")])] in
  let bad := VDict [("track", VDict [("title", VStr "Two");
                                    ("sections", VList [])])] in
  Clean.extract_track_info ([good] ++ bad :: [good])
  = Raise (Exn IndexError "list index out of range").
Proof.
  intros good bad.
  apply (clean_empty_sections_raise [good] [good]
           [clean_record (VDict [("title", VStr "One")])] bad);
    reflexivity.
Defined.

Lemma clean_extract_item_Ok (item : value) (ys : list value) :
  Clean.extract_item [] item = Ok ys ->
  is_dict item = true
  /\ length ys = (if has_track item then 1 else 0)%nat.
Proof.
  unfold Clean.extract_item, has_track. intros H.
  apply bind_Ok_inv in H. destruct H as (track & Hg & H).
  apply py_get_Ok in Hg. destruct Hg as [Hi ->]. split; [exact Hi|].
  destruct (truthy (getd item "track" (VDict []))).
  - repeat (apply bind_Ok_inv in H; destruct H as (? & _ & H)).
    injection H as <-. reflexivity.
  - injection H as <-. reflexivity.
Qed.

(** X14. When [extract_track_info] of [clean.py] returns, every item of
    the input is a dictionary and the output has exactly one record per
    item with a truthy ["track"]; an item without one (missing, [None] or
    empty) is skipped, the call giving what it gives on the list without
    that item. *)
Theorem clean_one_record_per_track (data : list value) :
  (forall out,
     Clean.extract_track_info data = Ok out ->
     Forall (fun item => is_dict item = true) data
     /\ length out = length (List.filter has_track data))
  /\ (forall before item after,
        data = before ++ item :: after ->
        is_dict item = true -> has_track item = false ->
        Clean.extract_track_info data
        = Clean.extract_track_info (before ++ after)).
Proof.
  split.
  - intros out. rewrite clean_extract_collect. unfold collect. intros H.
    apply bind_Ok_inv in H. destruct H as (yss & H & [= <-]).
    revert yss H. induction data as [|item data IH]; intros yss H.
    + injection H as <-. split; [constructor | reflexivity].
    + cbn [mapM] in H. apply bind_Ok_inv in H. destruct H as (ys & Hx & H).
      apply bind_Ok_inv in H. destruct H as (yss' & Hxs & [= <-]).
      destruct (IH yss' Hxs) as [Hall Hlen].
      destruct (clean_extract_item_Ok item ys Hx) as [Hi Hys].
      split; [constructor; assumption|].
      cbn [concat List.filter]. rewrite length_app, Hlen, Hys.
      destruct (has_track item); reflexivity.
  - intros before item after -> Hi Hn. rewrite !clean_extract_collect.
    change (item :: after) with ([item] ++ after).
    rewrite !collect_app, collect_singleton.
    assert (Hitem : Clean.extract_item [] item = Ok []).
    { unfold Clean.extract_item. rewrite (py_get_dict _ _ _ Hi). cbn [bind].
      unfold has_track in Hn. rewrite Hn. reflexivity. }
    rewrite Hitem.
    destruct (collect _ before); cbn [bind]; [|reflexivity].
    destruct (collect _ after); reflexivity.
Qed.

Lemma clean_one_record_per_track_witness :
  let good := VDict [("track", VDict [("title", VStr "One")])] in
  let no_match := VDict [("matches", VList []); ("track", VNone)] in
  Clean.extract_track_info ([good] ++ no_match :: [good])
  = Clean.extract_track_info ([good] ++ [good]).
Proof.
  intros good no_match.
  apply (proj2 (clean_one_record_per_track ([good] ++ no_match :: [good]))
           [good] no_match [good]); reflexivity.
Defined.

(** ** Names and timestamps of the chunks *)

Lemma append_cons (c : ascii) (s t : string) :
  String c s +:+ t = String c (s +:+ t).
Proof. reflexivity. Qed.

Lemma append_nil_l (t : string) : "" +:+ t = t.
Proof. reflexivity. Qed.

Lemma length_append (s t : string) :
  String.length (s +:+ t) = (String.length s + String.length t)%nat.
Proof.
  induction s as [|c s IH]; [reflexivity|].
  rewrite append_cons. cbn [String.length]. rewrite IH. reflexivity.
Qed.

Lemma append_assoc (s t u : string) : (s +:+ t) +:+ u = s +:+ (t +:+ u).
Proof.
  induction s as [|c s IH]; [reflexivity|].
  rewrite !append_cons, IH. reflexivity.
Qed.

(** Two concatenations with tails of the same length agree part by part. *)
Lemma append_inj_tail (s s' t t' : string) :
  String.length t = String.length t' ->
  s +:+ t = s' +:+ t' -> s = s' /\ t = t'.
Proof.
  revert s'; induction s as [|c s IH]; intros s' Hlen H.
  - destruct s' as [|c' s']; [auto|].
    rewrite append_nil_l, append_cons in H.
    apply (f_equal String.length) in H. cbn [String.length] in H.
    rewrite length_append in H. lia.
  - destruct s' as [|c' s'].
    + rewrite append_nil_l, append_cons in H.
      apply (f_equal String.length) in H. cbn [String.length] in H.
      rewrite length_append in H. lia.
    + rewrite !append_cons in H. injection H as -> H.
      destruct (IH s' Hlen H) as [-> ->]. auto.
Qed.

Lemma append_inj_head (s t t' : string) : s +:+ t = s +:+ t' -> t = t'.
Proof.
  induction s as [|c s IH]; [auto|].
  rewrite !append_cons. intros [= H]. apply IH, H.
Qed.

Lemma pad2_two_digits (n : Z) :
  0 <= n < 100 ->
  two_digits (OsPath.pad2 n) = n /\ String.length (OsPath.pad2 n) = 2%nat.
Proof.
  intros Hn. rewrite <- (Z2Nat.id n) by lia.
  assert (Hk : (Z.to_nat n < 100)%nat) by lia.
  generalize dependent (Z.to_nat n). clear n Hn. intros k Hk.
  do 100 (destruct k as [|k]; [split; reflexivity|]). lia.
Qed.

Lemma pad2_inj (m n : Z) :
  0 <= m < 100 -> 0 <= n < 100 -> OsPath.pad2 m = OsPath.pad2 n -> m = n.
Proof.
  intros Hm Hn H. rewrite <- (proj1 (pad2_two_digits m Hm)), H.
  apply pad2_two_digits, Hn.
Qed.

(** The rendering [M:SS] of a number of seconds determines it. *)
Lemma minutes_seconds_inj (s s' : Z) :
  pretty (s `div` 60) +:+ ":" +:+ OsPath.pad2 (s `mod` 60)
  = pretty (s' `div` 60) +:+ ":" +:+ OsPath.pad2 (s' `mod` 60) ->
  s = s'.
Proof.
  intros H.
  pose proof (Z.mod_pos_bound s 60 ltac:(lia)) as Hs.
  pose proof (Z.mod_pos_bound s' 60 ltac:(lia)) as Hs'.
  apply append_inj_tail in H.
  2:{ rewrite !append_cons, !append_nil_l. cbn [String.length].
      rewrite (proj2 (pad2_two_digits (s `mod` 60) ltac:(lia))),
        (proj2 (pad2_two_digits (s' `mod` 60) ltac:(lia))).
      reflexivity. }
  destruct H as [Hq Hr]. apply (inj pretty) in Hq.
  rewrite !append_cons, !append_nil_l in Hr.
  injection Hr as Hr. apply pad2_inj in Hr; [|lia|lia].
  rewrite (Z.div_mod s 60), (Z.div_mod s' 60) by lia. lia.
Qed.

(** X15. In [test_ui.py] the chunks of one audio have pairwise different
    timestamps and pairwise different file names: the [M:SS] rendering of
    the start time determines the index of the chunk. *)
Theorem ui_chunks_are_distinct (w : world) (audio_file : value)
    (chunk_duration : Z) (chunks : list TestUi.chunk) :
  TestUi.split_audio_into_chunks w audio_file chunk_duration = Ok chunks ->
  NoDup (map TestUi.timestamp chunks) /\ NoDup (map TestUi.file chunks).
Proof.
  unfold TestUi.split_audio_into_chunks. intros H.
  apply bind_Ok_inv in H. destruct H as (audio & _ & H).
  apply bind_Ok_inv in H. destruct H as (segments & Hseg & H).
  assert (Hcd : chunk_duration <> 0).
  { intros ->. apply make_chunks_Ok_nonzero in Hseg. lia. }
  destruct (mapM_lookup _ _ _ H) as [Hlen Hk].
  assert (Hinj : forall i j c c',
             chunks !! i = Some c -> chunks !! j = Some c' ->
             TestUi.timestamp c = TestUi.timestamp c' \/
             TestUi.file c = TestUi.file c' -> i = j).
  { intros i j c c' Hi Hj Heq.
    destruct (Hk i c Hi) as (i0 & Hi0 & Hci).
    destruct (Hk j c' Hj) as (j0 & Hj0 & Hcj).
    apply lookup_seq in Hi0. destruct Hi0 as [-> _].
    apply lookup_seq in Hj0. destruct Hj0 as [-> _].
    apply bind_Ok_inv in Hci. destruct Hci as (root & Hroot & [= <-]).
    apply bind_Ok_inv in Hcj. destruct Hcj as (root' & Hroot' & [= <-]).
    assert (root' = root) by congruence. subst root'.
    cbn [TestUi.timestamp TestUi.file] in Heq.
    assert (Hts : TestUi.start_time (Z.of_nat (0 + i)) chunk_duration
                  = TestUi.start_time (Z.of_nat (0 + j)) chunk_duration).
    { destruct Heq as [Heq | Heq]; [exact Heq|].
      apply append_inj_head in Heq. apply append_inj_head in Heq.
      apply append_inj_tail in Heq; [apply Heq | reflexivity]. }
    unfold TestUi.start_time in Hts. apply minutes_seconds_inj in Hts. nia. }
  split; apply NoDup_alt; intros i j x Hi Hj;
    rewrite list_lookup_fmap in Hi, Hj;
    destruct (chunks !! i) as [c|] eqn:Hc; try discriminate;
    destruct (chunks !! j) as [c'|] eqn:Hc'; try discriminate;
    injection Hi as Hi; injection Hj as Hj;
    apply (Hinj i j c c' Hc Hc'); [left | right]; congruence.
Qed.

Lemma ui_chunks_are_distinct_witness :
  NoDup (map TestUi.timestamp
           [ TestUi.Chunk "/tmp/run/audio_file_chunk_0:00.mp3" "0:00";
             TestUi.Chunk "/tmp/run/audio_file_chunk_0:40.mp3" "0:40";
             TestUi.Chunk "/tmp/run/audio_file_chunk_1:20.mp3" "1:20" ]).
Proof.
  apply (ui_chunks_are_distinct (Scenario.two_minutes Scenario.abc_xyz_abc)
           (VStr "/tmp/run/audio_file.mp3") 40).
  reflexivity.
Defined.

Lemma pretty_N_char_digit (x : N) : is_digit (pretty_N_char x) = true.
Proof.
  destruct x as [|p]; [reflexivity|].
  repeat (destruct p as [p|p|]; try reflexivity).
Qed.

Lemma pretty_N_go_digits (x : N) (s : string) :
  all_digits s = true -> all_digits (pretty_N_go x s) = true.
Proof.
  revert s. induction (N.lt_wf_0 x) as [x _ IH]. intros s Hs.
  destruct (decide (x = 0%N)) as [->|Hx].
  - rewrite pretty_N_go_0. exact Hs.
  - rewrite pretty_N_go_step by lia. apply IH.
    + apply N.div_lt; lia.
    + cbn [all_digits]. rewrite pretty_N_char_digit, Hs. reflexivity.
Qed.

Lemma pretty_Z_digits (n : Z) : 0 <= n -> all_digits (pretty n) = true.
Proof.
  intros Hn. destruct n as [|p|p]; [reflexivity| |lia].
  change (pretty (Z.pos p)) with (pretty (N.pos p)).
  unfold pretty, pretty_N. destruct (decide _); [reflexivity|].
  apply pretty_N_go_digits. reflexivity.
Qed.

Lemma pad2_digits (n : Z) : 0 <= n < 100 -> all_digits (OsPath.pad2 n) = true.
Proof.
  intros Hn. unfold OsPath.pad2. destruct (n <? 10).
  - rewrite append_cons, append_nil_l. cbn [all_digits].
    rewrite pretty_Z_digits by lia. reflexivity.
  - apply pretty_Z_digits. lia.
Qed.

Lemma all_digits_append (s t : string) :
  all_digits (s +:+ t) = all_digits s && all_digits t.
Proof.
  induction s as [|c s IH]; [reflexivity|].
  rewrite append_cons. cbn [all_digits]. rewrite IH, andb_assoc. reflexivity.
Qed.

Lemma replace_colons_append (s t : string) :
  OsPath.replace_colons (s +:+ t)
  = OsPath.replace_colons s +:+ OsPath.replace_colons t.
Proof.
  induction s as [|c s IH]; [reflexivity|].
  rewrite append_cons. cbn [OsPath.replace_colons].
  rewrite IH, append_cons. reflexivity.
Qed.

Lemma replace_colons_digits (s : string) :
  all_digits s = true -> OsPath.replace_colons s = s.
Proof.
  induction s as [|c s IH]; [reflexivity|]. cbn [all_digits].
  intros H. apply andb_prop in H. destruct H as [Hc Hs].
  cbn [OsPath.replace_colons]. rewrite (IH Hs).
  destruct (Ascii.eqb_spec c ":") as [->|_]; [discriminate Hc | reflexivity].
Qed.

Lemma replace_colons_no_colon (s : string) :
  occurs ":" (OsPath.replace_colons s) = false.
Proof.
  induction s as [|c s IH]; [reflexivity|].
  cbn [OsPath.replace_colons occurs]. rewrite IH.
  destruct (Ascii.eqb_spec c ":") as [->|Hc]; [reflexivity|].
  destruct (Ascii.eqb_spec c ":"); [contradiction | reflexivity].
Qed.

(** A run of digits followed by something that does not start with a digit
    is split in one way only. *)
Lemma digits_split_inj (a a' b b' : string) :
  all_digits a = true -> all_digits a' = true ->
  starts_without_digit b = true -> starts_without_digit b' = true ->
  a +:+ b = a' +:+ b' -> a = a' /\ b = b'.
Proof.
  revert a'; induction a as [|c a IH]; intros a' Ha Ha' Hb Hb' H.
  - destruct a' as [|c' a']; [auto|].
    rewrite append_nil_l, append_cons in H. subst b.
    cbn [all_digits] in Ha'. cbn [starts_without_digit] in Hb.
    destruct (is_digit c'); discriminate.
  - destruct a' as [|c' a'].
    + rewrite append_nil_l, append_cons in H. subst b'.
      cbn [all_digits] in Ha. cbn [starts_without_digit] in Hb'.
      destruct (is_digit c); discriminate.
    + rewrite !append_cons in H. injection H as -> H.
      cbn [all_digits] in Ha, Ha'.
      apply andb_prop in Ha. apply andb_prop in Ha'.
      destruct (IH a' (proj2 Ha) (proj2 Ha') Hb Hb' H) as [-> ->]. auto.
Qed.

(** The closed form of the time that [format_time] writes. *)
Lemma format_time_seconds (milliseconds : Z) :
  0 <= milliseconds ->
  let seconds := milliseconds `div` 1000 in
  let days := seconds `div` 86400 in
  let secs := seconds `mod` 86400 in
  chunk_time milliseconds
  = (if days =? 0 then ""
     else pretty days +:+ " day" +:+ (if Z.abs days =? 1 then "" else "s")
          +:+ ", ")
    +:+ pretty ((secs `div` 60) `div` 60)
    +:+ "_" +:+ OsPath.pad2 ((secs `div` 60) `mod` 60)
    +:+ "_" +:+ OsPath.pad2 (secs `mod` 60).
Proof.
  intros Hms seconds days secs.
  unfold chunk_time, Testyboy.timedelta_str.
  fold seconds. fold days. fold secs.
  assert (Hsec : 0 <= seconds) by (apply Z.div_pos; lia).
  assert (Hdays : 0 <= days) by (apply Z.div_pos; lia).
  pose proof (Z.mod_pos_bound seconds 86400 ltac:(lia)) as Hsecs. fold secs in Hsecs.
  assert (Hh : 0 <= (secs `div` 60) `div` 60).
  { apply Z.div_pos; [apply Z.div_pos|]; lia. }
  pose proof (Z.mod_pos_bound (secs `div` 60) 60 ltac:(lia)) as Hm.
  pose proof (Z.mod_pos_bound secs 60 ltac:(lia)) as Hs.
  assert (Htail :
    OsPath.replace_colons
      (pretty ((secs `div` 60) `div` 60) +:+ ":"
       +:+ OsPath.pad2 ((secs `div` 60) `mod` 60) +:+ ":"
       +:+ OsPath.pad2 (secs `mod` 60))
    = pretty ((secs `div` 60) `div` 60) +:+ "_"
      +:+ OsPath.pad2 ((secs `div` 60) `mod` 60) +:+ "_"
      +:+ OsPath.pad2 (secs `mod` 60)).
  { rewrite !replace_colons_append.
    rewrite (replace_colons_digits (pretty _)) by (apply pretty_Z_digits, Hh).
    rewrite !(replace_colons_digits (OsPath.pad2 _)) by (apply pad2_digits; lia).
    reflexivity. }
  destruct (days =? 0).
  - rewrite Htail. reflexivity.
  - rewrite (replace_colons_append (pretty days)),
      (replace_colons_append " day"),
      (replace_colons_append (if Z.abs days =? 1 then "" else "s")),
      (replace_colons_append ", "), Htail.
    rewrite (replace_colons_digits (pretty days)) by (apply pretty_Z_digits, Hdays).
    rewrite !append_assoc.
    destruct (Z.abs days =? 1); reflexivity.
Qed.

Lemma time_tail_inj (a b a' b' : Z) :
  0 <= a < 100 -> 0 <= b < 100 -> 0 <= a' < 100 -> 0 <= b' < 100 ->
  String.length ("_" +:+ OsPath.pad2 a +:+ "_" +:+ OsPath.pad2 b) = 6%nat
  /\ ("_" +:+ OsPath.pad2 a +:+ "_" +:+ OsPath.pad2 b
      = "_" +:+ OsPath.pad2 a' +:+ "_" +:+ OsPath.pad2 b' ->
      a = a' /\ b = b').
Proof.
  intros Ha Hb Ha' Hb'. split.
  - rewrite append_cons, append_nil_l. cbn [String.length].
    rewrite length_append, append_cons, append_nil_l. cbn [String.length].
    rewrite (proj2 (pad2_two_digits a Ha)), (proj2 (pad2_two_digits b Hb)).
    reflexivity.
  - rewrite !(append_cons "_" ""), !append_nil_l. intros [= H].
    apply append_inj_tail in H.
    + destruct H as [H1 H2]. injection H2 as H2.
      split; apply pad2_inj; assumption.
    + cbn [String.length].
      rewrite (proj2 (pad2_two_digits b Hb)), (proj2 (pad2_two_digits b' Hb')).
      reflexivity.
Qed.

Lemma day_prefix_inj (d d' h h' : Z) :
  0 <= d -> 0 <= d' -> 0 <= h -> 0 <= h' ->
  (if d =? 0 then ""
   else pretty d +:+ " day" +:+ (if Z.abs d =? 1 then "" else "s") +:+ ", ")
  +:+ pretty h
  = (if d' =? 0 then ""
     else pretty d' +:+ " day" +:+ (if Z.abs d' =? 1 then "" else "s") +:+ ", ")
    +:+ pretty h' ->
  d = d' /\ h = h'.
Proof.
  intros Hd Hd' Hh Hh'.
  assert (Hmix : forall d h h', 0 <= d -> 0 <= h -> 0 <= h' ->
            pretty h
            <> (pretty d +:+ " day" +:+ (if Z.abs d =? 1 then "" else "s")
                +:+ ", ") +:+ pretty h').
  { intros e k k' He Hk Hk' H. apply (f_equal all_digits) in H.
    rewrite (pretty_Z_digits k Hk), !all_digits_append in H.
    rewrite (pretty_Z_digits e He) in H. discriminate H. }
  destruct (Z.eqb_spec d 0) as [->|Hd0], (Z.eqb_spec d' 0) as [->|Hd'0].
  - rewrite !append_nil_l. intros H. apply (inj pretty) in H. auto.
  - rewrite append_nil_l. intros H. destruct (Hmix _ _ _ Hd' Hh Hh' H).
  - rewrite append_nil_l. intros H. symmetry in H.
    destruct (Hmix _ _ _ Hd Hh' Hh H).
  - rewrite !append_assoc. intros H.
    apply digits_split_inj in H; try (apply pretty_Z_digits; assumption);
      try reflexivity.
    destruct H as [H1 H2]. apply (inj pretty) in H1. subst d'.
    split; [reflexivity|].
    apply append_inj_head in H2. apply append_inj_head in H2.
    apply append_inj_head in H2. apply (inj pretty) in H2. exact H2.
Qed.

(** X16. The time that [format_time] writes into a chunk file name, when
    it returns one, has no colon and determines the whole second it
    renders, days included; hence
    the chunk files that [split_audio_into_chunks] of [testyboy.py] exports
    for one audio have pairwise different paths. *)
Theorem chunk_paths_are_distinct :
  (forall milliseconds t,
     Testyboy.format_time milliseconds = Ok t -> occurs ":" t = false)
  /\ (forall ms ms' t,
        0 <= ms -> 0 <= ms' ->
        Testyboy.format_time ms = Ok t -> Testyboy.format_time ms' = Ok t ->
        ms `div` 1000 = ms' `div` 1000)
  /\ (forall w audio_file chunk_duration chunks,
        0 < chunk_duration ->
        Testyboy.split_audio_into_chunks w audio_file chunk_duration = Ok chunks ->
        NoDup chunks).
Proof.
  assert (Hinj : forall ms ms',
        0 <= ms -> 0 <= ms' ->
        chunk_time ms = chunk_time ms' ->
        ms `div` 1000 = ms' `div` 1000).
  { intros ms ms' Hms Hms'.
    rewrite (format_time_seconds ms Hms), (format_time_seconds ms' Hms').
    cbv zeta.
    set (s := ms `div` 1000). set (s' := ms' `div` 1000).
    assert (Hs : 0 <= s) by (apply Z.div_pos; lia).
    assert (Hs' : 0 <= s') by (apply Z.div_pos; lia).
    set (d := s `div` 86400). set (d' := s' `div` 86400).
    set (r := s `mod` 86400). set (r' := s' `mod` 86400).
    assert (Hd : 0 <= d) by (apply Z.div_pos; lia).
    assert (Hd' : 0 <= d') by (apply Z.div_pos; lia).
    pose proof (Z.mod_pos_bound s 86400 ltac:(lia)) as Hr. fold r in Hr.
    pose proof (Z.mod_pos_bound s' 86400 ltac:(lia)) as Hr'. fold r' in Hr'.
    assert (Hh : 0 <= (r `div` 60) `div` 60).
    { apply Z.div_pos; [apply Z.div_pos|]; lia. }
    assert (Hh' : 0 <= (r' `div` 60) `div` 60).
    { apply Z.div_pos; [apply Z.div_pos|]; lia. }
    pose proof (Z.mod_pos_bound (r `div` 60) 60 ltac:(lia)) as Hm.
    pose proof (Z.mod_pos_bound (r' `div` 60) 60 ltac:(lia)) as Hm'.
    pose proof (Z.mod_pos_bound r 60 ltac:(lia)) as Hc.
    pose proof (Z.mod_pos_bound r' 60 ltac:(lia)) as Hc'.
    destruct (time_tail_inj ((r `div` 60) `mod` 60) (r `mod` 60)
                ((r' `div` 60) `mod` 60) (r' `mod` 60)
                ltac:(lia) ltac:(lia) ltac:(lia) ltac:(lia)) as [Hlen Htail].
    destruct (time_tail_inj ((r' `div` 60) `mod` 60) (r' `mod` 60)
                ((r `div` 60) `mod` 60) (r `mod` 60)
                ltac:(lia) ltac:(lia) ltac:(lia) ltac:(lia)) as [Hlen' _].
    intros H.
    rewrite <- (append_assoc _ (pretty ((r `div` 60) `div` 60))) in H.
    rewrite <- (append_assoc _ (pretty ((r' `div` 60) `div` 60))) in H.
    apply append_inj_tail in H; [|rewrite Hlen, Hlen'; reflexivity].
    destruct H as [Hhead Ht].
    apply Htail in Ht. destruct Ht as [Hmm Hss].
    apply day_prefix_inj in Hhead; try assumption.
    destruct Hhead as [Hdd Hhh].
    assert (Hrr : r = r').
    { rewrite (Z.div_mod r 60), (Z.div_mod r' 60) by lia.
      rewrite (Z.div_mod (r `div` 60) 60), (Z.div_mod (r' `div` 60) 60) by lia.
      rewrite Hhh, Hmm, Hss. reflexivity. }
    rewrite (Z.div_mod s 86400), (Z.div_mod s' 86400) by lia.
    fold d d' r r'. rewrite Hdd, Hrr. reflexivity. }
  split; [|split].
  - intros ms t Ht. apply format_time_Ok_inv in Ht as ->.
    apply replace_colons_no_colon.
  - intros ms ms' t Hms Hms' Ht Ht'.
    apply format_time_Ok_inv in Ht, Ht'. apply Hinj; congruence.
  - intros w audio_file chunk_duration chunks Hcd.
    unfold Testyboy.split_audio_into_chunks. intros H.
    apply bind_Ok_inv in H. destruct H as (audio & _ & H).
    apply bind_Ok_inv in H. destruct H as (segments & _ & H).
    destruct (mapM_lookup _ _ _ H) as [_ Hk].
    apply NoDup_alt. intros i j x Hi Hj.
    destruct (Hk i x Hi) as (i0 & Hi0 & Hci).
    destruct (Hk j x Hj) as (j0 & Hj0 & Hcj).
    apply lookup_seq in Hi0. destruct Hi0 as [-> _].
    apply lookup_seq in Hj0. destruct Hj0 as [-> _].
    apply bind_Ok_inv in Hci. destruct Hci as (t & Ht & Hci).
    apply bind_Ok_inv in Hcj. destruct Hcj as (t' & Ht' & Hcj).
    apply format_time_Ok_inv in Ht as ->. apply format_time_Ok_inv in Ht' as ->.
    apply bind_Ok_inv in Hci. destruct Hci as (root & Hroot & Hi').
    apply bind_Ok_inv in Hcj. destruct Hcj as (root' & Hroot' & Hj').
    assert (root' = root) by congruence. subst root'.
    injection Hi' as Hi'. injection Hj' as Hj'. rewrite <- Hj' in Hi'.
    apply append_inj_head in Hi'. apply append_inj_head in Hi'.
    apply append_inj_tail in Hi'; [|reflexivity]. destruct Hi' as [Hi' _].
    apply Hinj in Hi'; [|nia|nia].
    rewrite !Z.div_mul in Hi' by lia. nia.
Qed.

Lemma chunk_paths_are_distinct_witness :
  NoDup Scenario.chunk_files.
Proof.
  apply (proj2 (proj2 chunk_paths_are_distinct)
           (Scenario.two_minutes Scenario.abc_xyz_abc)
           (VStr "/tmp/run/audio_file.mp3") 40); [lia | reflexivity].
Defined.

(** ** Chunks and slices *)



(** ** Error reports and exception classes *)



(** X19. Wherever the extractor of [testyboy.py] returns, the extractor of
    [test_ui.py] returns too, with the same timestamp, and with the same
    track name and artist when the track record has a ["title"] and a
    ["subtitle"]; the two differ only in the defaults and in the fields
    that the second leaves out. *)
Theorem ui_extractor_agrees (entry timestamp r : value) :
  Testyboy.extract_track_info entry timestamp = Ok r ->
  exists r',
    TestUi.extract_track_info entry timestamp = Ok r'
    /\ getd r' "Timestamp" VNone = timestamp
    /\ getd r "Timestamp" VNone = timestamp
    /\ (forall title,
          py_getitem (getd entry "track" (VDict [])) "title" = Ok title ->
          getd r' "Track Name" VNone = title
          /\ getd r "Track Name" VNone = title)
    /\ (forall artist,
          py_getitem (getd entry "track" (VDict [])) "subtitle" = Ok artist ->
          getd r' "Artist" VNone = artist
          /\ getd r "Artist" VNone = artist).
Proof.
  intros H. pose proof (extract_track_info_Ok _ _ _ H) as Hs.
  rewrite (extract_track_info_shaped _ _ Hs) in H. injection H as <-.
  unfold shaped, shaped_track in Hs.
  apply andb_prop in Hs. destruct Hs as [He Hs].
  apply andb_prop in Hs. destruct Hs as [Hs _].
  apply andb_prop in Hs. destruct Hs as [Hs _].
  apply andb_prop in Hs. destruct Hs as [Ht _].
  eexists. split.
  { unfold TestUi.extract_track_info.
    rewrite (py_get_dict _ _ _ He). cbn [bind].
    rewrite !(py_get_dict _ _ _ Ht). reflexivity. }
  split; [reflexivity|]. split; [reflexivity|].
  unfold extracted.
  destruct (getd entry "track" (VDict [])) as [| | | | |tk]; try discriminate.
  split; intros x Hx; cbn [py_getitem] in Hx; cbn;
    destruct (assoc _ tk); try discriminate; injection Hx as <-; auto.
Qed.

Lemma ui_extractor_agrees_witness :
  exists r',
    TestUi.extract_track_info (Scenario.payload "ABC" VNone) (VStr "0:40")
    = Ok r'
    /\ getd r' "Timestamp" VNone = VStr "0:40".
Proof.
  destruct (ui_extractor_agrees (Scenario.payload "ABC" VNone) (VStr "0:40")
              (Scenario.track "ABC" (VStr "0:40")) eq_refl)
    as (r' & H1 & H2 & _).
  exists r'. auto.
Defined.

Lemma raises_only_Ok {A : Type} (classes : list exn_class) (a : A) :
  raises_only classes (Ok a).
Proof. intros e H. discriminate. Qed.

Lemma raises_only_bind {A B : Type} (classes : list exn_class)
    (m : result A) (k : A -> result B) :
  raises_only classes m -> (forall a, raises_only classes (k a)) ->
  raises_only classes (bind m k).
Proof.
  intros Hm Hk e. destruct m as [a|e']; cbn [bind].
  - apply Hk.
  - intros [= <-]. apply Hm. reflexivity.
Qed.

Lemma raises_only_foldM {S A : Type} (classes : list exn_class)
    (f : S -> A -> result S) (xs : list A) (s : S) :
  (forall s x, raises_only classes (f s x)) ->
  raises_only classes (foldM f s xs).
Proof.
  intros Hf. revert s. induction xs as [|x xs IH]; intros s; cbn [foldM].
  - apply raises_only_Ok.
  - apply raises_only_bind; [apply Hf | intros s'; apply IH].
Qed.

Lemma raises_only_mapM {A B : Type} (classes : list exn_class)
    (f : A -> result B) (xs : list A) :
  (forall x, raises_only classes (f x)) -> raises_only classes (mapM f xs).
Proof.
  intros Hf. induction xs as [|x xs IH]; cbn [mapM].
  - apply raises_only_Ok.
  - apply raises_only_bind; [apply Hf|]. intros y.
    apply raises_only_bind; [apply IH|]. intros ys. apply raises_only_Ok.
Qed.

Lemma raises_only_py_get (classes : list exn_class) (v : value) (k : string)
    (d : value) :
  In AttributeError classes -> raises_only classes (py_get v k d).
Proof. intros Hc e. destruct v; cbn; intros [= <-]; exact Hc. Qed.

Lemma raises_only_py_iter (classes : list exn_class) (v : value) :
  In TypeError classes -> raises_only classes (py_iter v).
Proof. intros Hc e. destruct v; cbn; intros [= <-]; exact Hc. Qed.

Lemma raises_only_py_getitem (classes : list exn_class) (v : value)
    (k : string) :
  In TypeError classes -> In KeyError classes ->
  raises_only classes (py_getitem v k).
Proof.
  intros Ht Hk e.
  destruct v as [| | | | |kvs]; cbn; try (intros [= <-]; exact Ht).
  destruct (assoc k kvs); intros [= <-]; exact Hk.
Qed.

Lemma raises_only_py_first (classes : list exn_class) (v : value) :
  In TypeError classes -> In KeyError classes -> In IndexError classes ->
  raises_only classes (py_first v).
Proof.
  intros Ht Hk Hi e.
  destruct v as [| | |s|xs|kvs]; cbn; try (intros [= <-]; assumption).
  - destruct s; intros [= <-]; assumption.
  - destruct xs; intros [= <-]; assumption.
Qed.

Lemma raises_only_set_contains (classes : list exn_class)
    (seen : list value) (k : value) :
  In TypeError classes -> raises_only classes (set_contains seen k).
Proof.
  intros Hc e. unfold set_contains. destruct (hashable k); intros [= <-].
  exact Hc.
Qed.

Ltac raises_only_step :=
  first [ apply raises_only_Ok
        | apply raises_only_py_get; cbn; tauto
        | apply raises_only_py_iter; cbn; tauto
        | apply raises_only_py_getitem; cbn; tauto
        | apply raises_only_py_first; cbn; tauto
        | apply raises_only_set_contains; cbn; tauto
        | apply raises_only_bind; [|intros ?]
        | apply raises_only_foldM; intros ? ?
        | apply raises_only_mapM; intros ?
        | match goal with
          | |- raises_only _ (if ?b then _ else _) => destruct b
          | |- raises_only _ (let '(_, _) := ?p in _) => destruct p
          end ].

Lemma raises_only_clean_first_text (classes : list exn_class) (key : string)
    (metas : list value) (default : value) :
  In AttributeError classes ->
  raises_only classes (Clean.first_text key metas default).
Proof.
  intros Hc. induction metas as [|m metas IH]; cbn [Clean.first_text].
  - apply raises_only_Ok.
  - apply raises_only_bind; [apply raises_only_py_get, Hc | intros t].
    destruct (eq_str t key); [apply raises_only_py_get, Hc | apply IH].
Qed.

(** X20. The exceptions of the pure stages.  Metadata extraction never
    raises [KeyError]: a missing key is defaulted, and the only failures
    are [AttributeError] (a [get] on something that is not a dictionary)
    and, in [testyboy.py], [TypeError] (iterating something that is not
    iterable).  [deduplicate_results] raises nothing but [AttributeError],
    [KeyError] and [TypeError]; the extractor of [clean.py], which indexes
    the first section, may also raise [IndexError]. *)
Theorem exceptions_of_the_pure_stages :
  (forall entry timestamp,
     raises_only [AttributeError; TypeError]
       (Testyboy.extract_track_info entry timestamp))
  /\ (forall entry timestamp,
        raises_only [AttributeError]
          (TestUi.extract_track_info entry timestamp))
  /\ (forall results,
        raises_only [AttributeError; KeyError; TypeError]
          (Testyboy.deduplicate_results results))
  /\ (forall data,
        raises_only [AttributeError; KeyError; TypeError; IndexError]
          (Clean.extract_track_info data)).
Proof.
  split; [|split; [|split]].
  - intros entry timestamp.
    unfold Testyboy.extract_track_info, Testyboy.scan_section,
      Testyboy.scan_meta.
    repeat raises_only_step.
  - intros entry timestamp. unfold TestUi.extract_track_info.
    repeat raises_only_step.
  - intros results.
    unfold Testyboy.deduplicate_results, Testyboy.dedup_step.
    repeat raises_only_step.
  - intros data.
    unfold Clean.extract_track_info, Clean.extract_item,
      Clean.first_section_metadata.
    repeat first [ apply raises_only_clean_first_text; cbn; tauto
                 | raises_only_step ].
Qed.
